(** * Red Day DCA Alerter: the trigger state machine

    A shallow embedding of [red_day_dca_alerter/main.py] (the scheduled
    alerter) and [trigger_now.py] (the manual one-shot script), and the
    properties of their trigger logic.

    Python dictionaries are finite maps from strings, prices are binary64
    floats, the state file and the sequence of externally visible actions
    (file writes, mails handed to SMTP) form an explicit world that every
    function threads, and a Python exception is the [Raise] result.

    Two things that can happen to the programs are outside the model: an
    error of the file system when [STATE_FILE.exists()] looks the state
    file up, and an interrupt of the operator that arrives inside a job
    (the model has it arrive between two passes of the loop). *)

From Stdlib Require Import Floats ZArith.
From stdpp Require Import gmap strings list.

Set Warnings "-inexact-float".
Open Scope string_scope.
Open Scope list_scope.
Open Scope nat_scope.

(** ** Python values *)

(** The label stored under the ["type"] key of a record and shown in the
    mails.  The scheduled paths build it with an f-string around the drop;
    the text rendering of the float is left symbolic. *)
Inductive trigger_type :=
  | IntradayDip (drop : float)     (* f"Intraday dip ({drop_pct:.2f}% ≤ -4.7%)" *)
  | CloseToClose (drop : float)    (* f"Close-to-close ({drop_pct:.2f}% ≤ -3.3%)" *)
  | ManualTrigger.                 (* "Manual trigger" *)

(** Values stored at the leaves of the state file. *)
Inductive atom :=
  | SNone
  | SInt (n : Z)
  | SFloat (x : float)
  | SStr (s : string)
  | SLabel (t : trigger_type).

(** A value of the state dictionary: a leaf, or the list of trigger
    records (each record a dictionary of leaves). *)
Inductive value :=
  | Atom (a : atom)
  | Rows (h : list (gmap string atom)).

Abbreviation record := (gmap string atom).
Abbreviation dict := (gmap string value).

Inductive exn :=
  | KeyError (k : string)
  | TypeError
  | ValueError
  | AttributeError
  | ZeroDivisionError
  | OverflowError
  | OSError.

Inductive result (A : Type) :=
  | Ok (a : A)
  | Raise (e : exn).
Arguments Ok {A} a.
Arguments Raise {A} e.

Definition rbind {A B} (r : result A) (f : A → result B) : result B :=
  match r with
  | Ok a => f a
  | Raise e => Raise e
  end.

(** [d[k]] *)
Definition getitem {V} (d : gmap string V) (k : string) : result V :=
  match d !! k with
  | Some v => Ok v
  | None => Raise (KeyError k)
  end.

(** [v >= k] for an integer constant [k] *)
Definition py_ge (v : value) (k : Z) (kf : float) : result bool :=
  match v with
  | Atom (SInt n) => Ok (k <=? n)%Z
  | Atom (SFloat x) => Ok (kf <=? x)%float
  | _ => Raise TypeError
  end.

(** [v + 1] *)
Definition py_add1 (v : value) : result atom :=
  match v with
  | Atom (SInt n) => Ok (SInt (n + 1))
  | Atom (SFloat x) => Ok (SFloat (x + 1))
  | _ => Raise TypeError
  end.

(** [v == s] for a string [s]: values of another type are simply unequal. *)
Definition py_eq_str (v : value) (s : string) : bool :=
  match v with
  | Atom (SStr s') => bool_decide (s' = s)
  | _ => false
  end.

(** The integers [float(n)] accepts: the conversion rounds to nearest and
    raises [OverflowError] when the result would be 2^1024, that is from
    the magnitude 2^1024 - 2^970 on. *)
Definition int_fits_float (n : Z) : bool :=
  (Z.abs n <? 2 ^ 1024 - 2 ^ 970)%Z.

(** [n / k] on an integer [n] and a positive integer constant [k]: the
    true division rounds the exact quotient to nearest and raises
    [OverflowError] under the same condition. *)
Definition quotient_fits_float (n k : Z) : bool :=
  (Z.abs n <? k * (2 ^ 1024 - 2 ^ 970))%Z.

(** [x / y] on floats: Python raises on a zero divisor (of either sign). *)
Definition py_div (x y : float) : result float :=
  if (y =? 0)%float then Raise ZeroDivisionError else Ok (x / y)%float.

(** ** Configuration *)

Definition INTRADAY_DIP_THRESHOLD : float := (-4.7)%float.
Definition CLOSE_TO_CLOSE_THRESHOLD : float := (-3.3)%float.
Definition MAX_TRIGGERS : Z := 15.
Definition MAX_TRIGGERS_f : float := 15%float.

Inductive recipient := BROKER_EMAIL | PERSONAL_EMAIL.

(** ** The world *)

(** What the state file holds: a JSON object, or bytes [json.load]
    rejects (a write that was cut short leaves those). *)
Inductive file_content :=
  | Json (st : dict)
  | Garbage.

(** The mails the two programs compose. *)
Inductive mail :=
  | BrokerOrder (number : atom) (price close drop : float) (label : trigger_type)
  | PersonalAlert (number : atom) (price close drop : float) (label : trigger_type)
  | ManualBrokerOrder (number : atom) (price : float)
  | ManualPersonalAlert (number : atom) (price : float)
  | CompletionSummary (rows : list (atom * atom * atom * atom)).

(** Externally visible actions, in the order they happen. *)
Inductive event :=
  | Saved (st : dict)                        (* the state file was rewritten *)
  | SaveFailed                               (* opening or writing it failed *)
  | Sent (to : recipient) (m : mail)         (* SMTP accepted the mail *)
  | SendFailed (to : recipient) (m : mail)   (* SMTP was tried and failed *)
  | NotSent (to : recipient) (m : mail).     (* no password: nothing was tried *)

Record world := World {
  disk : option file_content;   (* [None]: dca_state.json does not exist *)
  trace : list event
}.

Definition emit (ev : event) (w : world) : world :=
  World (disk w) (trace w ++ [ev]).

(** How a write of the state file ends: [open(.., 'w')] truncates first, so
    a failure inside [json.dump] leaves a file that no longer parses. *)
Inductive disk_mode := WriteOk | OpenFails | DumpFails.

(** Everything one run reads from outside: the clock, Binance, the disk
    and the mail server. *)
Record env := Env {
  today_utc : string;                     (* the date read by check_* *)
  exec_date : string;                     (* the date read when the trigger executes *)
  exec_time : string;                     (* the ISO timestamp read there *)
  daily_close : option (float * string);  (* get_binance_daily_close(1) *)
  btc_price : option float;               (* get_binance_btc_price() *)
  today_close : option float;             (* get_today_close() *)
  disk_mode_of : dict → disk_mode;        (* how the write of a given state ends *)
  SENDER_PASSWORD : bool;                 (* is the password non-empty *)
  smtp_ok : mail → bool
}.

(** ** The monad of the embedding: world passing with exceptions *)

Definition M (A : Type) : Type := world → result A * world.

Definition ret {A} (a : A) : M A := λ w, (Ok a, w).
Definition lift {A} (r : result A) : M A := λ w, (r, w).
Definition bind {A B} (m : M A) (f : A → M B) : M B :=
  λ w, match m w with
       | (Ok a, w') => f a w'
       | (Raise e, w') => (Raise e, w')
       end.

Declare Scope py_scope.
Delimit Scope py_scope with py.
Notation "x <- m ;; k" := (bind m (λ x, k))
  (at level 100, m at next level, right associativity) : py_scope.
Notation "m ;;; k" := (bind m (λ _, k))
  (at level 100, right associativity) : py_scope.
Open Scope py_scope.

(** What a check reports.  The Python functions return [None] on every
    path; the embedding tags each return site with the reason the logic
    names.  No return site of the code corresponds to [InvalidInput]. *)
Inductive reason :=
  | Complete            (* trigger_count >= MAX_TRIGGERS *)
  | AlreadyFiredToday   (* last_trigger_date == today *)
  | MissingReference    (* yesterday's close could not be fetched *)
  | MissingPrice        (* the current price / today's close could not be fetched *)
  | AboveThreshold      (* the drop did not reach the threshold *)
  | InvalidInput.

Inductive outcome :=
  | NoFire (why : reason)
  | Fire (label : trigger_type).

(** ** Allocation tables *)

(** A dictionary from asset to amount, in insertion order. *)
Abbreviation table := (list (string * float)).

(** [d[k] = v] *)
Fixpoint table_set (d : table) (k : string) (v : float) : table :=
  match d with
  | [] => [(k, v)]
  | (k', v') :: d' =>
      if decide (k' = k) then (k, v) :: d' else (k', v') :: table_set d' k v
  end.

(** [d.update(u)] *)
Definition table_update (d u : table) : table :=
  foldl (λ acc kv, table_set acc kv.1 kv.2) d u.

(** [sum(d.values())] on floats.  How the values are added is the
    interpreter's choice: up to CPython 3.11 from left to right; from 3.12
    on [sum] keeps Neumaier's compensation term beside the running sum and
    adds it at the end, unless it is zero or not finite. *)
Inductive summation := LeftToRight | Compensated.

Definition sum_plain (xs : list float) : float :=
  foldl (λ acc x, (acc + x)%float) 0%float xs.

Definition neumaier_step (sc : float * float) (x : float) : float * float :=
  let s := sc.1 in
  let c := sc.2 in
  let t := (s + x)%float in
  (t, if (abs x <=? abs s)%float
      then (c + ((s - t) + x))%float
      else (c + ((x - t) + s))%float).

Definition sum_compensated (xs : list float) : float :=
  match xs with
  | [] => 0%float
  | x :: xs' =>
      let sc := foldl neumaier_step ((0 + x)%float, 0%float) xs' in
      if negb (sc.2 =? 0)%float && is_finite sc.2
      then (sc.1 + sc.2)%float
      else sc.1
  end.

Definition sum_values (how : summation) (d : table) : float :=
  match how with
  | LeftToRight => sum_plain (map snd d)
  | Compensated => sum_compensated (map snd d)
  end.


(** ** What Binance answers *)

(** A field of a kline or of the ticker: Binance sends integers (the
    times) and decimal strings (the prices). *)
Inductive kfield :=
  | KInt (n : Z)
  | KStr (s : string).

Abbreviation candle := (list kfield).

(** The two library conversions the price functions apply to a field;
    [None] stands for the exception the call raises.
    [py_float x] is [float(x)];
    [utc_date ms] is
    [datetime.fromtimestamp(ms / 1000, tz=timezone.utc).strftime("%Y-%m-%d")]. *)
Record builtins := Builtins {
  py_float : kfield → option float;
  utc_date : Z → option string
}.

(** ** main.py *)

Module Main.

Definition default_state : dict :=
  <["trigger_count" := Atom (SInt 0)]>
  (<["last_trigger_date" := Atom SNone]>
  (<["yesterday_close" := Atom SNone]>
  (<["yesterday_close_date" := Atom SNone]>
  (<["trigger_history" := Rows []]> ∅)))).

(** The keys of [default_state], in the order the dictionary iterates. *)
Definition default_keys : list string :=
  ["trigger_count"; "last_trigger_date"; "yesterday_close";
   "yesterday_close_date"; "trigger_history"].

(** One round of the merge loop: [if key not in state: state[key] = default_state[key]]. *)
Definition merge_key (state : dict) (key : string) : dict :=
  match state !! key with
  | Some _ => state
  | None =>
      match default_state !! key with
      | Some v => <[key := v]> state
      | None => state
      end
  end.

Definition merge_defaults (state : dict) : dict :=
  foldl merge_key state default_keys.

(** [load_state].  [STATE_FILE.exists()] is taken to answer: an error of
    the file system at that call (a directory that may not be searched,
    say) would be raised from there, outside the [try], and is outside the
    model. *)
Definition load_state : M dict := λ w,
  match disk w with
  | Some (Json state) => (Ok (merge_defaults state), w)
  | Some Garbage => (Ok default_state, w)     (* json.load raised: logged *)
  | None => (Ok default_state, w)
  end.

(** The write itself; the result tells whether it went through. *)
Definition write_file (e : env) (state : dict) : M bool := λ w,
  match disk_mode_of e state with
  | WriteOk => (Ok true, World (Some (Json state)) (trace w ++ [Saved state]))
  | OpenFails => (Ok false, emit SaveFailed w)
  | DumpFails => (Ok false, World (Some Garbage) (trace w ++ [SaveFailed]))
  end.

(** [save_state] catches every exception of the write and only logs it. *)
Definition save_state (e : env) (state : dict) : M unit :=
  _ <- write_file e state ;; ret tt.

Definition send_email (e : env) (to : recipient) (m : mail) : M bool := λ w,
  if negb (SENDER_PASSWORD e) then (Ok false, emit (NotSent to m) w)
  else if smtp_ok e m then (Ok true, emit (Sent to m) w)
  else (Ok false, emit (SendFailed to m) w).

(** [f"{x:,.2f}"]: defined on numbers only, and an integer is converted
    to a float first. *)
Definition format_2f (a : atom) : result atom :=
  match a with
  | SInt n => if int_fits_float n then Ok a else Raise OverflowError
  | SFloat _ => Ok a
  | SNone => Raise TypeError
  | SStr _ | SLabel _ => Raise ValueError
  end.

(** One row of the history table of the completion mail; the f-string
    evaluates its fields left to right. *)
Definition history_row (t : record) : result (atom * atom * atom * atom) :=
  rbind (getitem t "number") (λ number,
  rbind (getitem t "date") (λ date,
  rbind (getitem t "price") (λ price,
  rbind (format_2f price) (λ price_s,
  rbind (getitem t "drop_pct") (λ drop_pct,
  rbind (format_2f drop_pct) (λ drop_s,
  Ok (number, date, price_s, drop_s))))))).

Fixpoint history_rows (h : list record) : result (list (atom * atom * atom * atom)) :=
  match h with
  | [] => Ok []
  | t :: h' =>
      rbind (history_row t) (λ row,
      rbind (history_rows h') (λ rows, Ok (row :: rows)))
  end.

(** [for t in state["trigger_history"]]: what the loop iterates over. *)
Definition iter_history (v : value) : result (list record) :=
  match v with
  | Rows h => Ok h
  | Atom (SStr "") => Ok []
  | Atom _ => Raise TypeError
  end.

Definition send_completion_email (e : env) : M unit :=
  state <- load_state ;;
  v <- lift (getitem state "trigger_history") ;;
  h <- lift (iter_history v) ;;
  rows <- lift (history_rows h) ;;
  _ <- send_email e PERSONAL_EMAIL (CompletionSummary rows) ;;
  ret tt.

(** [state["trigger_history"].append(record)] *)
Definition append_history (state : dict) (r : record) : result dict :=
  rbind (getitem state "trigger_history") (λ v,
  match v with
  | Rows h => Ok (<["trigger_history" := Rows (h ++ [r])]> state)
  | Atom _ => Raise AttributeError
  end).

Definition trigger_record (number : atom) (date time : string)
    (price close drop : float) (label : trigger_type) : record :=
  <["number" := number]>
  (<["date" := SStr date]>
  (<["time" := SStr time]>
  (<["price" := SFloat price]>
  (<["yesterday_close" := SFloat close]>
  (<["drop_pct" := SFloat drop]>
  (<["type" := SLabel label]> ∅)))))).

(** The in-memory part of [execute_trigger]: everything before the save. *)
Definition fire_update (e : env) (state : dict)
    (price close drop : float) (label : trigger_type) : result (atom * dict) :=
  rbind (getitem state "trigger_count") (λ count,
  rbind (py_add1 count) (λ trigger_number,
  let state1 := <["trigger_count" := Atom trigger_number]> state in
  let state2 := <["last_trigger_date" := Atom (SStr (exec_date e))]> state1 in
  let r := trigger_record trigger_number (exec_date e) (exec_time e)
             price close drop label in
  rbind (append_history state2 r) (λ state3,
  Ok (trigger_number, state3)))).

(** [(trigger_number/MAX_TRIGGERS)*100], the width of the progress bar
    that [generate_personal_email] computes while it composes the mail: on
    an integer the division is the true division, which raises when the
    quotient is beyond the floats; on a float it cannot raise. *)
Definition progress (trigger_number : atom) : result unit :=
  match trigger_number with
  | SInt n =>
      if quotient_fits_float n MAX_TRIGGERS then Ok tt else Raise OverflowError
  | _ => Ok tt
  end.

Definition execute_trigger (e : env) (state : dict)
    (current_price yesterday_close drop_pct : float)
    (trigger_type : trigger_type) : M unit :=
  fired <-
     lift (fire_update e state current_price yesterday_close drop_pct trigger_type) ;;
  let '(trigger_number, state') := fired in
  save_state e state' ;;;
  _ <- send_email e BROKER_EMAIL
         (BrokerOrder trigger_number current_price yesterday_close drop_pct trigger_type) ;;
  lift (progress trigger_number) ;;;
  _ <- send_email e PERSONAL_EMAIL
         (PersonalAlert trigger_number current_price yesterday_close drop_pct trigger_type) ;;
  done_all <- lift (py_ge (Atom trigger_number) MAX_TRIGGERS MAX_TRIGGERS_f) ;;
  if (done_all : bool) then send_completion_email e else ret tt.

(** [((current - reference) / reference) * 100] *)
Definition drop_percent (current reference : float) : result float :=
  rbind (py_div (current - reference)%float reference) (λ q, Ok (q * 100)%float).

Definition check_and_trigger (e : env) : M outcome :=
  state <- load_state ;;
  count <- lift (getitem state "trigger_count") ;;
  full <- lift (py_ge count MAX_TRIGGERS MAX_TRIGGERS_f) ;;
  if (full : bool) then ret (NoFire Complete) else
  last <- lift (getitem state "last_trigger_date") ;;
  if py_eq_str last (today_utc e) then ret (NoFire AlreadyFiredToday) else
  match daily_close e with
  | None => ret (NoFire MissingReference)
  | Some (yesterday_close, yesterday_date) =>
      stored <- lift (getitem state "yesterday_close_date") ;;
      state <- (if negb (py_eq_str stored yesterday_date) then
                  let state' :=
                    <["yesterday_close_date" := Atom (SStr yesterday_date)]>
                      (<["yesterday_close" := Atom (SFloat yesterday_close)]> state) in
                  save_state e state' ;;; ret state'
                else ret state) ;;
      match btc_price e with
      | None => ret (NoFire MissingPrice)
      | Some current_price =>
          drop_pct <- lift (drop_percent current_price yesterday_close) ;;
          if (drop_pct <=? INTRADAY_DIP_THRESHOLD)%float then
            execute_trigger e state current_price yesterday_close drop_pct
              (IntradayDip drop_pct) ;;;
            ret (Fire (IntradayDip drop_pct))
          else ret (NoFire AboveThreshold)
      end
  end.

Definition check_daily_close (e : env) : M outcome :=
  state <- load_state ;;
  count <- lift (getitem state "trigger_count") ;;
  full <- lift (py_ge count MAX_TRIGGERS MAX_TRIGGERS_f) ;;
  if (full : bool) then ret (NoFire Complete) else
  last <- lift (getitem state "last_trigger_date") ;;
  if py_eq_str last (today_utc e) then ret (NoFire AlreadyFiredToday) else
  match today_close e, daily_close e with
  | None, _ => ret (NoFire MissingPrice)
  | Some _, None => ret (NoFire MissingReference)
  | Some close_today, Some (yesterday_close, _) =>
      drop_pct <- lift (drop_percent close_today yesterday_close) ;;
      if (drop_pct <=? CLOSE_TO_CLOSE_THRESHOLD)%float then
        execute_trigger e state close_today yesterday_close drop_pct
          (CloseToClose drop_pct) ;;;
        ret (Fire (CloseToClose drop_pct))
      else ret (NoFire AboveThreshold)
  end.

(** The price functions.  Each wraps its whole body in [try/except] and
    answers [None] (or [(None, None)]) on any exception; the response is
    [None] when the request itself raised, [raise_for_status] included. *)

Definition get_binance_btc_price (bi : builtins)
    (response : option (gmap string kfield)) : option float :=
  data ← response;
  price ← data !! "price";
  py_float bi price.

Definition get_binance_daily_close (bi : builtins) (days_ago : nat)
    (response : option (list candle)) : option (float * string) :=
  data ← response;
  if decide (days_ago + 1 ≤ length data) then
    candle ← data !! (length data - (days_ago + 1));   (* data[-(days_ago + 1)] *)
    close ← candle !! 4;
    close_price ← py_float bi close;
    open_time ← candle !! 0;
    match open_time with
    | KInt ms => date ← utc_date bi ms; Some (close_price, date)
    | KStr _ => None
    end
  else None.

Definition get_today_close (bi : builtins) (current_time_ms : Z)
    (response : option (list candle)) : option float :=
  data ← response;
  match data with
  | [] => None
  | candle :: _ =>
      close_time ← candle !! 6;
      match close_time with
      | KInt close_time_ms =>
          if (close_time_ms <? current_time_ms)%Z
          then close ← candle !! 4; py_float bi close
          else None
      | KStr _ => None
      end
  end.

(** The orders.  [generate_broker_email] and [generate_personal_email]
    build the table of crypto assets of a trigger the same way; the mails
    render it row by row. *)

Definition CORE_CRYPTO_ALLOCATIONS : table :=
  [("LINK", 666.67%float); ("ONDO", 533.33%float); ("TAO", 533.33%float);
   ("RENDER", 533.33%float); ("TRAC", 333.33%float)].

Definition SPEC_CRYPTO_ALLOCATIONS : table :=
  [("BANANA", 100.00%float); ("BONK", 100.00%float)].

Definition ETORO_ALLOCATIONS : table :=
  [("COIN", 233.33%float); ("NVDA", 200.00%float); ("PLTR", 166.67%float)].

(** [trigger_number % 3 == 0] *)
Definition is_third_trigger (trigger_number : Z) : bool :=
  (trigger_number mod 3 =? 0)%Z.

(** [assets] of [generate_broker_email]. *)
Definition assets (trigger_number : Z) : table :=
  let assets := CORE_CRYPTO_ALLOCATIONS in
  if is_third_trigger trigger_number
  then table_update assets SPEC_CRYPTO_ALLOCATIONS
  else assets.

Definition total_amount (how : summation) (trigger_number : Z) : float :=
  sum_values how (assets trigger_number).

(** [crypto_assets] and [total_etoro] of [generate_personal_email]. *)
Definition crypto_assets (trigger_number : Z) : table :=
  let crypto_assets := CORE_CRYPTO_ALLOCATIONS in
  if is_third_trigger trigger_number
  then table_update crypto_assets SPEC_CRYPTO_ALLOCATIONS
  else crypto_assets.

Definition total_etoro (how : summation) : float :=
  sum_values how ETORO_ALLOCATIONS.

(** The monitoring loop. *)

(** The two jobs [main] schedules; each run of a job reads the world of
    its own moment. *)
Inductive job :=
  | CheckAndTrigger (e : env)     (* every CHECK_INTERVAL_SECONDS seconds *)
  | CheckDailyClose (e : env).    (* every day at 00:05 *)

Definition run_job (j : job) : M unit :=
  match j with
  | CheckAndTrigger e => _ <- check_and_trigger e ;; ret tt
  | CheckDailyClose e => _ <- check_daily_close e ;; ret tt
  end.

(** [schedule.run_pending()] on the jobs that are due, in the order it
    runs them; an exception of a job is not caught. *)
Fixpoint run_pending (due : list job) : M unit :=
  match due with
  | [] => ret tt
  | j :: due' => run_job j ;;; run_pending due'
  end.

(** How [main] returns. *)
Inductive exit :=
  | AlreadyComplete   (* "All triggers already completed. Exiting." *)
  | AllComplete       (* "All triggers complete. Shutting down." *)
  | Interrupted.      (* KeyboardInterrupt: "Shutting down..." *)

(** The [while True] loop.  [ticks] lists, pass by pass, the jobs that are
    due at that pass, and ends where the operator interrupts the program.
    The model has the interrupt arrive between two passes, in
    [time.sleep(1)].  An interrupt that arrives inside a job cuts that job
    short wherever it is, and is outside the model: what is proved of
    [main] is proved of the runs that end otherwise than by [Interrupted],
    which no interrupt has touched. *)
Fixpoint main_loop (ticks : list (list job)) : M exit :=
  match ticks with
  | [] => ret Interrupted
  | due :: ticks' =>
      run_pending due ;;;
      state <- load_state ;;
      count <- lift (getitem state "trigger_count") ;;
      full <- lift (py_ge count MAX_TRIGGERS MAX_TRIGGERS_f) ;;
      if (full : bool) then ret AllComplete else main_loop ticks'
  end.

(** [main()]; [e] is the world the initial check reads. *)
Definition main (e : env) (ticks : list (list job)) : M exit :=
  state <- load_state ;;
  count <- lift (getitem state "trigger_count") ;;
  full <- lift (py_ge count MAX_TRIGGERS MAX_TRIGGERS_f) ;;
  if (full : bool) then ret AlreadyComplete else
  check_and_trigger e ;;;
  main_loop ticks.

End Main.

(** ** trigger_now.py *)

Module TriggerNow.

Definition default_state : dict :=
  <["trigger_count" := Atom (SInt 0)]>
  (<["last_trigger_date" := Atom SNone]>
  (<["yesterday_close" := Atom SNone]>
  (<["yesterday_close_date" := Atom SNone]>
  (<["trigger_history" := Rows []]> ∅)))).

(** Returns what [json.load] gives, as it is.  As in main.py,
    [STATE_FILE.exists()] is taken to answer. *)
Definition load_state : M dict := λ w,
  match disk w with
  | Some (Json state) => (Ok state, w)
  | Some Garbage => (Ok default_state, w)
  | None => (Ok default_state, w)
  end.

(** No handler here: a failed write raises. *)
Definition save_state (e : env) (state : dict) : M unit := λ w,
  match disk_mode_of e state with
  | WriteOk => (Ok tt, World (Some (Json state)) (trace w ++ [Saved state]))
  | OpenFails => (Raise OSError, emit SaveFailed w)
  | DumpFails => (Raise OSError, World (Some Garbage) (trace w ++ [SaveFailed]))
  end.

Definition send_email (e : env) (to : recipient) (m : mail) : M bool := λ w,
  if negb (SENDER_PASSWORD e) then (Ok false, emit (NotSent to m) w)
  else if smtp_ok e m then (Ok true, emit (Sent to m) w)
  else (Ok false, emit (SendFailed to m) w).

Definition get_btc_price (e : env) : float :=
  match btc_price e with
  | Some p => p
  | None => 97000%float   (* Fallback *)
  end.

Definition manual_record (number : atom) (date time : string) (price : float) : record :=
  <["number" := number]>
  (<["date" := SStr date]>
  (<["time" := SStr time]>
  (<["price" := SFloat price]>
  (<["type" := SLabel ManualTrigger]> ∅)))).

(** [state["trigger_history"].append(record)] *)
Definition append_history (state : dict) (r : record) : result dict :=
  rbind (getitem state "trigger_history") (λ v,
  match v with
  | Rows h => Ok (<["trigger_history" := Rows (h ++ [r])]> state)
  | Atom _ => Raise AttributeError
  end).

(** The body under [if __name__ == "__main__"]. *)
Definition main (e : env) : M unit :=
  state <- load_state ;;
  count <- lift (getitem state "trigger_count") ;;
  current_trigger <- lift (py_add1 count) ;;
  let price := get_btc_price e in
  _ <- send_email e BROKER_EMAIL (ManualBrokerOrder current_trigger price) ;;
  _ <- send_email e PERSONAL_EMAIL (ManualPersonalAlert current_trigger price) ;;
  let state1 := <["trigger_count" := Atom current_trigger]> state in
  let state2 := <["last_trigger_date" := Atom (SStr (exec_date e))]> state1 in
  state3 <- lift (append_history state2
              (manual_record current_trigger (exec_date e) (exec_time e) price)) ;;
  save_state e state3.

(** The tables of the script, and the crypto assets its two mails list. *)

Definition CORE_CRYPTO_ALLOCATIONS : table :=
  [("LINK", 666.67%float); ("ONDO", 533.33%float); ("TAO", 533.33%float);
   ("RENDER", 533.33%float); ("TRAC", 333.33%float)].

Definition SPEC_CRYPTO_ALLOCATIONS : table :=
  [("BANANA", 100.00%float); ("BONK", 100.00%float)].

Definition ETORO_ALLOCATIONS : table :=
  [("COIN", 233.33%float); ("NVDA", 200.00%float); ("PLTR", 166.67%float)].

Definition is_third_trigger (trigger_number : Z) : bool :=
  (trigger_number mod 3 =? 0)%Z.

Definition assets (trigger_number : Z) : table :=
  let assets := CORE_CRYPTO_ALLOCATIONS in
  if is_third_trigger trigger_number
  then table_update assets SPEC_CRYPTO_ALLOCATIONS
  else assets.

Definition total_amount (how : summation) (trigger_number : Z) : float :=
  sum_values how (assets trigger_number).

Definition crypto_assets (trigger_number : Z) : table :=
  let crypto_assets := CORE_CRYPTO_ALLOCATIONS in
  if is_third_trigger trigger_number
  then table_update crypto_assets SPEC_CRYPTO_ALLOCATIONS
  else crypto_assets.

Definition total_etoro (how : summation) : float :=
  sum_values how ETORO_ALLOCATIONS.

End TriggerNow.

(** ** Runs *)

(** One invocation of either program.  An exception ends the process; the
    next invocation starts from whatever the disk holds. *)
Inductive cycle :=
  | Intraday (e : env)       (* schedule: check_and_trigger *)
  | DailyClose (e : env)     (* schedule: check_daily_close *)
  | Manual (e : env).        (* python trigger_now.py *)

Definition cycle_env (c : cycle) : env :=
  match c with Intraday e | DailyClose e | Manual e => e end.

Definition is_scheduled (c : cycle) : bool :=
  match c with Manual _ => false | _ => true end.

Definition run_cycle (c : cycle) (w : world) : world :=
  match c with
  | Intraday e => snd (Main.check_and_trigger e w)
  | DailyClose e => snd (Main.check_daily_close e w)
  | Manual e => snd (TriggerNow.main e w)
  end.

Definition run_cycles (cs : list cycle) (w : world) : world :=
  foldl (λ w c, run_cycle c w) w cs.

Definition fresh : world := World None [].

(** One call of the executor on the state loaded from the disk, with the
    arguments a caller hands it. *)
Record firing := Firing {
  f_env : env;
  f_price : float;
  f_close : float;
  f_drop : float;
  f_label : trigger_type
}.

Definition execute (f : firing) (w : world) : world :=
  snd ((state <- Main.load_state ;;
        Main.execute_trigger (f_env f) state (f_price f) (f_close f) (f_drop f)
          (f_label f)) w).

Definition run_executions (fs : list firing) (w : world) : world :=
  foldl (λ w f, execute f w) w fs.

(** ** Reading a world *)

(** The state the next cycle of main.py will start from. *)
Definition stored_state (w : world) : dict :=
  match Main.load_state w with
  | (Ok st, _) => st
  | (Raise _, _) => ∅
  end.

(** The state the manual script starts from. *)
Definition raw_state (w : world) : dict :=
  match TriggerNow.load_state w with
  | (Ok st, _) => st
  | (Raise _, _) => ∅
  end.

Definition history_of (st : dict) : list record :=
  match st !! "trigger_history" with
  | Some (Rows h) => h
  | _ => []
  end.

(** The events of a trace that hand a mail to the notifier. *)
Definition is_send (ev : event) : bool :=
  match ev with
  | Sent _ _ | SendFailed _ _ | NotSent _ _ => true
  | _ => false
  end.

(** A record carries the given date. *)
Definition record_on (d : string) (r : record) : bool :=
  match r !! "date" with
  | Some (SStr s) => bool_decide (s = d)
  | _ => false
  end.

(** Number of records of a history dated [d]. *)
Definition count_on (d : string) (h : list record) : nat :=
  length (filter (λ r, record_on d r = true) h).

(** The sequence numbers of a history, and the numbers 1..n. *)
Definition numbers (h : list record) : list (option atom) :=
  map (λ r, r !! "number") h.

Definition one_to (n : nat) : list (option atom) :=
  map (λ i, Some (SInt (Z.of_nat i))) (seq 1 n).

(** ** What a write and a send leave behind *)

(** What a write leaves on the disk, and the event it records. *)
Definition saved_disk (e : env) (st : dict) (old : option file_content)
    : option file_content :=
  match disk_mode_of e st with
  | WriteOk => Some (Json st)
  | OpenFails => old
  | DumpFails => Some Garbage
  end.

Definition save_event (e : env) (st : dict) : event :=
  match disk_mode_of e st with
  | WriteOk => Saved st
  | OpenFails | DumpFails => SaveFailed
  end.

Definition after_save (e : env) (st : dict) (w : world) : world :=
  World (saved_disk e st (disk w)) (trace w ++ [save_event e st]).

(** The event one call of [send_email] records. *)
Definition mail_event (e : env) (to : recipient) (m : mail) : event :=
  if negb (SENDER_PASSWORD e) then NotSent to m
  else if smtp_ok e m then Sent to m
  else SendFailed to m.

(** The reference-close refresh of [check_and_trigger]. *)
Definition refresh (close : float) (date : string) (st : dict) : dict :=
  <["yesterday_close_date" := Atom (SStr date)]>
    (<["yesterday_close" := Atom (SFloat close)]> st).

(** The state and world an eligible intraday check carries past the
    reference-close refresh. *)
Definition refreshed (e : env) (w : world) (close : float) (date : string)
    : dict * world :=
  match stored_state w !! "yesterday_close_date" with
  | Some stored =>
      if negb (py_eq_str stored date)
      then (refresh close date (stored_state w),
            after_save e (refresh close date (stored_state w)) w)
      else (stored_state w, w)
  | None => (stored_state w, w)
  end.

(** ** Predicates on states and worlds *)

(** Both guards of the checks let the stored state through. *)
Definition eligible (e : env) (w : world) : Prop :=
  ∃ count last,
    stored_state w !! "trigger_count" = Some count
    ∧ py_ge count MAX_TRIGGERS MAX_TRIGGERS_f = Ok false
    ∧ stored_state w !! "last_trigger_date" = Some last
    ∧ py_eq_str last (today_utc e) = false.

(** What one scheduled check can do to the world: nothing, the refresh
    write alone, or a trigger executed on the loaded (possibly refreshed)
    state. *)
Inductive scheduled_step (e : env) (w : world) : world → Prop :=
  | step_idle :
      scheduled_step e w w
  | step_refresh close date :
      eligible e w →
      scheduled_step e w (after_save e (refresh close date (stored_state w)) w)
  | step_fire p c d l :
      eligible e w →
      scheduled_step e w
        (snd (Main.execute_trigger e (stored_state w) p c d l w))
  | step_refresh_fire close date p c d l :
      eligible e w →
      scheduled_step e w
        (snd (Main.execute_trigger e (refresh close date (stored_state w)) p c d l
                (after_save e (refresh close date (stored_state w)) w))).

(** The stored state already blocks every check run on date [d]: the
    counter is at the maximum, or the last trigger is dated [d]. *)
Definition settled (d : string) (w : world) : Prop :=
  ∃ count b,
    stored_state w !! "trigger_count" = Some count
    ∧ py_ge count MAX_TRIGGERS MAX_TRIGGERS_f = Ok b
    ∧ (b = true ∨ stored_state w !! "last_trigger_date" = Some (Atom (SStr d))).

Definition same_day (d : string) (c : cycle) : Prop :=
  is_scheduled c = true
  ∧ today_utc (cycle_env c) = d ∧ exec_date (cycle_env c) = d.

(** The counter is [n], the history has [n] records, and they are
    numbered 1, 2, ..., n in order. *)
Definition counted_at (n : nat) (st : dict) : Prop :=
  ∃ h, length h = n
       ∧ st !! "trigger_count" = Some (Atom (SInt (Z.of_nat n)))
       ∧ st !! "trigger_history" = Some (Rows h)
       ∧ numbers h = one_to n.

(** The counter equals the length of the history. *)
Definition counted (st : dict) : Prop := ∃ n, counted_at n st.


(** A property of states holds of the file and of every state a write of
    the trace put there. *)
Definition saved_in (Φ : dict → Prop) (ev : event) : Prop :=
  match ev with
  | Saved st => Φ st
  | _ => True
  end.

Definition on_disk (Φ : dict → Prop) (w : world) : Prop :=
  match disk w with
  | Some (Json st) => Φ st
  | _ => True
  end.

Definition always_written (Φ : dict → Prop) (w : world) : Prop :=
  on_disk Φ w ∧ Forall (saved_in Φ) (trace w).

(** Every write of the run goes through. *)
Definition disk_works (e : env) : Prop := ∀ st, disk_mode_of e st = WriteOk.




(** A record as one of the two programs builds it. *)
Inductive produced : record → Prop :=
  | produced_scheduled n date time p c d l :
      produced (Main.trigger_record n date time p c d l)
  | produced_manual n date time p :
      produced (TriggerNow.manual_record n date time p).

Definition manual_shaped (r : record) : Prop :=
  ∃ n date time p, r = TriggerNow.manual_record n date time p.

(** ** Sample inputs *)

Definition quiet_env (d : string) (close price : float) : env :=
  Env d d (d +:+ "T00:00:00+00:00") (Some (close, "2024-12-31")) (Some price)
      (Some price) (λ _, WriteOk) true (λ _, true).

Definition broken_disk_env (d : string) (close price : float) : env :=
  Env d d (d +:+ "T00:00:00+00:00") (Some (close, "2024-12-31")) (Some price)
      (Some price) (λ _, OpenFails) true (λ _, true).

Definition state_with (count : Z) (last : atom) : dict :=
  <["last_trigger_date" := Atom last]>
    (<["trigger_count" := Atom (SInt count)]> Main.default_state).

Definition world_of (st : dict) : world := World (Some (Json st)) [].

(** The state after a first intraday trigger at 95 against a close of 100. *)
Definition fired_once (d : string) : dict :=
  <["trigger_history" :=
      Rows [Main.trigger_record (SInt 1) d (d +:+ "T00:00:00+00:00") 95 100 (-5)
              (IntradayDip (-5))]]>
    (<["last_trigger_date" := Atom (SStr d)]>
       (<["trigger_count" := Atom (SInt 1)]> Main.default_state)).

Definition sample_firing (d : string) : firing :=
  Firing (quiet_env d 100 95) 95 100 (-5) (IntradayDip (-5)).

(** A state file written by an older version: only the counter. *)
Definition partial_file : dict := <["trigger_count" := Atom (SInt 2)]> ∅.

(** ** Further observations *)

(** The writes of a trace, without the mails. *)
Definition writes (t : list event) : list event :=
  filter (λ ev, is_send ev = false) t.

(** Two environments that differ at most in the mail settings. *)
Definition same_but_mail (e e' : env) : Prop :=
  today_utc e = today_utc e' ∧ exec_date e = exec_date e'
  ∧ exec_time e = exec_time e' ∧ daily_close e = daily_close e'
  ∧ btc_price e = btc_price e' ∧ today_close e = today_close e'
  ∧ ∀ st, disk_mode_of e st = disk_mode_of e' st.

(** Two worlds with the same file and the same writes so far. *)
Definition same_storage (w w' : world) : Prop :=
  disk w = disk w' ∧ writes (trace w) = writes (trace w').

Definition rel_result {A} (Q : A → A → Prop) (r r' : result A) : Prop :=
  match r, r' with
  | Ok a, Ok a' => Q a a'
  | Raise x, Raise x' => x = x'
  | _, _ => False
  end.

(** Two computations that answer alike and store alike. *)
Definition storage_sim {A} (Q : A → A → Prop) (m m' : M A) : Prop :=
  ∀ w w', same_storage w w' →
    rel_result Q (fst (m w)) (fst (m' w'))
    ∧ same_storage (snd (m w)) (snd (m' w')).

(** The row the completion mail shows for a record of the scheduled
    checks. *)
Definition row_of (r : record) : option (atom * atom * atom * atom) :=
  match r !! "number", r !! "date", r !! "price", r !! "drop_pct" with
  | Some n, Some d, Some p, Some x => Some (n, d, p, x)
  | _, _, _, _ => None
  end.

(** A record built by [execute_trigger]. *)
Definition scheduled_record (r : record) : Prop :=
  ∃ n date time p c d l, r = Main.trigger_record n date time p c d l.

Definition cycle_same_but_mail (c c' : cycle) : Prop :=
  match c, c' with
  | Intraday e, Intraday e' | DailyClose e, DailyClose e' | Manual e, Manual e' =>
      same_but_mail e e'
  | _, _ => False
  end.

(** [quiet_env] with no password configured and a mail server that is down. *)
Definition mute_env (d : string) (close price : float) : env :=
  Env d d (d +:+ "T00:00:00+00:00") (Some (close, "2024-12-31")) (Some price)
      (Some price) (λ _, WriteOk) false (λ _, false).

(** The history of a state is made of records of the scheduled checks, and
    its counter matches it. *)
Definition tidy (st : dict) : Prop :=
  counted st ∧ Forall scheduled_record (history_of st).

(** [last_trigger_date] is the date of the last record, or [None] when
    there is no record. *)
Definition dated (st : dict) : Prop :=
  match last (history_of st) with
  | None => st !! "last_trigger_date" = Some (Atom SNone)
  | Some r =>
      ∃ d, st !! "last_trigger_date" = Some (Atom (SStr d))
           ∧ r !! "date" = Some (SStr d)
  end.

Definition kept (st : dict) : Prop := counted st ∧ dated st.

(** The mail an event handed to [send_email], whatever became of it. *)
Definition mail_of (ev : event) : option (recipient * mail) :=
  match ev with
  | Sent to m | SendFailed to m | NotSent to m => Some (to, m)
  | _ => None
  end.

(** The mails addressed to the broker, in order. *)
Definition broker_mails (t : list event) : list mail :=
  omap (λ ev, match mail_of ev with
              | Some (BROKER_EMAIL, m) => Some m
              | _ => None
              end) t.

(** The trigger number of a buy order of the scheduled checks. *)
Definition order_no (m : mail) : option atom :=
  match m with
  | BrokerOrder n _ _ _ _ => Some n
  | _ => None
  end.

Definition is_completion (ev : event) : bool :=
  match mail_of ev with
  | Some (_, CompletionSummary _) => true
  | _ => false
  end.

Definition completions (t : list event) : nat :=
  length (filter (λ ev, is_completion ev = true) t).

Definition upto (k : nat) : list atom :=
  map (λ i, SInt (Z.of_nat i)) (seq 1 k).

(** The ledger of a run with a working disk: counter [k], one broker order
    per number up to [k], one summary exactly at the maximum. *)
Definition ledger (k : nat) (w : world) : Prop :=
  k ≤ 15
  ∧ counted_at k (stored_state w)
  ∧ on_disk tidy w
  ∧ map order_no (broker_mails (trace w)) = map Some (upto k)
  ∧ completions (trace w) = (if decide (k = 15) then 1 else 0).

(** [quiet_env] when the ticker cannot be fetched. *)
Definition no_price_env (d : string) (close : float) : env :=
  Env d d (d +:+ "T00:00:00+00:00") (Some (close, "2024-12-31")) None None
      (λ _, WriteOk) true (λ _, true).

(** What Binance answered to the requests of one check, with the clock
    and the library the price functions use. *)
Record feed := Feed {
  lib : builtins;
  now_ms : Z;                              (* the clock [get_today_close] reads *)
  ticker : option (gmap string kfield);    (* /api/v3/ticker/price *)
  klines_2 : option (list candle);         (* /api/v3/klines, limit 2 *)
  klines_1 : option (list candle)          (* /api/v3/klines, limit 1 *)
}.

(** The environment of a check whose three prices are computed from
    these answers. *)
Definition fed (f : feed) (e : env) : env :=
  Env (today_utc e) (exec_date e) (exec_time e)
      (Main.get_binance_daily_close (lib f) 1 (klines_2 f))
      (Main.get_binance_btc_price (lib f) (ticker f))
      (Main.get_today_close (lib f) (now_ms f) (klines_1 f))
      (disk_mode_of e) (SENDER_PASSWORD e) (smtp_ok e).

(** A check neither fired nor touched the world. *)
Definition nothing_happened (run : result outcome * world) (w : world) : Prop :=
  snd run = w ∧ ∀ l, fst run ≠ Ok (Fire l).

(** A library that knows two prices and two dates. *)
Definition sample_lib : builtins :=
  Builtins
    (λ x, match x with
          | KStr "100.00" => Some 100%float
          | KStr "95.00" => Some 95%float
          | _ => None
          end)
    (λ ms, if (ms =? 1735603200000)%Z then Some "2024-12-31"
           else if (ms =? 1735689600000)%Z then Some "2025-01-01"
           else None).

(** A daily kline: open time, open, high, low, close, volume, close time. *)
Definition kline (open_time : Z) (close : string) (close_time : Z) : candle :=
  [KInt open_time; KStr "0"; KStr "0"; KStr "0"; KStr close; KStr "0"; KInt close_time].

(** The run of the monitor as a list of cycles. *)
Definition job_cycle (j : Main.job) : cycle :=
  match j with
  | Main.CheckAndTrigger e => Intraday e
  | Main.CheckDailyClose e => DailyClose e
  end.

Definition schedule_of (e : env) (ticks : list (list Main.job)) : list cycle :=
  Intraday e :: map job_cycle (concat ticks).

Definition job_env (j : Main.job) : env := cycle_env (job_cycle j).

(** The test [state["trigger_count"] >= MAX_TRIGGERS] that [main] makes on
    the state it has just loaded. *)
Definition all_done (w : world) : result bool :=
  rbind (getitem (stored_state w) "trigger_count") (λ count,
  py_ge count MAX_TRIGGERS MAX_TRIGGERS_f).

(** The check of a cycle stops on the exception [ex]. *)
Definition raises (c : cycle) (w : world) (ex : exn) : Prop :=
  match c with
  | Intraday e => fst (Main.check_and_trigger e w) = Raise ex
  | DailyClose e => fst (Main.check_daily_close e w) = Raise ex
  | Manual e => fst (TriggerNow.main e w) = Raise ex
  end.

(** How a run of the monitor that performed the cycles [cs] from [w] and
    was not interrupted has ended. *)
Definition ended (r : result Main.exit) (cs : list cycle) (w : world) : Prop :=
  match r with
  | Ok Main.Interrupted => True
  | Ok Main.AllComplete => cs ≠ [] ∧ all_done (run_cycles cs w) = Ok true
  | Ok Main.AlreadyComplete => cs = [] ∧ all_done w = Ok true
  | Raise ex =>
      all_done (run_cycles cs w) = Raise ex
      ∨ ∃ cs' c, cs = cs' ++ [c] ∧ raises c (run_cycles cs' w) ex
  end.

Definition tick_envs (d : string) (close price : float) (n : nat)
    : list (list Main.job) :=
  replicate n [Main.CheckAndTrigger (quiet_env d close price)].

(** The state the manual script writes, from the state [st] it loaded with
    history [h], for trigger number [n]. *)
Definition manual_update (e : env) (st : dict) (n : atom) (h : list record) : dict :=
  <["trigger_history" :=
      Rows (h ++ [TriggerNow.manual_record n (exec_date e) (exec_time e)
                    (TriggerNow.get_btc_price e)])]>
    (<["last_trigger_date" := Atom (SStr (exec_date e))]>
       (<["trigger_count" := Atom n]> st)).

(** [quiet_env] when the ticker cannot be fetched and the state file
    cannot be opened for writing. *)
Definition blind_env (d : string) : env :=
  Env d d (d +:+ "T00:00:00+00:00") None None None (λ _, OpenFails) true (λ _, true).

(** * Properties *)

(** ** Loading *)

Lemma merge_key_lookup (st : dict) (key k : string) :
  Main.merge_key st key !! k =
    match st !! k with
    | Some v => Some v
    | None => if decide (key = k) then Main.default_state !! k else None
    end.
Proof.
  unfold Main.merge_key.
  destruct (decide (key = k)) as [->|Hne].
  - destruct (st !! k) eqn:Hk; [by rewrite Hk|].
    destruct (Main.default_state !! k) eqn:Hd; [by rewrite lookup_insert_eq|by rewrite Hk].
  - destruct (st !! key) eqn:Hkey; [by destruct (st !! k)|].
    destruct (Main.default_state !! key);
      [rewrite lookup_insert_ne by done|]; by destruct (st !! k).
Qed.

Lemma merge_keys_lookup (ks : list string) (st : dict) (k : string) :
  foldl Main.merge_key st ks !! k =
    match st !! k with
    | Some v => Some v
    | None => if decide (k ∈ ks) then Main.default_state !! k else None
    end.
Proof.
  revert st. induction ks as [|key ks IH]; intros st; simpl.
  - by destruct (st !! k).
  - rewrite IH, merge_key_lookup.
    destruct (st !! k) eqn:Hk; [done|].
    destruct (decide (key = k)) as [->|Hne].
    + destruct (decide (k ∈ k :: ks)); [|set_solver].
      destruct (Main.default_state !! k); [done|]. by destruct (decide (k ∈ ks)).
    + apply decide_ext. rewrite elem_of_cons.
      split; [by right|intros [?|?]; [congruence|done]].
Qed.

Lemma default_state_keys (k : string) :
  is_Some (Main.default_state !! k) ↔ k ∈ Main.default_keys.
Proof.
  unfold Main.default_state, Main.default_keys. split.
  - intros [v Hv].
    destruct (decide (k ∈ ["trigger_count"; "last_trigger_date"; "yesterday_close";
                           "yesterday_close_date"; "trigger_history"])) as [|Hn];
      [done|exfalso].
    rewrite !not_elem_of_cons in Hn. destruct_and!.
    by simplify_map_eq.
  - intros Hin. repeat (apply elem_of_cons in Hin as [->|Hin]; [by eexists|]).
    by apply elem_of_nil in Hin.
Qed.

(** The merge loop is the left-biased union with the defaults. *)
Lemma merge_defaults_union (st : dict) :
  Main.merge_defaults st = st ∪ Main.default_state.
Proof.
  apply map_eq; intros k. unfold Main.merge_defaults.
  rewrite merge_keys_lookup, lookup_union.
  destruct (st !! k) as [v|] eqn:Hk.
  - by destruct (Main.default_state !! k).
  - destruct (decide (k ∈ Main.default_keys)) as [Hin|Hout].
    + by destruct (Main.default_state !! k).
    + destruct (Main.default_state !! k) eqn:Hd; [|done].
      exfalso. apply Hout, default_state_keys. by eexists.
Qed.

Lemma merge_defaults_keeps (st : dict) (k : string) (v : value) :
  st !! k = Some v → Main.merge_defaults st !! k = Some v.
Proof.
  intros Hk. rewrite merge_defaults_union. by apply lookup_union_Some_l.
Qed.

Lemma merge_defaults_fills (st : dict) (k : string) :
  st !! k = None → Main.merge_defaults st !! k = Main.default_state !! k.
Proof.
  intros Hk. rewrite merge_defaults_union, lookup_union, Hk.
  by destruct (Main.default_state !! k).
Qed.

Lemma merge_defaults_complete (st : dict) (k : string) :
  k ∈ Main.default_keys → is_Some (Main.merge_defaults st !! k).
Proof.
  intros Hin. destruct (st !! k) as [v|] eqn:Hk.
  - exists v. by apply merge_defaults_keeps.
  - rewrite merge_defaults_fills by done. by apply default_state_keys.
Qed.

(** [load_state] returns the stored state and never touches the world. *)
Lemma load_state_stored (w : world) :
  Main.load_state w = (Ok (stored_state w), w).
Proof.
  unfold stored_state, Main.load_state.
  by destruct (disk w) as [[st|]|].
Qed.

Lemma stored_state_complete (w : world) (k : string) :
  k ∈ Main.default_keys → is_Some (stored_state w !! k).
Proof.
  intros Hin. unfold stored_state, Main.load_state.
  destruct (disk w) as [[st|]|]; simpl.
  - by apply merge_defaults_complete.
  - by apply default_state_keys.
  - by apply default_state_keys.
Qed.

Lemma stored_state_disk (w w' : world) :
  disk w = disk w' → stored_state w = stored_state w'.
Proof.
  intros H. unfold stored_state, Main.load_state. rewrite H.
  by destruct (disk w') as [[]|].
Qed.

Lemma stored_state_written (st : dict) (t : list event) (k : string) (v : value) :
  st !! k = Some v → stored_state (World (Some (Json st)) t) !! k = Some v.
Proof. apply merge_defaults_keeps. Qed.

Lemma history_of_written (st : dict) (t : list event) :
  is_Some (st !! "trigger_history") →
  history_of (stored_state (World (Some (Json st)) t)) = history_of st.
Proof.
  intros [v Hv]. unfold history_of.
  by rewrite (stored_state_written _ _ _ _ Hv), Hv.
Qed.

(** [load_state] of main.py: the file's state with the missing keys filled
    in, the default state without a readable file. *)
Lemma main_load_state_backfills (w : world) :
  ∃ st, Main.load_state w = (Ok st, w)
        ∧ (∀ k, k ∈ Main.default_keys → is_Some (st !! k))
        ∧ match disk w with
          | Some (Json st0) =>
              ∀ k, st !! k = match st0 !! k with
                             | Some v => Some v
                             | None => Main.default_state !! k
                             end
          | _ => st = Main.default_state
          end.
Proof.
  exists (stored_state w). split; [apply load_state_stored|].
  split; [intros k; apply stored_state_complete|].
  unfold stored_state, Main.load_state.
  destruct (disk w) as [[st0|]|]; simpl; try done.
  intros k. destruct (st0 !! k) as [v|] eqn:Hk.
  - by apply merge_defaults_keeps.
  - by apply merge_defaults_fills.
Qed.

(** ** The guards of the two checks *)

Ltac start_check :=
  unfold Main.check_and_trigger, Main.check_daily_close, bind, lift, ret;
  rewrite ?load_state_stored; unfold getitem.

Section Guards.
Context (e : env) (w : world).

Lemma check_and_trigger_complete (n : Z) :
  stored_state w !! "trigger_count" = Some (Atom (SInt n)) →
  (MAX_TRIGGERS ≤ n)%Z →
  Main.check_and_trigger e w = (Ok (NoFire Complete), w).
Proof.
  intros Hc Hn. start_check. rewrite Hc; simpl.
  by rewrite (proj2 (Z.leb_le _ _) Hn).
Qed.

Lemma check_daily_close_complete (n : Z) :
  stored_state w !! "trigger_count" = Some (Atom (SInt n)) →
  (MAX_TRIGGERS ≤ n)%Z →
  Main.check_daily_close e w = (Ok (NoFire Complete), w).
Proof.
  intros Hc Hn. start_check. rewrite Hc; simpl.
  by rewrite (proj2 (Z.leb_le _ _) Hn).
Qed.

Lemma check_and_trigger_dedup (n : Z) :
  stored_state w !! "trigger_count" = Some (Atom (SInt n)) →
  (n < MAX_TRIGGERS)%Z →
  stored_state w !! "last_trigger_date" = Some (Atom (SStr (today_utc e))) →
  Main.check_and_trigger e w = (Ok (NoFire AlreadyFiredToday), w).
Proof.
  intros Hc Hn Hd. start_check. rewrite Hc; simpl.
  rewrite (proj2 (Z.leb_gt _ _) Hn), Hd; simpl.
  by rewrite bool_decide_eq_true_2.
Qed.

Lemma check_daily_close_dedup (n : Z) :
  stored_state w !! "trigger_count" = Some (Atom (SInt n)) →
  (n < MAX_TRIGGERS)%Z →
  stored_state w !! "last_trigger_date" = Some (Atom (SStr (today_utc e))) →
  Main.check_daily_close e w = (Ok (NoFire AlreadyFiredToday), w).
Proof.
  intros Hc Hn Hd. start_check. rewrite Hc; simpl.
  rewrite (proj2 (Z.leb_gt _ _) Hn), Hd; simpl.
  by rewrite bool_decide_eq_true_2.
Qed.
End Guards.

(** ** Effects of the executor *)

Lemma save_state_effect (e : env) (st : dict) (w : world) :
  Main.save_state e st w =
    (Ok tt, World (saved_disk e st (disk w)) (trace w ++ [save_event e st])).
Proof.
  unfold Main.save_state, Main.write_file, bind, ret, saved_disk, save_event, emit.
  by destruct (disk_mode_of e st).
Qed.

Lemma save_state_after (e : env) (st : dict) (w : world) :
  Main.save_state e st w = (Ok tt, after_save e st w).
Proof. apply save_state_effect. Qed.

Lemma send_email_effect (e : env) (to : recipient) (m : mail) (w : world) :
  ∃ b, Main.send_email e to m w = (Ok b, emit (mail_event e to m) w).
Proof.
  unfold Main.send_email, mail_event.
  destruct (negb (SENDER_PASSWORD e)); [by eexists|].
  destruct (smtp_ok e m); by eexists.
Qed.

Lemma mail_event_is_send (e : env) (to : recipient) (m : mail) :
  is_send (mail_event e to m) = true.
Proof.
  unfold mail_event.
  destruct (negb (SENDER_PASSWORD e)); [done|]. by destruct (smtp_ok e m).
Qed.

Lemma send_saved_in (Φ : dict → Prop) (ev : event) :
  is_send ev = true → saved_in Φ ev.
Proof. by destruct ev. Qed.

(** The completion mail only reads the disk; it adds at most one send. *)
Lemma send_completion_email_effect (e : env) (w : world) :
  ∃ r tail, Main.send_completion_email e w = (r, World (disk w) (trace w ++ tail))
            ∧ Forall (λ ev, is_send ev = true) tail.
Proof.
  unfold Main.send_completion_email, bind, lift, ret.
  rewrite load_state_stored.
  destruct (getitem (stored_state w) "trigger_history") as [v|ex];
    [|exists (Raise ex), []; by rewrite app_nil_r; destruct w].
  destruct (Main.iter_history v) as [h|ex];
    [|exists (Raise ex), []; by rewrite app_nil_r; destruct w].
  destruct (Main.history_rows h) as [rows|ex];
    [|exists (Raise ex), []; by rewrite app_nil_r; destruct w].
  destruct (send_email_effect e PERSONAL_EMAIL (CompletionSummary rows) w) as [b ->].
  exists (Ok tt), [mail_event e PERSONAL_EMAIL (CompletionSummary rows)].
  split; [done|]. repeat constructor. apply mail_event_is_send.
Qed.

Lemma py_add1_numeric (v : value) (n : atom) :
  py_add1 v = Ok n → ∃ b, py_ge (Atom n) MAX_TRIGGERS MAX_TRIGGERS_f = Ok b.
Proof.
  destruct v as [[]|]; simpl; intros [= <-]; by eexists.
Qed.

Lemma fire_update_numeric (e : env) (st st' : dict) (p c d : float)
    (l : trigger_type) (n : atom) :
  Main.fire_update e st p c d l = Ok (n, st') →
  ∃ b, py_ge (Atom n) MAX_TRIGGERS MAX_TRIGGERS_f = Ok b.
Proof.
  unfold Main.fire_update.
  destruct (getitem st "trigger_count") as [v|]; [simpl|done].
  destruct (py_add1 v) as [n'|] eqn:Hadd; [simpl|done].
  destruct (Main.append_history _ _); [simpl|done].
  intros [= <- <-]. by eapply py_add1_numeric.
Qed.

Lemma fire_update_inv (e : env) (st st' : dict) (p c d : float)
    (l : trigger_type) (n : atom) :
  Main.fire_update e st p c d l = Ok (n, st') →
  ∃ v h,
    st !! "trigger_count" = Some v ∧ py_add1 v = Ok n
    ∧ st !! "trigger_history" = Some (Rows h)
    ∧ st' = <["trigger_history" :=
               Rows (h ++ [Main.trigger_record n (exec_date e) (exec_time e) p c d l])]>
              (<["last_trigger_date" := Atom (SStr (exec_date e))]>
                 (<["trigger_count" := Atom n]> st)).
Proof.
  unfold Main.fire_update, Main.append_history, getitem.
  destruct (st !! "trigger_count") as [v|] eqn:Hv; [simpl|done].
  destruct (py_add1 v) as [n'|] eqn:Hadd; [simpl|done].
  rewrite !lookup_insert_ne by done.
  destruct (st !! "trigger_history") as [[a|h]|] eqn:Hh; simpl; try done.
  intros [= <- <-]. by exists v, h.
Qed.

Lemma fire_update_fields (e : env) (st st' : dict) (p c d : float)
    (l : trigger_type) (n : atom) :
  Main.fire_update e st p c d l = Ok (n, st') →
  st' !! "trigger_count" = Some (Atom n)
  ∧ st' !! "last_trigger_date" = Some (Atom (SStr (exec_date e)))
  ∧ st' !! "trigger_history" =
      Some (Rows (history_of st
                    ++ [Main.trigger_record n (exec_date e) (exec_time e) p c d l])).
Proof.
  intros (v & h & Hv & Hadd & Hh & ->)%fire_update_inv.
  unfold history_of. rewrite Hh. by simplify_map_eq.
Qed.

Section Executor.
Context (e : env) (st : dict) (p c d : float) (l : trigger_type).

(** Nothing happens outside when the in-memory update itself raises. *)
Lemma execute_trigger_raise (ex : exn) (w : world) :
  Main.fire_update e st p c d l = Raise ex →
  Main.execute_trigger e st p c d l w = (Raise ex, w).
Proof. intros Hf. unfold Main.execute_trigger, bind, lift. by rewrite Hf. Qed.

(** Otherwise the write comes first, then the broker mail, then the
    personal mail unless its composition raises, then possibly the
    completion mail. *)
Lemma execute_trigger_effect (n : atom) (st' : dict) (w : world) :
  Main.fire_update e st p c d l = Ok (n, st') →
  ∃ r tail,
    Main.execute_trigger e st p c d l w =
      (r, World (saved_disk e st' (disk w))
            (trace w ++ save_event e st'
               :: mail_event e BROKER_EMAIL (BrokerOrder n p c d l)
               :: tail))
    ∧ Forall (λ ev, is_send ev = true) tail
    ∧ (Main.progress n = Ok tt →
         ∃ tail',
           tail = mail_event e PERSONAL_EMAIL (PersonalAlert n p c d l) :: tail'
           ∧ (py_ge (Atom n) MAX_TRIGGERS MAX_TRIGGERS_f = Ok false →
                r = Ok tt ∧ tail' = []))
    ∧ (∀ ex, Main.progress n = Raise ex → r = Raise ex ∧ tail = []).
Proof.
  intros Hf. destruct (fire_update_numeric _ _ _ _ _ _ _ _ Hf) as [b Hb].
  unfold Main.execute_trigger, bind, lift. rewrite Hf, save_state_effect.
  set (w1 := World _ _).
  destruct (send_email_effect e BROKER_EMAIL (BrokerOrder n p c d l) w1) as [b1 ->].
  set (w2 := emit _ w1).
  destruct (Main.progress n) as [[]|ex].
  - destruct (send_email_effect e PERSONAL_EMAIL (PersonalAlert n p c d l) w2)
      as [b2 ->].
    rewrite Hb. destruct b.
    + destruct (send_completion_email_effect e (emit (mail_event e PERSONAL_EMAIL
        (PersonalAlert n p c d l)) w2)) as (r & tail & -> & Htail).
      exists r, (mail_event e PERSONAL_EMAIL (PersonalAlert n p c d l) :: tail).
      split; [simpl; by rewrite <- !app_assoc|].
      split; [constructor; [apply mail_event_is_send|done]|].
      split; [|done]. intros _. by exists tail.
    + exists (Ok tt), [mail_event e PERSONAL_EMAIL (PersonalAlert n p c d l)].
      split; [unfold ret, emit; simpl; by rewrite <- !app_assoc|].
      split; [constructor; [apply mail_event_is_send|done]|].
      split; [|done]. intros _. by exists [].
  - exists (Raise ex), [].
    split; [unfold w2, w1, emit; simpl; by rewrite <- !app_assoc|].
    split; [done|]. split; [done|]. by intros ? [= <-].
Qed.

(** When the progress figure can be computed, both mails go out. *)
Lemma execute_trigger_mails (n : atom) (st' : dict) (w : world) :
  Main.fire_update e st p c d l = Ok (n, st') →
  Main.progress n = Ok tt →
  ∃ r tail,
    Main.execute_trigger e st p c d l w =
      (r, World (saved_disk e st' (disk w))
            (trace w ++ save_event e st'
               :: mail_event e BROKER_EMAIL (BrokerOrder n p c d l)
               :: mail_event e PERSONAL_EMAIL (PersonalAlert n p c d l)
               :: tail))
    ∧ Forall (λ ev, is_send ev = true) tail
    ∧ (py_ge (Atom n) MAX_TRIGGERS MAX_TRIGGERS_f = Ok false → r = Ok tt ∧ tail = []).
Proof.
  intros Hf Hp.
  destruct (execute_trigger_effect n st' w Hf) as (r & tail & Hrun & Htail & Hok & _).
  destruct (Hok Hp) as (tail' & -> & Hret).
  exists r, tail'. split; [done|]. split; [|done]. by inversion Htail.
Qed.

(** The same, with everything after the write taken together. *)
Lemma execute_trigger_sends (n : atom) (st' : dict) (w : world) :
  Main.fire_update e st p c d l = Ok (n, st') →
  ∃ r tail,
    Main.execute_trigger e st p c d l w =
      (r, World (saved_disk e st' (disk w)) (trace w ++ save_event e st' :: tail))
    ∧ Forall (λ ev, is_send ev = true) tail.
Proof.
  intros Hf.
  destruct (execute_trigger_effect n st' w Hf) as (r & tail & Hrun & Htail & _).
  exists r, (mail_event e BROKER_EMAIL (BrokerOrder n p c d l) :: tail).
  split; [done|]. constructor; [apply mail_event_is_send|done].
Qed.
(** On an integer counter beyond the float range the trigger is written
    and ordered from the broker, and the composition of the personal mail
    raises. *)
Lemma execute_trigger_overflow (n : atom) (st' : dict) (w : world) (ex : exn) :
  Main.fire_update e st p c d l = Ok (n, st') →
  Main.progress n = Raise ex →
  Main.execute_trigger e st p c d l w =
    (Raise ex,
     World (saved_disk e st' (disk w))
       (trace w ++ [save_event e st';
                    mail_event e BROKER_EMAIL (BrokerOrder n p c d l)])).
Proof.
  intros Hf Hp.
  destruct (execute_trigger_effect n st' w Hf) as (r & tail & -> & _ & _ & Hex).
  by destruct (Hex ex Hp) as [-> ->].
Qed.
End Executor.

Lemma progress_raises (n : atom) (ex : exn) :
  Main.progress n = Raise ex ↔
  ex = OverflowError
  ∧ ∃ k, n = SInt k ∧ (MAX_TRIGGERS * (2 ^ 1024 - 2 ^ 970) ≤ Z.abs k)%Z.
Proof.
  unfold Main.progress, quotient_fits_float. split.
  - destruct n as [|k| | |]; try done.
    destruct (Z.ltb_spec (Z.abs k) (MAX_TRIGGERS * (2 ^ 1024 - 2 ^ 970))); [done|].
    intros [= <-]. split; [done|]. by exists k.
  - intros (-> & k & -> & Hk).
    by destruct (Z.ltb_spec (Z.abs k) (MAX_TRIGGERS * (2 ^ 1024 - 2 ^ 970))); [lia|].
Qed.

Lemma personal_mail_overflow :
  let e := quiet_env "2025-01-01" 100 95 in
  let run := Main.check_daily_close e (world_of (state_with (- 10 ^ 310) SNone)) in
  fst run = Raise OverflowError
  ∧ ∃ st, trace (snd run) =
            [Saved st;
             Sent BROKER_EMAIL
               (BrokerOrder (SInt (- 10 ^ 310 + 1)) 95 100 (-5) (CloseToClose (-5)))]
          ∧ disk (snd run) = Some (Json st)
          ∧ st !! "trigger_count" = Some (Atom (SInt (- 10 ^ 310 + 1))).
Proof. intros e run. split; [by vm_compute|]. eexists. by vm_compute. Qed.

Lemma execute_trigger_disk (e : env) (st : dict) (p c d : float)
    (l : trigger_type) (w : world) :
  disk (snd (Main.execute_trigger e st p c d l w)) =
    match Main.fire_update e st p c d l with
    | Ok (_, st') => saved_disk e st' (disk w)
    | Raise _ => disk w
    end.
Proof.
  destruct (Main.fire_update e st p c d l) as [[n st']|ex] eqn:Hf.
  - destruct (execute_trigger_effect e st p c d l n st' w Hf) as (r & tail & -> & _).
    done.
  - by rewrite (execute_trigger_raise e st p c d l ex w Hf).
Qed.

(** ** The shape of a scheduled check *)

Lemma check_and_trigger_step (e : env) (w : world) :
  scheduled_step e w (snd (Main.check_and_trigger e w)).
Proof.
  start_check.
  destruct (stored_state w !! "trigger_count") as [count|] eqn:Hc;
    [simpl|apply step_idle].
  destruct (py_ge count MAX_TRIGGERS MAX_TRIGGERS_f) as [[]|] eqn:Hge;
    [apply step_idle| |apply step_idle].
  destruct (stored_state w !! "last_trigger_date") as [last|] eqn:Hl;
    [simpl|apply step_idle].
  destruct (py_eq_str last (today_utc e)) eqn:Heq; [apply step_idle|].
  assert (eligible e w) as Hel by (by exists count, last).
  destruct (daily_close e) as [[close date]|]; [|apply step_idle].
  destruct (stored_state w !! "yesterday_close_date") as [stored|];
    [simpl|apply step_idle].
  destruct (negb (py_eq_str stored date)).
  - rewrite save_state_after.
    destruct (btc_price e) as [p|]; [|by apply step_refresh].
    destruct (Main.drop_percent p close) as [d|]; simpl; [|by apply step_refresh].
    destruct (d <=? INTRADAY_DIP_THRESHOLD)%float; [|by apply step_refresh].
    pose proof (step_refresh_fire e w close date p close d (IntradayDip d) Hel) as Hs.
    by destruct (Main.execute_trigger _ _ _ _ _ _ _) as [[] ?].
  - destruct (btc_price e) as [p|]; [|apply step_idle].
    destruct (Main.drop_percent p close) as [d|]; simpl; [|apply step_idle].
    destruct (d <=? INTRADAY_DIP_THRESHOLD)%float; [|apply step_idle].
    pose proof (step_fire e w p close d (IntradayDip d) Hel) as Hs.
    by destruct (Main.execute_trigger _ _ _ _ _ _ _) as [[] ?].
Qed.

Lemma check_daily_close_step (e : env) (w : world) :
  scheduled_step e w (snd (Main.check_daily_close e w)).
Proof.
  start_check.
  destruct (stored_state w !! "trigger_count") as [count|] eqn:Hc;
    [simpl|apply step_idle].
  destruct (py_ge count MAX_TRIGGERS MAX_TRIGGERS_f) as [[]|] eqn:Hge;
    [apply step_idle| |apply step_idle].
  destruct (stored_state w !! "last_trigger_date") as [last|] eqn:Hl;
    [simpl|apply step_idle].
  destruct (py_eq_str last (today_utc e)) eqn:Heq; [apply step_idle|].
  assert (eligible e w) as Hel by (by exists count, last).
  destruct (today_close e) as [p|]; [|apply step_idle].
  destruct (daily_close e) as [[close date]|]; [|apply step_idle].
  destruct (Main.drop_percent p close) as [d|]; simpl; [|apply step_idle].
  destruct (d <=? CLOSE_TO_CLOSE_THRESHOLD)%float; [|apply step_idle].
  pose proof (step_fire e w p close d (CloseToClose d) Hel) as Hs.
  by destruct (Main.execute_trigger _ _ _ _ _ _ _) as [[] ?].
Qed.

Lemma scheduled_cycle_step (c : cycle) (w : world) :
  is_scheduled c = true → scheduled_step (cycle_env c) w (run_cycle c w).
Proof.
  destruct c; simpl; [intros _; apply check_and_trigger_step
                     |intros _; apply check_daily_close_step|done].
Qed.

Lemma check_and_trigger_eligible (e : env) (w : world) (close p : float)
    (date : string) :
  eligible e w →
  daily_close e = Some (close, date) →
  btc_price e = Some p →
  Main.check_and_trigger e w =
    match Main.drop_percent p close with
    | Raise ex => (Raise ex, snd (refreshed e w close date))
    | Ok d =>
        if (d <=? INTRADAY_DIP_THRESHOLD)%float
        then (Main.execute_trigger e (fst (refreshed e w close date)) p close d
                (IntradayDip d) ;;; ret (Fire (IntradayDip d)))
               (snd (refreshed e w close date))
        else (Ok (NoFire AboveThreshold), snd (refreshed e w close date))
    end.
Proof.
  intros (count & last & Hc & Hge & Hl & Hne) Hclose Hp.
  destruct (stored_state_complete w "yesterday_close_date") as [stored Hs];
    [set_solver|].
  start_check. rewrite Hc; simpl. rewrite Hge, Hl; simpl. rewrite Hne, Hclose, Hs; simpl.
  unfold refreshed. rewrite Hs, Hp.
  destruct (negb (py_eq_str stored date)); [rewrite save_state_after|]; simpl;
    destruct (Main.drop_percent p close) as [d|]; simpl; try done;
    by destruct (d <=? INTRADAY_DIP_THRESHOLD)%float.
Qed.

Lemma check_daily_close_eligible (e : env) (w : world) (close p : float)
    (date : string) :
  eligible e w →
  today_close e = Some p →
  daily_close e = Some (close, date) →
  Main.check_daily_close e w =
    match Main.drop_percent p close with
    | Raise ex => (Raise ex, w)
    | Ok d =>
        if (d <=? CLOSE_TO_CLOSE_THRESHOLD)%float
        then (Main.execute_trigger e (stored_state w) p close d (CloseToClose d) ;;;
              ret (Fire (CloseToClose d))) w
        else (Ok (NoFire AboveThreshold), w)
    end.
Proof.
  intros (count & last & Hc & Hge & Hl & Hne) Hp Hclose.
  start_check. rewrite Hc; simpl. rewrite Hge, Hl; simpl. rewrite Hne, Hp, Hclose.
  destruct (Main.drop_percent p close) as [d|]; simpl; [|done].
  by destruct (d <=? CLOSE_TO_CLOSE_THRESHOLD)%float.
Qed.

Lemma check_and_trigger_reasons (e : env) (w : world) :
  fst (Main.check_and_trigger e w) ≠ Ok (NoFire InvalidInput).
Proof.
  start_check.
  destruct (stored_state w !! "trigger_count") as [count|]; [simpl|done].
  destruct (py_ge count MAX_TRIGGERS MAX_TRIGGERS_f) as [[]|]; try done.
  destruct (stored_state w !! "last_trigger_date") as [last|]; [simpl|done].
  destruct (py_eq_str last (today_utc e)); [done|].
  destruct (daily_close e) as [[close date]|]; [|done].
  destruct (stored_state w !! "yesterday_close_date") as [stored|]; [simpl|done].
  destruct (negb (py_eq_str stored date)); [rewrite save_state_after|];
    (destruct (btc_price e) as [p|]; [|done]);
    (destruct (Main.drop_percent p close) as [d|]; simpl; [|done]);
    (destruct (d <=? INTRADAY_DIP_THRESHOLD)%float; [|done]);
    by destruct (Main.execute_trigger _ _ _ _ _ _ _) as [[] ?].
Qed.

Lemma check_daily_close_reasons (e : env) (w : world) :
  fst (Main.check_daily_close e w) ≠ Ok (NoFire InvalidInput).
Proof.
  start_check.
  destruct (stored_state w !! "trigger_count") as [count|]; [simpl|done].
  destruct (py_ge count MAX_TRIGGERS MAX_TRIGGERS_f) as [[]|]; try done.
  destruct (stored_state w !! "last_trigger_date") as [last|]; [simpl|done].
  destruct (py_eq_str last (today_utc e)); [done|].
  destruct (today_close e) as [p|]; [|done].
  destruct (daily_close e) as [[close date]|]; [|done].
  destruct (Main.drop_percent p close) as [d|]; simpl; [|done].
  destruct (d <=? CLOSE_TO_CLOSE_THRESHOLD)%float; [|done].
  by destruct (Main.execute_trigger _ _ _ _ _ _ _) as [[] ?].
Qed.

(** ** The reference-close refresh *)

Lemma history_of_refresh (close : float) (date : string) (st : dict) :
  history_of (refresh close date st) = history_of st.
Proof. unfold history_of, refresh. by rewrite !lookup_insert_ne. Qed.

Lemma refresh_other (close : float) (date k : string) (st : dict) :
  k ≠ "yesterday_close" → k ≠ "yesterday_close_date" →
  refresh close date st !! k = st !! k.
Proof. intros ??. unfold refresh. by rewrite !lookup_insert_ne. Qed.




(** ** Same-day dedup over many cycles *)

Lemma settled_not_eligible (d : string) (e : env) (w : world) :
  settled d w → today_utc e = d → ¬ eligible e w.
Proof.
  intros (count & b & Hc & Hge & Hb) Hd (count' & last & Hc' & Hge' & Hl & Hne).
  rewrite Hc in Hc'. injection Hc' as <-. rewrite Hge in Hge'. injection Hge' as ->.
  destruct Hb as [|Hl']; [done|].
  rewrite Hl in Hl'. injection Hl' as ->. simpl in Hne.
  by rewrite Hd, bool_decide_eq_true_2 in Hne.
Qed.

Lemma settled_step (d : string) (e : env) (w w' : world) :
  settled d w → today_utc e = d → scheduled_step e w w' → w' = w.
Proof.
  intros Hs Hd Hstep.
  destruct Hstep as [|? ? Hel|? ? ? ? Hel|? ? ? ? ? ? Hel]; [done|..];
    by destruct (settled_not_eligible d e w Hs Hd Hel).
Qed.

Lemma settled_cycles (d : string) (cs : list cycle) (w : world) :
  settled d w → Forall (same_day d) cs → run_cycles cs w = w.
Proof.
  intros Hs Hcs. induction Hcs as [|c cs (Hsch & Ht & He) _ IH]; [done|].
  simpl. rewrite (settled_step d (cycle_env c) w (run_cycle c w)); auto.
  by apply scheduled_cycle_step.
Qed.

Lemma history_after_refresh (e : env) (close : float) (date : string) (w : world) :
  let w1 := after_save e (refresh close date (stored_state w)) w in
  history_of (stored_state w1) = history_of (stored_state w)
  ∨ history_of (stored_state w1) = [].
Proof.
  unfold after_save, saved_disk.
  destruct (disk_mode_of e _).
  - left. rewrite history_of_written, history_of_refresh; [done|].
    rewrite refresh_other by done.
    apply stored_state_complete. set_solver.
  - left. f_equal. by apply stored_state_disk.
  - by right.
Qed.

Lemma history_after_fire (e : env) (st : dict) (p c d : float)
    (l : trigger_type) (w : world) :
  let w' := snd (Main.execute_trigger e st p c d l w) in
  history_of (stored_state w') = history_of (stored_state w)
  ∨ history_of (stored_state w') = []
  ∨ (∃ r, r !! "date" = Some (SStr (exec_date e))
          ∧ history_of (stored_state w') = history_of st ++ [r]
          ∧ settled (exec_date e) w').
Proof.
  intros w'. pose proof (execute_trigger_disk e st p c d l w) as Hdisk.
  fold w' in Hdisk.
  destruct (Main.fire_update e st p c d l) as [[n st']|ex] eqn:Hf.
  - destruct (fire_update_fields _ _ _ _ _ _ _ _ Hf) as (Hn & Hl & Hh).
    destruct (fire_update_numeric _ _ _ _ _ _ _ _ Hf) as [b Hb].
    unfold saved_disk in Hdisk. destruct (disk_mode_of e st').
    + right; right.
      rewrite (stored_state_disk w' (World (Some (Json st')) [])) by done.
      eexists. split; [|split].
      2:{ unfold history_of at 1. by rewrite (stored_state_written _ _ _ _ Hh). }
      * done.
      * exists (Atom n), b. rewrite (stored_state_disk w' (World (Some (Json st')) [])) by done.
        rewrite (stored_state_written _ _ _ _ Hn), (stored_state_written _ _ _ _ Hl).
        auto.
    + left. f_equal. by apply stored_state_disk.
    + right; left.
      by rewrite (stored_state_disk w' (World (Some Garbage) [])).
  - left. f_equal. by apply stored_state_disk.
Qed.

Lemma step_history (d : string) (e : env) (w w' : world) :
  today_utc e = d → exec_date e = d → scheduled_step e w w' →
  history_of (stored_state w') = history_of (stored_state w)
  ∨ history_of (stored_state w') = []
  ∨ (∃ r, history_of (stored_state w') = history_of (stored_state w) ++ [r]
          ∧ settled d w').
Proof.
  intros Ht He Hstep.
  destruct Hstep as [|close date Hel|p c dr l Hel|close date p c dr l Hel].
  - by left.
  - destruct (history_after_refresh e close date w); auto.
  - destruct (history_after_fire e (stored_state w) p c dr l w)
      as [?|[?|(r & _ & ? & ?)]]; auto.
    right; right. exists r. by rewrite <- He.
  - destruct (history_after_fire e (refresh close date (stored_state w)) p c dr l
                (after_save e (refresh close date (stored_state w)) w))
      as [Hsame|[?|(r & _ & Hr & ?)]]; auto.
    + rewrite Hsame. destruct (history_after_refresh e close date w); auto.
    + right; right. exists r. rewrite Hr, history_of_refresh. by rewrite <- He.
Qed.

Lemma count_on_app (d : string) (h1 h2 : list record) :
  count_on d (h1 ++ h2) = count_on d h1 + count_on d h2.
Proof. unfold count_on. by rewrite filter_app, length_app. Qed.

Lemma count_on_single (d : string) (r : record) : count_on d [r] ≤ 1.
Proof.
  unfold count_on. rewrite filter_cons, filter_nil.
  destruct (decide (record_on d r = true)); simpl; lia.
Qed.

(** Over any number of scheduled checks read on one date, the stored
    history gains at most one record. *)
Lemma same_day_cycles (d : string) (cs : list cycle) (w0 w : world) :
  Forall (same_day d) cs →
  count_on d (history_of (stored_state w)) ≤ count_on d (history_of (stored_state w0))
  ∨ (count_on d (history_of (stored_state w))
       ≤ count_on d (history_of (stored_state w0)) + 1 ∧ settled d w) →
  count_on d (history_of (stored_state (run_cycles cs w)))
    ≤ count_on d (history_of (stored_state w0)) + 1.
Proof.
  intros Hcs. revert w. induction Hcs as [|c cs (Hsch & Ht & He) _ IH]; intros w HK.
  - simpl. destruct HK as [|[]]; lia.
  - simpl. apply IH.
    pose proof (scheduled_cycle_step c w Hsch) as Hstep.
    destruct HK as [Hle|[Hle Hset]].
    + destruct (step_history d _ w _ Ht He Hstep) as [->|[->|(r & -> & Hset)]].
      * by left.
      * left. unfold count_on; simpl. lia.
      * right. split; [|done]. rewrite count_on_app.
        pose proof (count_on_single d r). lia.
    + rewrite (settled_step d _ w _ Hset Ht Hstep). by right.
Qed.

(** ** Invariants of the written states *)

Section Invariant.
Variable Φ : dict → Prop.
Hypothesis Φ_default : Φ Main.default_state.
Hypothesis Φ_merge : ∀ st, Φ st → Φ (Main.merge_defaults st).
Hypothesis Φ_refresh : ∀ close date st, Φ st → Φ (refresh close date st).
Hypothesis Φ_fire : ∀ e st p c d l n st' count,
  Φ st → st !! "trigger_count" = Some count →
  py_ge count MAX_TRIGGERS MAX_TRIGGERS_f = Ok false →
  Main.fire_update e st p c d l = Ok (n, st') → Φ st'.

Lemma stored_state_inv (w : world) : on_disk Φ w → Φ (stored_state w).
Proof.
  unfold on_disk, stored_state, Main.load_state.
  destruct (disk w) as [[st|]|]; simpl; auto.
Qed.

Lemma after_save_inv (e : env) (st : dict) (w : world) :
  always_written Φ w → Φ st → always_written Φ (after_save e st w).
Proof.
  intros [Hd Ht] Hst. unfold after_save, always_written, on_disk, saved_disk, save_event.
  simpl. rewrite Forall_app, Forall_singleton.
  by destruct (disk_mode_of e st).
Qed.

Lemma sends_saved_in (tail : list event) :
  Forall (λ ev, is_send ev = true) tail → Forall (saved_in Φ) tail.
Proof. intros H. eapply Forall_impl; [done|]. by intros []. Qed.

Lemma execute_trigger_inv (e : env) (st : dict) (p c d : float)
    (l : trigger_type) (w : world) (count : value) :
  always_written Φ w → Φ st →
  st !! "trigger_count" = Some count →
  py_ge count MAX_TRIGGERS MAX_TRIGGERS_f = Ok false →
  always_written Φ (snd (Main.execute_trigger e st p c d l w)).
Proof.
  intros Hw Hst Hc Hge.
  destruct (Main.fire_update e st p c d l) as [[n st']|ex] eqn:Hf.
  - destruct (execute_trigger_effect e st p c d l n st' w Hf)
      as (r & tail & -> & Htail & _).
    pose proof (Φ_fire _ _ _ _ _ _ _ _ _ Hst Hc Hge Hf) as Hst'.
    destruct (after_save_inv e st' w Hw Hst') as [Hd Ht].
    split; [done|]. simpl.
    unfold after_save in Ht; simpl in Ht.
    apply Forall_app in Ht as [Ht1 Ht2]. apply Forall_app. split; [done|].
    constructor; [by inversion Ht2|].
    apply sends_saved_in.
    constructor; [apply mail_event_is_send|done].
  - by rewrite (execute_trigger_raise e st p c d l ex w Hf).
Qed.

Lemma scheduled_step_inv (e : env) (w w' : world) :
  always_written Φ w → scheduled_step e w w' → always_written Φ w'.
Proof.
  intros Hw Hstep. pose proof (stored_state_inv w (proj1 Hw)) as Hst.
  destruct Hstep as [|close date Hel|p c d l Hel|close date p c d l Hel].
  - done.
  - apply after_save_inv; auto.
  - destruct Hel as (count & last & Hc & Hge & _).
    by eapply execute_trigger_inv.
  - destruct Hel as (count & last & Hc & Hge & _).
    eapply execute_trigger_inv; [apply after_save_inv; auto|auto| |done].
    by rewrite refresh_other.
Qed.

Lemma scheduled_cycles_inv (cs : list cycle) (w : world) :
  Forall (λ c, is_scheduled c = true) cs →
  always_written Φ w → always_written Φ (run_cycles cs w).
Proof.
  intros Hcs. revert w. induction Hcs as [|c cs Hc _ IH]; intros w Hw; [done|].
  simpl. apply IH. eapply scheduled_step_inv; [done|].
  by apply scheduled_cycle_step.
Qed.
End Invariant.

Lemma fresh_always_written (Φ : dict → Prop) : always_written Φ fresh.
Proof. split; [done|constructor]. Qed.

(** ** Counting *)

Lemma one_to_S (n : nat) :
  one_to (S n) = one_to n ++ [Some (SInt (Z.of_nat (S n)))].
Proof. unfold one_to. by rewrite seq_S, map_app. Qed.

Lemma counted_at_default : counted_at 0 Main.default_state.
Proof. by exists []. Qed.

Lemma counted_at_merge (n : nat) (st : dict) :
  counted_at n st → counted_at n (Main.merge_defaults st).
Proof.
  intros (h & Hlen & Hc & Hh & Hn). exists h.
  by rewrite (merge_defaults_keeps _ _ _ Hc), (merge_defaults_keeps _ _ _ Hh).
Qed.

Lemma counted_at_refresh (n : nat) (close : float) (date : string) (st : dict) :
  counted_at n st → counted_at n (refresh close date st).
Proof.
  intros (h & Hlen & Hc & Hh & Hn). exists h. by rewrite !refresh_other.
Qed.

Lemma counted_at_fire (k : nat) (e : env) (st : dict) (p c d : float)
    (l : trigger_type) :
  counted_at k st →
  ∃ st', Main.fire_update e st p c d l = Ok (SInt (Z.of_nat (S k)), st')
         ∧ counted_at (S k) st'.
Proof.
  intros (h & Hlen & Hc & Hh & Hn).
  unfold Main.fire_update, Main.append_history, getitem.
  rewrite Hc; simpl. rewrite !lookup_insert_ne by done. rewrite Hh; simpl.
  replace (Z.of_nat k + 1)%Z with (Z.of_nat (S k)) by lia.
  eexists. split; [done|].
  exists (h ++ [Main.trigger_record (SInt (Z.of_nat (S k))) (exec_date e) (exec_time e)
                  p c d l]).
  split; [rewrite length_app; simpl; lia|].
  split; [by simplify_map_eq|]. split; [by simplify_map_eq|].
  unfold numbers in *. by rewrite map_app, Hn, one_to_S.
Qed.

Lemma counted_default : counted Main.default_state.
Proof. exists 0. apply counted_at_default. Qed.

Lemma counted_merge (st : dict) : counted st → counted (Main.merge_defaults st).
Proof. intros [n Hn]. exists n. by apply counted_at_merge. Qed.

Lemma counted_refresh (close : float) (date : string) (st : dict) :
  counted st → counted (refresh close date st).
Proof. intros [n Hn]. exists n. by apply counted_at_refresh. Qed.

Lemma counted_fire (e : env) (st : dict) (p c d : float) (l : trigger_type)
    (n : atom) (st' : dict) :
  counted st → Main.fire_update e st p c d l = Ok (n, st') → counted st'.
Proof.
  intros [k Hk] Hf.
  destruct (counted_at_fire k e st p c d l Hk) as (st'' & Hf' & Hk').
  rewrite Hf in Hf'. injection Hf' as -> ->. by exists (S k).
Qed.









(** ** The manual script *)

Lemma manual_send_email (e : env) (to : recipient) (m : mail) (w : world) :
  ∃ b, TriggerNow.send_email e to m w = (Ok b, emit (mail_event e to m) w).
Proof. apply send_email_effect. Qed.

Lemma manual_save_state (e : env) (st : dict) (w : world) :
  ∃ r, TriggerNow.save_state e st w = (r, after_save e st w).
Proof.
  unfold TriggerNow.save_state, after_save, saved_disk, save_event, emit.
  destruct (disk_mode_of e st); by eexists.
Qed.

Lemma raw_state_loaded (w : world) :
  TriggerNow.load_state w = (Ok (raw_state w), w).
Proof. unfold raw_state, TriggerNow.load_state. by destruct (disk w) as [[]|]. Qed.

Lemma raw_state_inv (Φ : dict → Prop) (w : world) :
  Φ TriggerNow.default_state → on_disk Φ w → Φ (raw_state w).
Proof.
  unfold on_disk, raw_state, TriggerNow.load_state.
  by destruct (disk w) as [[]|].
Qed.

(** With a numeric counter and a history list in the file, the script
    sends its two mails and only then writes the state with one more
    record. *)
Lemma manual_main_effect (e : env) (w : world) (v : value) (n : atom)
    (h : list record) :
  raw_state w !! "trigger_count" = Some v →
  py_add1 v = Ok n →
  raw_state w !! "trigger_history" = Some (Rows h) →
  ∃ r st3,
    TriggerNow.main e w =
      (r, World (saved_disk e st3 (disk w))
            (trace w ++
               [mail_event e BROKER_EMAIL
                  (ManualBrokerOrder n (TriggerNow.get_btc_price e));
                mail_event e PERSONAL_EMAIL
                  (ManualPersonalAlert n (TriggerNow.get_btc_price e));
                save_event e st3]))
    ∧ st3 !! "trigger_count" = Some (Atom n)
    ∧ st3 !! "last_trigger_date" = Some (Atom (SStr (exec_date e)))
    ∧ st3 !! "trigger_history" =
        Some (Rows (h ++ [TriggerNow.manual_record n (exec_date e) (exec_time e)
                            (TriggerNow.get_btc_price e)])).
Proof.
  intros Hc Hadd Hh.
  unfold TriggerNow.main, bind, lift. rewrite raw_state_loaded.
  unfold getitem at 1. rewrite Hc; simpl. rewrite Hadd.
  set (price := TriggerNow.get_btc_price e).
  destruct (manual_send_email e BROKER_EMAIL (ManualBrokerOrder n price) w) as [b1 ->].
  set (w1 := emit _ w).
  destruct (manual_send_email e PERSONAL_EMAIL (ManualPersonalAlert n price) w1) as [b2 ->].
  set (w2 := emit _ w1).
  unfold TriggerNow.append_history, getitem.
  rewrite !lookup_insert_ne by done. rewrite Hh; simpl.
  set (st3 := <["trigger_history" := _]> _).
  destruct (manual_save_state e st3 w2) as [r ->].
  exists r, st3. split; [|subst st3; by simplify_map_eq].
  unfold after_save, w2, w1, emit; simpl. by rewrite <- !app_assoc.
Qed.



(** The manual script hands both mails to the notifier before it writes
    the state. *)
Lemma manual_sends_before_save :
  let e := quiet_env "2025-01-01" 100 95 in
  ∃ st, trace (snd (TriggerNow.main e fresh)) =
          [Sent BROKER_EMAIL (ManualBrokerOrder (SInt 1) 95);
           Sent PERSONAL_EMAIL (ManualPersonalAlert (SInt 1) 95);
           Saved st]
        ∧ st !! "trigger_count" = Some (Atom (SInt 1)).
Proof. eexists. vm_compute. by split. Qed.



(** ** The completion summary *)

Lemma history_row_scheduled (n : atom) (date time : string) (p c d : float)
    (l : trigger_type) :
  Main.history_row (Main.trigger_record n date time p c d l)
    = Ok (n, SStr date, SFloat p, SFloat d).
Proof. done. Qed.

Lemma history_row_manual (n : atom) (date time : string) (p : float) :
  Main.history_row (TriggerNow.manual_record n date time p)
    = Raise (KeyError "drop_pct").
Proof. done. Qed.

Lemma history_rows_raise (h : list record) (r : record) (ex : exn) :
  r ∈ h → Main.history_row r = Raise ex →
  ∃ ex', Main.history_rows h = Raise ex'.
Proof.
  intros Hin Hr. induction Hin as [r h|r t h Hin IH]; simpl.
  - rewrite Hr. by eexists.
  - destruct (Main.history_row t); simpl; [|by eexists].
    destruct (IH Hr) as [ex' ->]. by eexists.
Qed.

Lemma history_rows_produced (h : list record) :
  Forall produced h →
  (∃ rows, Main.history_rows h = Ok rows)
  ∨ Main.history_rows h = Raise (KeyError "drop_pct").
Proof.
  induction 1 as [|r h Hr _ IH]; simpl; [left; by eexists|].
  destruct Hr.
  - rewrite history_row_scheduled; simpl.
    destruct IH as [[rows ->]| ->]; [left; by eexists|by right].
  - rewrite history_row_manual. by right.
Qed.

Lemma send_completion_email_raise (e : env) (w : world) (h : list record) (ex : exn) :
  stored_state w !! "trigger_history" = Some (Rows h) →
  Main.history_rows h = Raise ex →
  Main.send_completion_email e w = (Raise ex, w).
Proof.
  intros Hh Hrows. unfold Main.send_completion_email, bind, lift.
  rewrite load_state_stored. unfold getitem. rewrite Hh; simpl. by rewrite Hrows.
Qed.

(** One manual trigger followed by thirteen executed triggers: the
    fifteenth fire is written and its two mails go out, then the
    completion summary stops on the manual record. *)
Lemma fifteenth_fire_after_manual :
  let w := run_executions (replicate 13 (sample_firing "2025-01-02"))
             (run_cycle (Manual (quiet_env "2025-01-01" 100 95)) fresh) in
  let run := Main.check_and_trigger (quiet_env "2025-02-01" 100 95) w in
  ∃ st st',
    stored_state w !! "trigger_count" = Some (Atom (SInt 14))
    ∧ fst run = Raise (KeyError "drop_pct")
    ∧ stored_state (snd run) !! "trigger_count" = Some (Atom (SInt 15))
    ∧ drop (length (trace w)) (trace (snd run)) =
        [Saved st; Saved st';
         Sent BROKER_EMAIL (BrokerOrder (SInt 15) 95 100 (-5) (IntradayDip (-5)));
         Sent PERSONAL_EMAIL (PersonalAlert (SInt 15) 95 100 (-5) (IntradayDip (-5)))].
Proof. do 2 eexists. vm_compute. by repeat split. Qed.

(** * The claims *)

(** C1, as stated, fails on the path where the write of the state file
    fails: [save_state] logs the error and returns, and both mails go out
    while the file still does not exist. *)
Lemma persist_before_notify_counterexample :
  let e := broken_disk_env "2025-01-01" 100 95 in
  let run := Main.check_and_trigger e fresh in
  fst run = Ok (Fire (IntradayDip (-5)))
  ∧ disk (snd run) = None
  ∧ trace (snd run) =
      [SaveFailed; SaveFailed;
       Sent BROKER_EMAIL (BrokerOrder (SInt 1) 95 100 (-5) (IntradayDip (-5)));
       Sent PERSONAL_EMAIL (PersonalAlert (SInt 1) 95 100 (-5) (IntradayDip (-5)))].
Proof. vm_compute. by repeat split. Qed.

(** C1, amended. Whenever [execute_trigger] gets past its in-memory update,
    the first thing it does outside is the write of the fully updated state
    (counter incremented, record appended, [last_trigger_date] set);
    everything after it is a send, and whenever the personal mail can be
    composed (the progress figure fits a float, as it does for every float
    counter and every integer counter within the float range) the two
    trigger mails come first.  When the write goes through, the file holds
    that state from then on. *)
Theorem write_precedes_sends (e : env) (st st' : dict) (p c d : float)
    (l : trigger_type) (n : atom) (w : world) :
  Main.fire_update e st p c d l = Ok (n, st') →
  (∃ count, st !! "trigger_count" = Some count ∧ py_add1 count = Ok n)
  ∧ st' !! "trigger_count" = Some (Atom n)
  ∧ st' !! "last_trigger_date" = Some (Atom (SStr (exec_date e)))
  ∧ st' !! "trigger_history" =
      Some (Rows (history_of st
                    ++ [Main.trigger_record n (exec_date e) (exec_time e) p c d l]))
  ∧ ∃ r tail,
      Main.execute_trigger e st p c d l w =
        (r, World (saved_disk e st' (disk w))
              (trace w ++ save_event e st' :: tail))
      ∧ Forall (λ ev, is_send ev = true) tail
      ∧ (Main.progress n = Ok tt →
           ∃ tail',
             tail = mail_event e BROKER_EMAIL (BrokerOrder n p c d l)
                    :: mail_event e PERSONAL_EMAIL (PersonalAlert n p c d l)
                    :: tail')
      ∧ (disk_mode_of e st' = WriteOk →
           save_event e st' = Saved st' ∧ saved_disk e st' (disk w) = Some (Json st')).
Proof.
  intros Hf.
  destruct (fire_update_fields _ _ _ _ _ _ _ _ Hf) as (Hn & Hl & Hh).
  destruct (fire_update_inv _ _ _ _ _ _ _ _ Hf) as (v & h & Hv & Hadd & _).
  destruct (execute_trigger_effect e st p c d l n st' w Hf)
    as (r & tail & Hrun & Htail & Hok & _).
  split; [by exists v|]. do 3 (split; [done|]).
  exists r, (mail_event e BROKER_EMAIL (BrokerOrder n p c d l) :: tail).
  split; [done|].
  split; [constructor; [apply mail_event_is_send|done]|]. split.
  - intros Hp. destruct (Hok Hp) as (tail' & -> & _). by exists tail'.
  - intros Hw. unfold save_event, saved_disk. by rewrite Hw.
Qed.

Lemma write_precedes_sends_witness :
  let e := quiet_env "2025-01-01" 100 95 in
  let st' := fired_once "2025-01-01" in
  ∃ r tail,
    Main.execute_trigger e Main.default_state 95 100 (-5) (IntradayDip (-5)) fresh =
      (r, World (Some (Json st'))
            (Saved st'
               :: Sent BROKER_EMAIL (BrokerOrder (SInt 1) 95 100 (-5) (IntradayDip (-5)))
               :: Sent PERSONAL_EMAIL (PersonalAlert (SInt 1) 95 100 (-5) (IntradayDip (-5)))
               :: tail)).
Proof.
  intros e st'.
  destruct (write_precedes_sends e Main.default_state st' 95 100 (-5)
              (IntradayDip (-5)) (SInt 1) fresh)
    as (_ & _ & _ & _ & r & tail & Hrun & _ & Hmails & _); [reflexivity|].
  destruct (Hmails eq_refl) as [tail' ->].
  exists r, tail'. exact Hrun.
Defined.

(** C2 fails on the manual script: it has neither guard.  Run on one day
    from the empty state it fires every time; after fifteen runs the
    scheduled check is terminal, and one more run of the script still
    fires and stores a counter of 16 with sixteen records of that day. *)
Theorem manual_path_unguarded :
  let e := quiet_env "2025-01-01" 100 95 in
  let w15 := run_cycles (replicate 15 (Manual e)) fresh in
  let w16 := run_cycle (Manual e) w15 in
  stored_state w15 !! "trigger_count" = Some (Atom (SInt 15))
  ∧ stored_state w15 !! "last_trigger_date" = Some (Atom (SStr (today_utc e)))
  ∧ fst (Main.check_and_trigger e w15) = Ok (NoFire Complete)
  ∧ fst (TriggerNow.main e w15) = Ok tt
  ∧ stored_state w16 !! "trigger_count" = Some (Atom (SInt 16))
  ∧ (MAX_TRIGGERS <? 16)%Z = true
  ∧ count_on "2025-01-01" (history_of (stored_state w16)) = 16.
Proof. vm_compute. by repeat split. Qed.

(** C3. For every stored state with [trigger_count >= MAX_TRIGGERS] and
    every input (clock, reference close, current price, today's close),
    both checks answer [NoFire Complete] and leave the world as it was: the
    file is not written and nothing is handed to the notifier.  The answer
    depends on no other field of the state and on no input, so the guard
    precedes the dedup, missing-reference and threshold checks. *)
Theorem terminal_guard_first (e : env) (w : world) (n : Z) :
  stored_state w !! "trigger_count" = Some (Atom (SInt n)) →
  (MAX_TRIGGERS ≤ n)%Z →
  Main.check_and_trigger e w = (Ok (NoFire Complete), w)
  ∧ Main.check_daily_close e w = (Ok (NoFire Complete), w).
Proof.
  intros Hc Hn. split.
  - by eapply check_and_trigger_complete.
  - by eapply check_daily_close_complete.
Qed.

Lemma terminal_guard_first_witness :
  let w := world_of (state_with 15 (SStr "2025-01-01")) in
  let e := quiet_env "2025-01-01" 100 90 in
  Main.check_and_trigger e w = (Ok (NoFire Complete), w)
  ∧ Main.check_daily_close e w = (Ok (NoFire Complete), w).
Proof.
  intros w e. apply (terminal_guard_first e w 15); [reflexivity|].
  unfold MAX_TRIGGERS. lia.
Defined.

(** C4, as stated, fails when the counter is already at the maximum: the
    terminal guard answers first, and the reason is [Complete]. *)
Lemma dedup_guard_counterexample :
  let w := world_of (state_with 15 (SStr "2025-01-01")) in
  let e := quiet_env "2025-01-01" 100 90 in
  stored_state w !! "last_trigger_date" = Some (Atom (SStr (today_utc e)))
  ∧ fst (Main.check_and_trigger e w) = Ok (NoFire Complete)
  ∧ fst (Main.check_and_trigger e w) ≠ Ok (NoFire AlreadyFiredToday)
  ∧ fst (Main.check_daily_close e w) = Ok (NoFire Complete)
  ∧ fst (Main.check_daily_close e w) ≠ Ok (NoFire AlreadyFiredToday).
Proof.
  intros w e.
  assert (Main.check_and_trigger e w = (Ok (NoFire Complete), w)) as ->
    by (by apply (check_and_trigger_complete e w 15)).
  assert (Main.check_daily_close e w = (Ok (NoFire Complete), w)) as ->
    by (by apply (check_daily_close_complete e w 15)).
  by repeat split.
Qed.

(** C4, amended. For every stored state with [trigger_count] below
    [MAX_TRIGGERS] whose [last_trigger_date] is today's UTC date, both the
    intraday and the close-to-close check answer [NoFire AlreadyFiredToday]
    and leave the world as it was, whatever the prices; any number of
    further checks on that date leave it as it was too; and, from any
    world, the checks read on one date add at most one record of that date
    to the stored history. *)
Theorem dedup_same_day :
  (∀ e w n,
     stored_state w !! "trigger_count" = Some (Atom (SInt n)) →
     (n < MAX_TRIGGERS)%Z →
     stored_state w !! "last_trigger_date" = Some (Atom (SStr (today_utc e))) →
     Main.check_and_trigger e w = (Ok (NoFire AlreadyFiredToday), w)
     ∧ Main.check_daily_close e w = (Ok (NoFire AlreadyFiredToday), w)
     ∧ ∀ cs, Forall (same_day (today_utc e)) cs → run_cycles cs w = w)
  ∧ (∀ d cs w0, Forall (same_day d) cs →
       count_on d (history_of (stored_state (run_cycles cs w0)))
         ≤ count_on d (history_of (stored_state w0)) + 1).
Proof.
  split.
  - intros e w n Hc Hn Hl. split; [|split].
    + by eapply check_and_trigger_dedup.
    + by eapply check_daily_close_dedup.
    + intros cs Hcs. apply (settled_cycles (today_utc e)); [|done].
      exists (Atom (SInt n)), (MAX_TRIGGERS <=? n)%Z. auto.
  - intros d cs w0 Hcs. apply (same_day_cycles d cs w0 w0 Hcs). by left.
Qed.

Lemma dedup_same_day_witness :
  let w := world_of (state_with 3 (SStr "2025-01-01")) in
  let e := quiet_env "2025-01-01" 100 90 in
  Main.check_and_trigger e w = (Ok (NoFire AlreadyFiredToday), w)
  ∧ Main.check_daily_close e w = (Ok (NoFire AlreadyFiredToday), w).
Proof.
  intros w e.
  destruct (proj1 dedup_same_day e w 3%Z) as (H1 & H2 & _); [reflexivity| |reflexivity|].
  - unfold MAX_TRIGGERS. lia.
  - by split.
Defined.

(** C5, as stated, fails: with a disk that refuses the write, a
    close-to-close trigger still runs to its end, reports the fire, and
    both mails carry the incremented number 2 while the file keeps the
    state with one trigger. *)
Lemma failed_save_counterexample :
  let e := broken_disk_env "2025-01-02" 100 95 in
  let w := world_of (fired_once "2025-01-01") in
  let run := Main.check_daily_close e w in
  fst run = Ok (Fire (CloseToClose (-5)))
  ∧ disk (snd run) = disk w
  ∧ trace (snd run) =
      [SaveFailed;
       Sent BROKER_EMAIL (BrokerOrder (SInt 2) 95 100 (-5) (CloseToClose (-5)));
       Sent PERSONAL_EMAIL (PersonalAlert (SInt 2) 95 100 (-5) (CloseToClose (-5)))].
Proof. vm_compute. by repeat split. Qed.

(** C5, amended. When the write of the updated state fails inside
    [execute_trigger], the error is swallowed by [save_state]: the
    operation goes on, everything after the failed write is a send, and
    whenever the personal mail can be composed (always for a counter within
    the float range) both trigger mails are handed to the notifier with the
    incremented number and, below the maximum, the call returns normally.
    Nothing of the update reaches the disk: if the file could not be
    opened the next cycle loads the last written state, and if the write
    was cut short it loads the default state. *)
Theorem failed_save_is_swallowed (e : env) (st st' : dict) (p c d : float)
    (l : trigger_type) (n : atom) (w : world) :
  Main.fire_update e st p c d l = Ok (n, st') →
  disk_mode_of e st' ≠ WriteOk →
  ∃ r tail,
    Main.execute_trigger e st p c d l w =
      (r, World (saved_disk e st' (disk w)) (trace w ++ SaveFailed :: tail))
    ∧ Forall (λ ev, is_send ev = true) tail
    ∧ (Main.progress n = Ok tt →
         ∃ tail',
           tail = mail_event e BROKER_EMAIL (BrokerOrder n p c d l)
                  :: mail_event e PERSONAL_EMAIL (PersonalAlert n p c d l)
                  :: tail'
           ∧ (py_ge (Atom n) MAX_TRIGGERS MAX_TRIGGERS_f = Ok false →
                r = Ok tt ∧ tail' = []))
    ∧ (disk_mode_of e st' = OpenFails →
         stored_state (snd (Main.execute_trigger e st p c d l w)) = stored_state w)
    ∧ (disk_mode_of e st' = DumpFails →
         stored_state (snd (Main.execute_trigger e st p c d l w)) = Main.default_state).
Proof.
  intros Hf Hbad.
  destruct (execute_trigger_effect e st p c d l n st' w Hf)
    as (r & tail & Hrun & Htail & Hok & _).
  exists r, (mail_event e BROKER_EMAIL (BrokerOrder n p c d l) :: tail).
  rewrite Hrun.
  assert (save_event e st' = SaveFailed) as <-
    by (unfold save_event; by destruct (disk_mode_of e st')).
  split; [done|].
  split; [constructor; [apply mail_event_is_send|done]|]. split.
  { intros Hp. destruct (Hok Hp) as (tail' & -> & Hret). by exists tail'. }
  simpl. unfold saved_disk. split; intros ->.
  - by apply stored_state_disk.
  - done.
Qed.

Lemma failed_save_is_swallowed_witness :
  let e := broken_disk_env "2025-01-01" 100 95 in
  Main.execute_trigger e Main.default_state 95 100 (-5) (IntradayDip (-5)) fresh =
    (Ok tt,
     World None
       [SaveFailed;
        Sent BROKER_EMAIL (BrokerOrder (SInt 1) 95 100 (-5) (IntradayDip (-5)));
        Sent PERSONAL_EMAIL (PersonalAlert (SInt 1) 95 100 (-5) (IntradayDip (-5)))]).
Proof.
  intros e.
  destruct (failed_save_is_swallowed e Main.default_state (fired_once "2025-01-01")
              95 100 (-5) (IntradayDip (-5)) (SInt 1) fresh)
    as (r & tail & Hrun & _ & Hmails & _); [reflexivity|discriminate|].
  destruct (Hmails eq_refl) as (tail' & -> & Hret).
  destruct (Hret eq_refl) as [-> ->]. exact Hrun.
Defined.

(** C6, as stated, fails on the value of the drop: in binary64 arithmetic
    the drop computed from 95.3 against 100 is not -4.7 but the float just
    below it, and the one computed from 95.31 is not -4.69. *)
Lemma drop_boundary_counterexample :
  ∃ d d',
    Main.drop_percent 95.3 100 = Ok d
    ∧ (d =? -4.7)%float = false ∧ (d <? -4.7)%float = true
    ∧ Main.drop_percent 95.31 100 = Ok d'
    ∧ (d' =? -4.69)%float = false.
Proof. do 2 eexists. vm_compute. by repeat split. Qed.

(** C6, amended. The drop is [((current - reference) / reference) * 100]
    in binary64 floats (a zero reference raises), and the intraday
    comparison is the inclusive [<=] against -4.7.  With reference 100 and
    current 95.3 the computed drop is -4.7000000000000028, within 1e-14 of
    -4.7 and below it, and the intraday check fires; with current 95.31
    the computed drop is -4.6899999999999977 and the check does not fire.
    A computed drop equal to the threshold always executes the trigger; 953
    against 1000 gives exactly -4.7 and fires. *)
Theorem intraday_boundary :
  (∀ current reference,
     Main.drop_percent current reference =
       if (reference =? 0)%float then Raise ZeroDivisionError
       else Ok (((current - reference) / reference) * 100)%float)
  ∧ (∀ e w close date p,
       eligible e w → daily_close e = Some (close, date) → btc_price e = Some p →
       Main.drop_percent p close = Ok INTRADAY_DIP_THRESHOLD →
       Main.check_and_trigger e w =
         (Main.execute_trigger e (fst (refreshed e w close date)) p close
            INTRADAY_DIP_THRESHOLD (IntradayDip INTRADAY_DIP_THRESHOLD) ;;;
          ret (Fire (IntradayDip INTRADAY_DIP_THRESHOLD)))
           (snd (refreshed e w close date)))
  ∧ Main.drop_percent 95.3 100 = Ok (-4.7000000000000028)%float
  ∧ (abs (-4.7000000000000028 - -4.7) <? 1e-14)%float = true
  ∧ (-4.7000000000000028 <=? INTRADAY_DIP_THRESHOLD)%float = true
  ∧ fst (Main.check_and_trigger (quiet_env "2025-01-01" 100 95.3) fresh)
      = Ok (Fire (IntradayDip (-4.7000000000000028)))
  ∧ Main.drop_percent 95.31 100 = Ok (-4.6899999999999977)%float
  ∧ (abs (-4.6899999999999977 - -4.69) <? 1e-14)%float = true
  ∧ fst (Main.check_and_trigger (quiet_env "2025-01-01" 100 95.31) fresh)
      = Ok (NoFire AboveThreshold)
  ∧ Main.drop_percent 953 1000 = Ok INTRADAY_DIP_THRESHOLD
  ∧ fst (Main.check_and_trigger (quiet_env "2025-01-01" 1000 953) fresh)
      = Ok (Fire (IntradayDip (-4.7))).
Proof.
  split; [|split].
  - intros current reference. unfold Main.drop_percent, py_div.
    by destruct (reference =? 0)%float.
  - intros e w close date p Hel Hclose Hp Hdrop.
    by rewrite (check_and_trigger_eligible e w close p date Hel Hclose Hp), Hdrop.
  - vm_compute. by repeat split.
Qed.

Lemma intraday_boundary_witness :
  let e := quiet_env "2025-01-01" 1000 953 in
  Main.check_and_trigger e fresh =
    (Main.execute_trigger e (fst (refreshed e fresh 1000 "2024-12-31")) 953 1000
       INTRADAY_DIP_THRESHOLD (IntradayDip INTRADAY_DIP_THRESHOLD) ;;;
     ret (Fire (IntradayDip INTRADAY_DIP_THRESHOLD)))
      (snd (refreshed e fresh 1000 "2024-12-31")).
Proof.
  intros e.
  apply (proj1 (proj2 intraday_boundary) e fresh 1000%float "2024-12-31" 953%float).
  - exists (Atom (SInt 0)), (Atom SNone). by repeat split.
  - reflexivity.
  - reflexivity.
  - vm_compute. reflexivity.
Defined.

(** C7, as stated, fails: a negative current price is not rejected, it
    goes into the drop computation and fires. *)
Lemma invalid_price_counterexample :
  let run := Main.check_and_trigger (quiet_env "2025-01-01" 100 (-1)) fresh in
  fst run = Ok (Fire (IntradayDip (-101)))
  ∧ stored_state (snd run) !! "trigger_count" = Some (Atom (SInt 1))
  ∧ fst (Main.check_and_trigger (quiet_env "2025-01-01" 100 neg_infinity) fresh)
      = Ok (Fire (IntradayDip neg_infinity))
  ∧ fst (Main.check_and_trigger (quiet_env "2025-01-01" (-100) 95) fresh)
      = Ok (Fire (IntradayDip (-195))).
Proof. vm_compute. by repeat split. Qed.

(** C7, amended. Neither check validates its prices and neither ever
    answers [NoFire InvalidInput].  Past the terminal and dedup guards, with
    a reference close and a price at hand, the values go into the drop
    computation as they are, whatever their sign or finiteness: a zero
    reference close raises [ZeroDivisionError], a computed drop [<=] the
    threshold executes the trigger with those values, and any other drop
    (a NaN drop included) is a plain no-fire. *)
Theorem prices_are_not_validated (e : env) (w : world) :
  fst (Main.check_and_trigger e w) ≠ Ok (NoFire InvalidInput)
  ∧ fst (Main.check_daily_close e w) ≠ Ok (NoFire InvalidInput)
  ∧ (∀ close date p,
       eligible e w → daily_close e = Some (close, date) → btc_price e = Some p →
       Main.check_and_trigger e w =
         let '(st1, w1) := refreshed e w close date in
         if (close =? 0)%float then (Raise ZeroDivisionError, w1)
         else
           let d := (((p - close) / close) * 100)%float in
           if (d <=? INTRADAY_DIP_THRESHOLD)%float
           then (Main.execute_trigger e st1 p close d (IntradayDip d) ;;;
                 ret (Fire (IntradayDip d))) w1
           else (Ok (NoFire AboveThreshold), w1))
  ∧ (∀ close date p,
       eligible e w → daily_close e = Some (close, date) → today_close e = Some p →
       Main.check_daily_close e w =
         if (close =? 0)%float then (Raise ZeroDivisionError, w)
         else
           let d := (((p - close) / close) * 100)%float in
           if (d <=? CLOSE_TO_CLOSE_THRESHOLD)%float
           then (Main.execute_trigger e (stored_state w) p close d (CloseToClose d) ;;;
                 ret (Fire (CloseToClose d))) w
           else (Ok (NoFire AboveThreshold), w)).
Proof.
  split; [apply check_and_trigger_reasons|].
  split; [apply check_daily_close_reasons|]. split.
  - intros close date p Hel Hclose Hp.
    rewrite (check_and_trigger_eligible e w close p date Hel Hclose Hp).
    destruct (refreshed e w close date) as [st1 w1]; simpl.
    unfold Main.drop_percent, py_div. by destruct (close =? 0)%float.
  - intros close date p Hel Hclose Hp.
    rewrite (check_daily_close_eligible e w close p date Hel Hp Hclose).
    unfold Main.drop_percent, py_div. by destruct (close =? 0)%float.
Qed.

Lemma prices_are_not_validated_witness :
  let e := quiet_env "2025-01-01" 100 nan in
  fst (Main.check_and_trigger e fresh) = Ok (NoFire AboveThreshold)
  ∧ fst (Main.check_daily_close e fresh) = Ok (NoFire AboveThreshold).
Proof.
  intros e.
  destruct (prices_are_not_validated e fresh) as (_ & _ & H1 & H2).
  assert (eligible e fresh) as Hel
    by (exists (Atom (SInt 0)), (Atom SNone); by repeat split).
  rewrite (H1 100%float "2024-12-31" nan Hel eq_refl eq_refl).
  rewrite (H2 100%float "2024-12-31" nan Hel eq_refl eq_refl).
  by split.
Defined.



(** C9 fails on the manual script: its [load_state] returns the parsed
    file as it is.  On a file that holds only the counter, main.py loads a
    state with every key filled in, the script loads one without
    ["trigger_history"], sends both mails, and then stops on the missing
    key before anything is written. *)
Theorem manual_load_skips_defaults :
  let w := world_of partial_file in
  let e := quiet_env "2025-01-01" 100 95 in
  (∀ st t, TriggerNow.load_state (World (Some (Json st)) t)
             = (Ok st, World (Some (Json st)) t))
  ∧ (∃ st, Main.load_state w = (Ok st, w)
         ∧ st !! "trigger_count" = Some (Atom (SInt 2))
         ∧ st !! "last_trigger_date" = Some (Atom SNone)
         ∧ st !! "yesterday_close" = Some (Atom SNone)
         ∧ st !! "yesterday_close_date" = Some (Atom SNone)
         ∧ st !! "trigger_history" = Some (Rows []))
  ∧ (∃ st, TriggerNow.load_state w = (Ok st, w)
           ∧ st !! "trigger_count" = Some (Atom (SInt 2))
           ∧ st !! "last_trigger_date" = None
           ∧ st !! "yesterday_close" = None
           ∧ st !! "yesterday_close_date" = None
           ∧ st !! "trigger_history" = None)
  ∧ TriggerNow.main e w =
      (Raise (KeyError "trigger_history"),
       World (disk w)
         [Sent BROKER_EMAIL (ManualBrokerOrder (SInt 3) 95);
          Sent PERSONAL_EMAIL (ManualPersonalAlert (SInt 3) 95)]).
Proof.
  intros w e. split; [done|]. split; [|split].
  - eexists. split; [reflexivity|]. vm_compute. by repeat split.
  - eexists. split; [reflexivity|]. vm_compute. by repeat split.
  - by vm_compute.
Qed.

(** C10. The record the manual script appends to the history (after its
    two mails, in the state it then writes) has exactly the keys number,
    date, time, price and type.  For every stored state whose history
    contains such a record, the completion summary raises instead of
    rendering the table, and no completion mail is handed to the notifier;
    when the records of the history are those the two programs build, the
    error is the lookup of the absent ["drop_pct"] key. *)
Theorem completion_fails_on_manual_record :
  (∀ e w v n h,
     raw_state w !! "trigger_count" = Some v → py_add1 v = Ok n →
     raw_state w !! "trigger_history" = Some (Rows h) →
     ∃ r st3,
       TriggerNow.main e w =
         (r, World (saved_disk e st3 (disk w))
               (trace w ++
                  [mail_event e BROKER_EMAIL
                     (ManualBrokerOrder n (TriggerNow.get_btc_price e));
                   mail_event e PERSONAL_EMAIL
                     (ManualPersonalAlert n (TriggerNow.get_btc_price e));
                   save_event e st3]))
       ∧ st3 !! "trigger_history" =
           Some (Rows (h ++ [TriggerNow.manual_record n (exec_date e) (exec_time e)
                               (TriggerNow.get_btc_price e)])))
  ∧ (∀ n date time p k,
       is_Some (TriggerNow.manual_record n date time p !! k)
       ↔ k ∈ ["number"; "date"; "time"; "price"; "type"])
  ∧ (∀ e w h r,
       stored_state w !! "trigger_history" = Some (Rows h) →
       r ∈ h → manual_shaped r →
       (∃ ex, Main.send_completion_email e w = (Raise ex, w))
       ∧ (Forall produced h →
            Main.send_completion_email e w = (Raise (KeyError "drop_pct"), w))).
Proof.
  split; [|split].
  - intros e w v n h Hc Hadd Hh.
    destruct (manual_main_effect e w v n h Hc Hadd Hh) as (r & st3 & Hrun & _ & _ & Hh3).
    exists r, st3. split; [exact Hrun|exact Hh3].
  - intros n date time p k. unfold TriggerNow.manual_record. split.
    + intros [v Hv].
      destruct (decide (k ∈ ["number"; "date"; "time"; "price"; "type"])) as [|Hn];
        [done|exfalso].
      rewrite !not_elem_of_cons in Hn. destruct_and!. by simplify_map_eq.
    + intros Hin. repeat (apply elem_of_cons in Hin as [->|Hin]; [by eexists|]).
      by apply elem_of_nil in Hin.
  - intros e w h r Hh Hin (n & date & time & p & ->).
    destruct (history_rows_raise h _ _ Hin (history_row_manual n date time p))
      as [ex Hex].
    split.
    + exists ex. by eapply send_completion_email_raise.
    + intros Hprod. eapply send_completion_email_raise; [done|].
      destruct (history_rows_produced h Hprod) as [[rows Hrows]|]; [|done].
      by rewrite Hrows in Hex.
Qed.

Lemma completion_fails_on_manual_record_witness :
  let e := quiet_env "2025-01-02" 100 95 in
  let w := run_cycles [Manual (quiet_env "2025-01-01" 100 95)] fresh in
  Main.send_completion_email e w = (Raise (KeyError "drop_pct"), w).
Proof.
  intros e w.
  apply (proj2 (proj2 completion_fails_on_manual_record) e w
           [TriggerNow.manual_record (SInt 1) "2025-01-01" "2025-01-01T00:00:00+00:00" 95]
           (TriggerNow.manual_record (SInt 1) "2025-01-01" "2025-01-01T00:00:00+00:00" 95)).
  - reflexivity.
  - apply list_elem_of_here.
  - by eexists _, _, _, _.
  - repeat constructor.
Defined.

(** * Further properties *)

(** ** Saving and loading *)

Lemma merge_defaults_id (st : dict) :
  (∀ k, k ∈ Main.default_keys → is_Some (st !! k)) → Main.merge_defaults st = st.
Proof.
  intros Hall. apply map_eq; intros k.
  destruct (st !! k) as [v|] eqn:Hk; [by apply merge_defaults_keeps|].
  rewrite merge_defaults_fills by done.
  destruct (Main.default_state !! k) eqn:Hd; [|done].
  destruct (Hall k) as [v' Hv']; [apply default_state_keys; by eexists|congruence].
Qed.

(** X1. A state written by [save_state] and read back by [load_state] is
    that state with the missing default keys filled in, and the very same
    state when it has the five keys.  After a write that could not open
    the file the load gives what it gave before; after a write cut short it
    gives the default state.  [load_state] itself changes nothing. *)
Theorem save_then_load (e : env) (st : dict) (w : world) :
  let w' := snd (Main.save_state e st w) in
  fst (Main.save_state e st w) = Ok tt
  ∧ snd (Main.load_state w') = w'
  ∧ (disk_mode_of e st = WriteOk →
       fst (Main.load_state w') = Ok (Main.merge_defaults st)
       ∧ ((∀ k, k ∈ Main.default_keys → is_Some (st !! k)) →
            fst (Main.load_state w') = Ok st))
  ∧ (disk_mode_of e st = OpenFails →
       fst (Main.load_state w') = fst (Main.load_state w))
  ∧ (disk_mode_of e st = DumpFails →
       fst (Main.load_state w') = Ok Main.default_state).
Proof.
  intros w'. subst w'. rewrite save_state_after. simpl.
  split; [done|]. split; [by rewrite load_state_stored|].
  unfold after_save, saved_disk, Main.load_state; simpl.
  split; [|split]; intros ->; simpl; try done.
  - split; [done|]. intros Hall. by rewrite merge_defaults_id.
  - by destruct (disk w) as [[]|].
Qed.

Lemma save_then_load_witness :
  let e := quiet_env "2025-01-01" 100 95 in
  let st := fired_once "2025-01-01" in
  fst (Main.load_state (snd (Main.save_state e st fresh))) = Ok st.
Proof.
  intros e st.
  destruct (save_then_load e st fresh) as (_ & _ & Hok & _).
  destruct (Hok eq_refl) as [_ Hsame]. apply Hsame.
  intros k Hk. unfold Main.default_keys in Hk. unfold st, fired_once.
  repeat (apply elem_of_cons in Hk as [->|Hk]; [by eexists|]).
  by apply elem_of_nil in Hk.
Defined.

Lemma dom_default_state :
  dom Main.default_state = (list_to_set Main.default_keys : gset string).
Proof.
  apply set_eq; intros k. rewrite elem_of_dom, elem_of_list_to_set.
  apply default_state_keys.
Qed.

(** X2. What [load_state] of main.py returns, when it returns (it raises
    only if [STATE_FILE.exists()] itself does, a failure of the file system
    that is outside the model).  The load has changed nothing.  Without a
    readable file the state is the default state.  Otherwise it is the
    state of the file with exactly the missing default keys added: the keys
    are those of the file and the five default keys, every value of the
    file (under an unknown key too) is kept, a missing key gets its
    default, and loading the result again adds nothing. *)
Theorem load_state_fills_only_missing (w : world) (st : dict) :
  fst (Main.load_state w) = Ok st →
  snd (Main.load_state w) = w
  ∧ match disk w with
    | Some (Json st0) =>
        dom st = dom st0 ∪ list_to_set Main.default_keys
        ∧ (∀ k v, st0 !! k = Some v → st !! k = Some v)
        ∧ (∀ k, st0 !! k = None → st !! k = Main.default_state !! k)
        ∧ Main.merge_defaults st = st
    | _ => st = Main.default_state
    end.
Proof.
  rewrite load_state_stored. simpl. intros [= <-]. split; [done|].
  unfold stored_state, Main.load_state.
  destruct (disk w) as [[st0|]|]; simpl; try done.
  split; [|split; [|split]].
  - by rewrite merge_defaults_union, dom_union_L, dom_default_state.
  - intros k v. apply merge_defaults_keeps.
  - intros k. apply merge_defaults_fills.
  - apply merge_defaults_id. intros k. apply merge_defaults_complete.
Qed.

Lemma load_state_fills_only_missing_witness :
  Main.merge_defaults partial_file !! "trigger_count" = Some (Atom (SInt 2))
  ∧ Main.merge_defaults partial_file !! "trigger_history" = Some (Rows []).
Proof.
  destruct (load_state_fills_only_missing (world_of partial_file)
              (Main.merge_defaults partial_file))
    as (_ & _ & Hkeep & Hfill & _); [reflexivity|].
  split.
  - apply Hkeep. reflexivity.
  - rewrite Hfill; reflexivity.
Defined.

(** ** The completion summary, exactly *)

Lemma send_completion_email_rows (e : env) (w : world) (h : list record) :
  stored_state w !! "trigger_history" = Some (Rows h) →
  Main.send_completion_email e w =
    match Main.history_rows h with
    | Ok rows => (Ok tt, emit (mail_event e PERSONAL_EMAIL (CompletionSummary rows)) w)
    | Raise ex => (Raise ex, w)
    end.
Proof.
  intros Hh. unfold Main.send_completion_email, bind, lift, ret.
  rewrite load_state_stored. unfold getitem. rewrite Hh; simpl.
  destruct (Main.history_rows h) as [rows|]; [|done].
  by destruct (send_email_effect e PERSONAL_EMAIL (CompletionSummary rows) w) as [b ->].
Qed.

Lemma history_rows_row_of (h : list record) (rows : list (atom * atom * atom * atom)) :
  Main.history_rows h = Ok rows → map row_of h = map Some rows.
Proof.
  revert rows. induction h as [|t h IH]; intros rows; simpl.
  - by intros [= <-].
  - unfold Main.history_row at 1, getitem, row_of at 1.
    destruct (t !! "number") as [n|]; simpl; [|done].
    destruct (t !! "date") as [d|]; simpl; [|done].
    destruct (t !! "price") as [p|]; simpl; [|done].
    destruct (Main.format_2f p) as [p'|] eqn:Hp; simpl; [|done].
    destruct (t !! "drop_pct") as [x|]; simpl; [|done].
    destruct (Main.format_2f x) as [x'|] eqn:Hx; simpl; [|done].
    destruct (Main.history_rows h) as [rows'|]; simpl; [|done].
    intros [= <-]. simpl. rewrite (IH rows') by done.
    assert (∀ a a', Main.format_2f a = Ok a' → a = a') as Hfmt.
    { intros [] a'; simpl; try done; [|by intros [= <-]].
      destruct (int_fits_float _); [by intros [= <-]|done]. }
    by rewrite (Hfmt p p' Hp), (Hfmt x x' Hx).
Qed.

Lemma history_rows_scheduled (h : list record) :
  Forall scheduled_record h → ∃ rows, Main.history_rows h = Ok rows.
Proof.
  induction 1 as [|r h (n & date & time & p & c & d & l & ->) _ [rows IH]]; simpl.
  - by eexists.
  - rewrite history_row_scheduled; simpl. rewrite IH; simpl. by eexists.
Qed.

(** [execute_trigger] past its in-memory update, step by step. *)
Lemma execute_trigger_exact (e : env) (st st' : dict) (p c d : float)
    (l : trigger_type) (n : atom) (b : bool) (w : world) :
  Main.fire_update e st p c d l = Ok (n, st') →
  py_ge (Atom n) MAX_TRIGGERS MAX_TRIGGERS_f = Ok b →
  Main.execute_trigger e st p c d l w =
    let w2 := emit (mail_event e BROKER_EMAIL (BrokerOrder n p c d l))
                (after_save e st' w) in
    match Main.progress n with
    | Raise ex => (Raise ex, w2)
    | Ok _ =>
        let w3 := emit (mail_event e PERSONAL_EMAIL (PersonalAlert n p c d l)) w2 in
        if b then Main.send_completion_email e w3 else (Ok tt, w3)
    end.
Proof.
  intros Hf Hb. unfold Main.execute_trigger, bind, lift.
  rewrite Hf, save_state_after.
  destruct (send_email_effect e BROKER_EMAIL (BrokerOrder n p c d l)
              (after_save e st' w)) as [b1 ->].
  destruct (Main.progress n) as [[]|ex]; [|done].
  destruct (send_email_effect e PERSONAL_EMAIL (PersonalAlert n p c d l)
              (emit (mail_event e BROKER_EMAIL (BrokerOrder n p c d l))
                 (after_save e st' w))) as [b2 ->].
  rewrite Hb. by destruct b.
Qed.

(** X3. The completion summary is built from the file as it is read back:
    whenever every stored record renders (its four fields are there, price
    and drop are numbers, and an integer among them fits a float) the
    summary has one row per record, in their order, each showing the
    record's number, date, price and drop, and it goes to the personal
    address only.  So when the write of the trigger that reaches the
    maximum could not open the file, and the personal mail of that trigger
    could be composed, the summary sent lists the triggers of the old file,
    without the one that was just fired. *)
Theorem completion_summary_reads_the_file :
  (∀ e w h rows,
     stored_state w !! "trigger_history" = Some (Rows h) →
     Main.history_rows h = Ok rows →
     Main.send_completion_email e w
       = (Ok tt, emit (mail_event e PERSONAL_EMAIL (CompletionSummary rows)) w)
     ∧ map row_of h = map Some rows)
  ∧ (∀ e st st' p c d l n w h rows,
       Main.fire_update e st p c d l = Ok (n, st') →
       py_ge (Atom n) MAX_TRIGGERS MAX_TRIGGERS_f = Ok true →
       Main.progress n = Ok tt →
       disk_mode_of e st' = OpenFails →
       stored_state w !! "trigger_history" = Some (Rows h) →
       Main.history_rows h = Ok rows →
       Main.execute_trigger e st p c d l w =
         (Ok tt,
          World (disk w)
            (trace w ++
               [SaveFailed;
                mail_event e BROKER_EMAIL (BrokerOrder n p c d l);
                mail_event e PERSONAL_EMAIL (PersonalAlert n p c d l);
                mail_event e PERSONAL_EMAIL (CompletionSummary rows)]))).
Proof.
  split.
  - intros e w h rows Hh Hrows. split; [|by apply history_rows_row_of].
    by rewrite (send_completion_email_rows e w h Hh), Hrows.
  - intros e st st' p c d l n w h rows Hf Hb Hp Hopen Hh Hrows.
    rewrite (execute_trigger_exact e st st' p c d l n true w Hf Hb), Hp. simpl.
    rewrite (send_completion_email_rows e _ h), Hrows.
    + unfold emit, after_save, saved_disk, save_event; simpl. rewrite Hopen.
      by rewrite <- !app_assoc.
    + rewrite <- Hh. f_equal. apply stored_state_disk.
      unfold emit, after_save, saved_disk; simpl. by rewrite Hopen.
Qed.

Lemma completion_summary_reads_the_file_witness :
  let e := quiet_env "2025-01-02" 100 95 in
  let w := world_of (fired_once "2025-01-01") in
  Main.send_completion_email e w
    = (Ok tt,
       emit (Sent PERSONAL_EMAIL
               (CompletionSummary [(SInt 1, SStr "2025-01-01", SFloat 95, SFloat (-5))]))
         w).
Proof.
  intros e w.
  apply (proj1 completion_summary_reads_the_file e w
           [Main.trigger_record (SInt 1) "2025-01-01" "2025-01-01T00:00:00+00:00"
              95 100 (-5) (IntradayDip (-5))]
           [(SInt 1, SStr "2025-01-01", SFloat 95, SFloat (-5))]);
    reflexivity.
Defined.

(** ** Mail settings and outcomes never reach the state *)

Lemma writes_app (t1 t2 : list event) : writes (t1 ++ t2) = writes t1 ++ writes t2.
Proof. apply filter_app. Qed.

Lemma writes_send (ev : event) : is_send ev = true → writes [ev] = [].
Proof. intros H. unfold writes. rewrite filter_cons, filter_nil. by rewrite decide_False by congruence. Qed.

Lemma same_storage_emit_send (w w' : world) (ev ev' : event) :
  is_send ev = true → is_send ev' = true →
  same_storage w w' → same_storage (emit ev w) (emit ev' w').
Proof.
  intros Hs Hs' [Hd Ht]. split; [done|]. simpl.
  by rewrite !writes_app, (writes_send _ Hs), (writes_send _ Hs'), Ht.
Qed.

Lemma same_storage_stored (w w' : world) :
  same_storage w w' → stored_state w = stored_state w'.
Proof. intros [Hd _]. by apply stored_state_disk. Qed.

Section Simulation.
Context (e e' : env) (Hmail : same_but_mail e e').

Lemma sim_ret {A} (a : A) : storage_sim eq (ret a) (ret a).
Proof. by intros w w' Hw. Qed.

Lemma sim_lift {A} (r : result A) : storage_sim eq (lift r) (lift r).
Proof. intros w w' Hw. split; [|done]. by destruct r. Qed.

Lemma sim_bind {A B} (Q : A → A → Prop) (Q' : B → B → Prop)
    (m m' : M A) (f f' : A → M B) :
  storage_sim Q m m' →
  (∀ a a', Q a a' → storage_sim Q' (f a) (f' a')) →
  storage_sim Q' (bind m f) (bind m' f').
Proof.
  intros Hm Hf w w' Hw. unfold bind.
  destruct (Hm w w' Hw) as [Hr Hs].
  destruct (m w) as [[a|x] w1], (m' w') as [[a'|x'] w1']; simpl in *; try done.
  by apply Hf.
Qed.

Lemma sim_load_state : storage_sim eq Main.load_state Main.load_state.
Proof.
  intros w w' Hw. rewrite !load_state_stored. simpl.
  split; [by apply same_storage_stored|done].
Qed.

Lemma sim_save_state (st : dict) :
  storage_sim eq (Main.save_state e st) (Main.save_state e' st).
Proof.
  intros w w' [Hd Ht]. rewrite !save_state_after. split; [done|].
  destruct Hmail as (_ & _ & _ & _ & _ & _ & Hmode).
  unfold after_save, same_storage, saved_disk, save_event; simpl.
  rewrite !writes_app, Ht, Hd, (Hmode st). done.
Qed.

Lemma sim_send_email (to : recipient) (m : mail) :
  storage_sim (λ _ _, True) (Main.send_email e to m) (Main.send_email e' to m).
Proof.
  intros w w' Hw.
  destruct (send_email_effect e to m w) as [b ->].
  destruct (send_email_effect e' to m w') as [b' ->].
  split; [done|]. apply same_storage_emit_send; auto using mail_event_is_send.
Qed.

Lemma sim_send_completion_email :
  storage_sim eq (Main.send_completion_email e) (Main.send_completion_email e').
Proof.
  unfold Main.send_completion_email.
  eapply sim_bind; [apply sim_load_state|intros st ? <-].
  eapply sim_bind; [apply sim_lift|intros v ? <-].
  eapply sim_bind; [apply sim_lift|intros h ? <-].
  eapply sim_bind; [apply sim_lift|intros rows ? <-].
  eapply sim_bind; [apply sim_send_email|intros _ _ _]. apply sim_ret.
Qed.

Lemma fire_update_same (st : dict) (p c d : float) (l : trigger_type) :
  Main.fire_update e st p c d l = Main.fire_update e' st p c d l.
Proof.
  destruct Hmail as (_ & Hd & Ht & _). unfold Main.fire_update. by rewrite Hd, Ht.
Qed.

Lemma sim_execute_trigger (st : dict) (p c d : float) (l : trigger_type) :
  storage_sim eq (Main.execute_trigger e st p c d l)
    (Main.execute_trigger e' st p c d l).
Proof.
  unfold Main.execute_trigger. rewrite fire_update_same.
  eapply sim_bind; [apply sim_lift|intros [n st'] ? <-].
  eapply sim_bind; [apply sim_save_state|intros _ _ _].
  eapply sim_bind; [apply sim_send_email|intros _ _ _].
  eapply sim_bind; [apply sim_lift|intros _ _ _].
  eapply sim_bind; [apply sim_send_email|intros _ _ _].
  eapply sim_bind; [apply sim_lift|intros b ? <-].
  destruct b; [apply sim_send_completion_email|apply sim_ret].
Qed.

Lemma sim_check_and_trigger :
  storage_sim eq (Main.check_and_trigger e) (Main.check_and_trigger e').
Proof.
  destruct Hmail as (Htoday & _ & _ & Hclose & Hprice & _ & _).
  unfold Main.check_and_trigger. rewrite Htoday, Hclose, Hprice.
  eapply sim_bind; [apply sim_load_state|intros st ? <-].
  eapply sim_bind; [apply sim_lift|intros count ? <-].
  eapply sim_bind; [apply sim_lift|intros full ? <-].
  destruct full; [apply sim_ret|].
  eapply sim_bind; [apply sim_lift|intros last ? <-].
  destruct (py_eq_str last (today_utc e')); [apply sim_ret|].
  destruct (daily_close e') as [[close date]|]; [|apply sim_ret].
  eapply sim_bind; [apply sim_lift|intros stored ? <-].
  eapply (sim_bind eq).
  { destruct (negb (py_eq_str stored date)); [|apply sim_ret].
    eapply sim_bind; [apply sim_save_state|intros _ _ _]. apply sim_ret. }
  intros st1 ? <-.
  destruct (btc_price e') as [p|]; [|apply sim_ret].
  eapply sim_bind; [apply sim_lift|intros d ? <-].
  destruct (d <=? INTRADAY_DIP_THRESHOLD)%float; [|apply sim_ret].
  eapply sim_bind; [apply sim_execute_trigger|intros _ _ _]. apply sim_ret.
Qed.

Lemma sim_check_daily_close :
  storage_sim eq (Main.check_daily_close e) (Main.check_daily_close e').
Proof.
  destruct Hmail as (Htoday & _ & _ & Hclose & _ & Htc & _).
  unfold Main.check_daily_close. rewrite Htoday, Hclose, Htc.
  eapply sim_bind; [apply sim_load_state|intros st ? <-].
  eapply sim_bind; [apply sim_lift|intros count ? <-].
  eapply sim_bind; [apply sim_lift|intros full ? <-].
  destruct full; [apply sim_ret|].
  eapply sim_bind; [apply sim_lift|intros last ? <-].
  destruct (py_eq_str last (today_utc e')); [apply sim_ret|].
  destruct (today_close e') as [p|]; [|apply sim_ret].
  destruct (daily_close e') as [[close date]|]; [|apply sim_ret].
  eapply sim_bind; [apply sim_lift|intros d ? <-].
  destruct (d <=? CLOSE_TO_CLOSE_THRESHOLD)%float; [|apply sim_ret].
  eapply sim_bind; [apply sim_execute_trigger|intros _ _ _]. apply sim_ret.
Qed.
End Simulation.

Lemma rel_result_eq {A} (r r' : result A) : rel_result eq r r' → r = r'.
Proof. destruct r, r'; simpl; intros H; by subst. Qed.

Lemma same_storage_refl (w : world) : same_storage w w.
Proof. done. Qed.

Lemma sim_manual_main (e e' : env) :
  same_but_mail e e' → storage_sim eq (TriggerNow.main e) (TriggerNow.main e').
Proof.
  intros Hmail. pose proof Hmail as (_ & Hd & Ht & _ & Hp & _ & Hmode).
  unfold TriggerNow.main, TriggerNow.get_btc_price. rewrite Hd, Ht, Hp.
  eapply (sim_bind eq).
  { intros w w' Hw. rewrite !raw_state_loaded. simpl. split; [|done].
    unfold raw_state, TriggerNow.load_state. destruct Hw as [-> _].
    by destruct (disk w') as [[]|]. }
  intros st ? <-.
  eapply sim_bind; [apply sim_lift|intros count ? <-].
  eapply sim_bind; [apply sim_lift|intros n ? <-].
  eapply sim_bind; [apply (sim_send_email e e')|intros _ _ _].
  eapply sim_bind; [apply (sim_send_email e e')|intros _ _ _].
  eapply sim_bind; [apply sim_lift|intros st3 ? <-].
  intros w w' [Hdisk Htr].
  unfold TriggerNow.save_state, emit. rewrite <- (Hmode st3).
  destruct (disk_mode_of e st3); simpl; unfold same_storage; simpl;
    by rewrite !writes_app, Htr, ?Hdisk.
Qed.

Lemma sim_run_cycle (c c' : cycle) (w w' : world) :
  cycle_same_but_mail c c' → same_storage w w' →
  same_storage (run_cycle c w) (run_cycle c' w').
Proof.
  intros Hc Hw. destruct c as [e|e|e], c' as [e'|e'|e']; simpl in *; try done.
  - by apply (sim_check_and_trigger e e' Hc).
  - by apply (sim_check_daily_close e e' Hc).
  - by apply (sim_manual_main e e' Hc).
Qed.

(** X4. Neither the mail password nor the outcome of any send changes what
    the programs decide or store: two runs that differ only in the mail
    settings answer the same at every check, leave the same file, and make
    the same writes in the same order. *)
Theorem mail_never_reaches_the_state :
  (∀ e e' w, same_but_mail e e' →
     fst (Main.check_and_trigger e w) = fst (Main.check_and_trigger e' w)
     ∧ fst (Main.check_daily_close e w) = fst (Main.check_daily_close e' w)
     ∧ fst (TriggerNow.main e w) = fst (TriggerNow.main e' w))
  ∧ (∀ cs cs' w, Forall2 cycle_same_but_mail cs cs' →
       disk (run_cycles cs w) = disk (run_cycles cs' w)
       ∧ writes (trace (run_cycles cs w)) = writes (trace (run_cycles cs' w))).
Proof.
  split.
  - intros e e' w Hmail. split; [|split]; apply rel_result_eq.
    + apply (sim_check_and_trigger e e' Hmail w w (same_storage_refl w)).
    + apply (sim_check_daily_close e e' Hmail w w (same_storage_refl w)).
    + apply (sim_manual_main e e' Hmail w w (same_storage_refl w)).
  - intros cs cs' w Hcs.
    assert (∀ w w', same_storage w w' →
              same_storage (run_cycles cs w) (run_cycles cs' w')) as Hgen.
    { induction Hcs as [|c c' cs cs' Hc _ IH]; intros w1 w1' Hw; [done|].
      simpl. by apply IH, sim_run_cycle. }
    apply (Hgen w w (same_storage_refl w)).
Qed.

Lemma mail_never_reaches_the_state_witness :
  let e := quiet_env "2025-01-01" 100 95 in
  let e' := mute_env "2025-01-01" 100 95 in
  fst (Main.check_and_trigger e fresh) = fst (Main.check_and_trigger e' fresh)
  ∧ fst (Main.check_daily_close e fresh) = fst (Main.check_daily_close e' fresh)
  ∧ fst (TriggerNow.main e fresh) = fst (TriggerNow.main e' fresh).
Proof.
  intros e e'. apply (proj1 mail_never_reaches_the_state e e' fresh).
  by repeat split.
Defined.

(** ** One scheduled check on a counted state *)

Lemma stored_after_save (e : env) (st : dict) (w : world) :
  stored_state (after_save e st w) =
    match disk_mode_of e st with
    | WriteOk => Main.merge_defaults st
    | OpenFails => stored_state w
    | DumpFails => Main.default_state
    end.
Proof.
  unfold after_save, saved_disk. destruct (disk_mode_of e st); try done.
  by apply stored_state_disk.
Qed.

Lemma history_of_merge (st : dict) :
  history_of (Main.merge_defaults st) = history_of st.
Proof.
  unfold history_of. destruct (st !! "trigger_history") as [v|] eqn:Hh.
  - by rewrite (merge_defaults_keeps _ _ _ Hh).
  - by rewrite (merge_defaults_fills _ _ Hh).
Qed.

Lemma counted_at_history (k : nat) (st : dict) :
  counted_at k st → st !! "trigger_history" = Some (Rows (history_of st)).
Proof. intros (h & _ & _ & Hh & _). unfold history_of. by rewrite Hh. Qed.

Lemma eligible_below_max (e : env) (w : world) (k : nat) :
  eligible e w → counted_at k (stored_state w) → k < 15.
Proof.
  intros (count & last & Hc & Hge & _) (h & _ & Hc' & _).
  rewrite Hc' in Hc. injection Hc as <-. simpl in Hge. injection Hge as Hge.
  apply Z.leb_gt in Hge. unfold MAX_TRIGGERS in Hge. lia.
Qed.

(** The stored state after a trigger executed on a counted state. *)
Lemma stored_after_fire (e : env) (st : dict) (p c d : float) (l : trigger_type)
    (k : nat) (w : world) :
  counted_at k st →
  let w' := snd (Main.execute_trigger e st p c d l w) in
  stored_state w' = stored_state w
  ∨ stored_state w' = Main.default_state
  ∨ (counted_at (S k) (stored_state w')
     ∧ stored_state w' !! "last_trigger_date" = Some (Atom (SStr (exec_date e)))
     ∧ history_of (stored_state w') =
         history_of st ++ [Main.trigger_record (SInt (Z.of_nat (S k))) (exec_date e)
                             (exec_time e) p c d l]).
Proof.
  intros Hk w'.
  destruct (counted_at_fire k e st p c d l Hk) as (st' & Hf & Hk').
  destruct (fire_update_fields _ _ _ _ _ _ _ _ Hf) as (_ & Hl & Hh).
  pose proof (execute_trigger_disk e st p c d l w) as Hdisk. rewrite Hf in Hdisk.
  fold w' in Hdisk. unfold saved_disk in Hdisk.
  destruct (disk_mode_of e st').
  - right; right.
    rewrite (stored_state_disk w' (World (Some (Json st')) [])) by done.
    split; [by apply counted_at_merge|].
    split; [by apply stored_state_written|].
    unfold history_of at 1. by rewrite (stored_state_written _ _ _ _ Hh).
  - left. by apply stored_state_disk.
  - right; left. by rewrite (stored_state_disk w' (World (Some Garbage) [])).
Qed.

Lemma stored_after_refresh (e : env) (close : float) (date : string) (w : world)
    (k : nat) :
  counted_at k (stored_state w) →
  let w1 := after_save e (refresh close date (stored_state w)) w in
  (counted_at k (stored_state w1)
   ∧ history_of (stored_state w1) = history_of (stored_state w)
   ∧ stored_state w1 !! "last_trigger_date" = stored_state w !! "last_trigger_date")
  ∨ stored_state w1 = Main.default_state.
Proof.
  intros Hk w1. subst w1. rewrite stored_after_save.
  destruct (disk_mode_of e _); [left|left|by right]; [|done].
  split; [by apply counted_at_merge, counted_at_refresh|].
  split; [by rewrite history_of_merge, history_of_refresh|].
  destruct (stored_state_complete w "last_trigger_date") as [v Hv]; [set_solver|].
  rewrite Hv. apply merge_defaults_keeps. by rewrite refresh_other.
Qed.

(** X5. One scheduled check on a stored state whose counter is [k] and
    matches its history does one of three things to what is stored: it
    leaves counter, history and [last_trigger_date] as they were; or, only
    below the maximum, it appends exactly one record, numbered [k + 1] and
    dated with the date of the execution, sets [last_trigger_date] to that
    date and the counter to [k + 1]; or a write that was cut short leaves
    an unreadable file, which loads as the default state. *)
Theorem one_check_one_record (c : cycle) (w : world) (k : nat) :
  is_scheduled c = true →
  counted_at k (stored_state w) →
  let w' := run_cycle c w in
  (counted_at k (stored_state w')
   ∧ history_of (stored_state w') = history_of (stored_state w)
   ∧ stored_state w' !! "last_trigger_date" = stored_state w !! "last_trigger_date")
  ∨ stored_state w' = Main.default_state
  ∨ (k < 15
     ∧ counted_at (S k) (stored_state w')
     ∧ stored_state w' !! "last_trigger_date"
         = Some (Atom (SStr (exec_date (cycle_env c))))
     ∧ ∃ r, scheduled_record r
            ∧ r !! "number" = Some (SInt (Z.of_nat (S k)))
            ∧ r !! "date" = Some (SStr (exec_date (cycle_env c)))
            ∧ history_of (stored_state w') = history_of (stored_state w) ++ [r]).
Proof.
  intros Hc Hk w'. pose proof (scheduled_cycle_step c w Hc) as Hstep. fold w' in Hstep.
  set (e := cycle_env c) in *. clearbody w' e.
  destruct Hstep as [|close date Hel|p cl d l Hel|close date p cl d l Hel].
  - by left.
  - destruct (stored_after_refresh e close date w k Hk) as [?|?]; auto.
  - destruct (stored_after_fire e (stored_state w) p cl d l k w Hk)
      as [->|[->|(Hk' & Hl & Hh)]]; [by left|by right; left|].
    right; right. split; [by eapply eligible_below_max|]. do 2 (split; [done|]).
    eexists. split; [by eexists _, _, _, _, _, _, _|]. by repeat split.
  - set (st1 := refresh close date (stored_state w)).
    set (w1 := after_save e st1 w).
    destruct (stored_after_fire e st1 p cl d l k w1 (counted_at_refresh _ _ _ _ Hk))
      as [->|[->|(Hk' & Hl & Hh)]]; [|by right; left|].
    + destruct (stored_after_refresh e close date w k Hk) as [?|?]; auto.
    + right; right. split; [by eapply eligible_below_max|]. do 2 (split; [done|]).
      eexists. split; [by eexists _, _, _, _, _, _, _|].
      rewrite Hh. unfold st1. rewrite history_of_refresh. by repeat split.
Qed.

Lemma one_check_one_record_witness :
  let c := Intraday (quiet_env "2025-01-01" 100 95) in
  counted_at 1 (stored_state (run_cycle c fresh)).
Proof.
  intros c.
  destruct (one_check_one_record c fresh 0) as [(Hk & Hh & _)|[Hd|(_ & Hk & _)]];
    [reflexivity|apply counted_at_default| | |exact Hk].
  - exfalso. vm_compute in Hh. discriminate Hh.
  - exfalso. assert (stored_state (run_cycle c fresh) !! "trigger_count"
                       = Some (Atom (SInt 0))) as Habs by (by rewrite Hd).
    vm_compute in Habs. discriminate Habs.
Defined.

(** ** Runs of the scheduled checks alone *)

Lemma tidy_default : tidy Main.default_state.
Proof. split; [apply counted_default|constructor]. Qed.

Lemma tidy_merge (st : dict) : tidy st → tidy (Main.merge_defaults st).
Proof. intros [Hc Hh]. split; [by apply counted_merge|by rewrite history_of_merge]. Qed.

Lemma tidy_refresh (close : float) (date : string) (st : dict) :
  tidy st → tidy (refresh close date st).
Proof.
  intros [Hc Hh]. split; [by apply counted_refresh|by rewrite history_of_refresh].
Qed.

Lemma tidy_fire (e : env) (st : dict) (p c d : float) (l : trigger_type)
    (n : atom) (st' : dict) :
  tidy st → Main.fire_update e st p c d l = Ok (n, st') → tidy st'.
Proof.
  intros [Hc Hh] Hf. split; [by eapply counted_fire|].
  destruct (fire_update_fields _ _ _ _ _ _ _ _ Hf) as (_ & _ & Hh').
  unfold history_of at 1. rewrite Hh'. apply Forall_app. split; [done|].
  constructor; [|done]. by eexists _, _, _, _, _, _, _.
Qed.

Lemma on_disk_after_save (Φ : dict → Prop) (e : env) (st : dict) (w : world) :
  on_disk Φ w → Φ st → on_disk Φ (after_save e st w).
Proof.
  intros Hw Hst. unfold on_disk, after_save, saved_disk; simpl.
  by destruct (disk_mode_of e st).
Qed.

Lemma tidy_renders (w : world) :
  on_disk tidy w →
  ∃ h rows, stored_state w !! "trigger_history" = Some (Rows h)
            ∧ Main.history_rows h = Ok rows ∧ length rows = length h.
Proof.
  intros Hw.
  destruct (stored_state_inv tidy tidy_default tidy_merge w Hw) as [[k Hk] Hh].
  destruct (history_rows_scheduled _ Hh) as [rows Hrows].
  exists (history_of (stored_state w)), rows.
  split; [by eapply counted_at_history|]. split; [done|].
  apply history_rows_row_of in Hrows.
  by rewrite <- (length_map row_of), Hrows, length_map.
Qed.

Lemma progress_small (k : nat) :
  k ≤ 15 → Main.progress (SInt (Z.of_nat k)) = Ok tt.
Proof.
  intros Hk. unfold Main.progress, quotient_fits_float.
  rewrite (proj2 (Z.ltb_lt _ _)); [done|].
  assert (15 < MAX_TRIGGERS * (2 ^ 1024 - 2 ^ 970))%Z by (by vm_compute). lia.
Qed.

(** On a tidy state and file, below the maximum, the executor returns. *)
Lemma execute_trigger_tidy_ok (e : env) (st : dict) (p c d : float)
    (l : trigger_type) (w : world) (k : nat) :
  on_disk tidy w → tidy st → counted_at k st → k < 15 →
  fst (Main.execute_trigger e st p c d l w) = Ok tt.
Proof.
  intros Hw [_ Hh] Hk Hlt.
  destruct (counted_at_fire k e st p c d l Hk) as (st' & Hf & Hk').
  destruct (fire_update_numeric _ _ _ _ _ _ _ _ Hf) as [b Hb].
  rewrite (execute_trigger_exact e st st' p c d l _ b w Hf Hb).
  rewrite (progress_small (S k)) by lia. simpl.
  destruct b; [|done].
  set (w3 := emit _ (emit _ _)).
  assert (on_disk tidy w3) as Hw3.
  { apply (on_disk_after_save tidy e st' w Hw).
    eapply tidy_fire; [|done]. split; [by exists k|done]. }
  destruct (tidy_renders w3 Hw3) as (h & rows & Hh3 & Hrows & _).
  by rewrite (send_completion_email_rows e w3 h Hh3), Hrows.
Qed.

Lemma check_and_trigger_tidy (e : env) (w : world) (ex : exn) :
  on_disk tidy w →
  fst (Main.check_and_trigger e w) = Raise ex →
  ex = ZeroDivisionError
  ∧ ∃ close date, daily_close e = Some (close, date) ∧ (close =? 0)%float = true.
Proof.
  intros Hw.
  assert (tidy (stored_state w)) as Hst
    by (by apply (stored_state_inv tidy tidy_default tidy_merge)).
  destruct Hst as [[k Hk] Hh0]. pose proof Hk as (h & _ & Hc & _).
  assert (tidy (stored_state w)) as Hst
    by (by apply (stored_state_inv tidy tidy_default tidy_merge)).
  start_check. rewrite Hc; simpl.
  destruct (MAX_TRIGGERS <=? Z.of_nat k)%Z eqn:Hmax; [done|].
  apply Z.leb_gt in Hmax.
  assert (k < 15) as Hlt by (unfold MAX_TRIGGERS in Hmax; lia).
  destruct (stored_state_complete w "last_trigger_date") as [last ->]; [set_solver|].
  simpl. destruct (py_eq_str last (today_utc e)); [done|].
  destruct (daily_close e) as [[close date]|]; [|done].
  destruct (stored_state_complete w "yesterday_close_date") as [stored ->];
    [set_solver|]. simpl.
  unfold Main.drop_percent, py_div.
  destruct (negb (py_eq_str stored date)); [rewrite save_state_after|];
    (destruct (btc_price e) as [p|]; [|done]);
    (destruct (close =? 0)%float eqn:Hz; simpl;
       [intros [= <-]; split; [done|by exists close, date]|]);
    (destruct (_ <=? INTRADAY_DIP_THRESHOLD)%float; [|done]).
  - pose proof (execute_trigger_tidy_ok e (refresh close date (stored_state w)) p close
      ((p - close) / close * 100)%float (IntradayDip ((p - close) / close * 100)%float)
      (after_save e (refresh close date (stored_state w)) w) k
      (on_disk_after_save tidy e _ w Hw (tidy_refresh close date _ Hst))
      (tidy_refresh close date _ Hst)
      (counted_at_refresh k close date _ Hk) Hlt) as Hok.
    by destruct (Main.execute_trigger _ _ _ _ _ _ _) as [[] ?]; simplify_eq/=.
  - pose proof (execute_trigger_tidy_ok e (stored_state w) p close
      ((p - close) / close * 100)%float (IntradayDip ((p - close) / close * 100)%float)
      w k Hw Hst Hk Hlt) as Hok.
    by destruct (Main.execute_trigger _ _ _ _ _ _ _) as [[] ?]; simplify_eq/=.
Qed.

Lemma check_daily_close_tidy (e : env) (w : world) (ex : exn) :
  on_disk tidy w →
  fst (Main.check_daily_close e w) = Raise ex →
  ex = ZeroDivisionError
  ∧ ∃ close date, daily_close e = Some (close, date) ∧ (close =? 0)%float = true.
Proof.
  intros Hw.
  assert (tidy (stored_state w)) as Hst
    by (by apply (stored_state_inv tidy tidy_default tidy_merge)).
  destruct Hst as [[k Hk] Hh0]. pose proof Hk as (h & _ & Hc & _).
  assert (tidy (stored_state w)) as Hst
    by (by apply (stored_state_inv tidy tidy_default tidy_merge)).
  start_check. rewrite Hc; simpl.
  destruct (MAX_TRIGGERS <=? Z.of_nat k)%Z eqn:Hmax; [done|].
  apply Z.leb_gt in Hmax.
  assert (k < 15) as Hlt by (unfold MAX_TRIGGERS in Hmax; lia).
  destruct (stored_state_complete w "last_trigger_date") as [last ->]; [set_solver|].
  simpl. destruct (py_eq_str last (today_utc e)); [done|].
  destruct (today_close e) as [p|]; [|done].
  destruct (daily_close e) as [[close date]|]; [|done].
  unfold Main.drop_percent, py_div.
  destruct (close =? 0)%float eqn:Hz; simpl;
    [intros [= <-]; split; [done|by exists close, date]|].
  destruct (_ <=? CLOSE_TO_CLOSE_THRESHOLD)%float; [|done].
  pose proof (execute_trigger_tidy_ok e (stored_state w) p close
    ((p - close) / close * 100)%float (CloseToClose ((p - close) / close * 100)%float)
    w k Hw Hst Hk Hlt) as Hok.
  by destruct (Main.execute_trigger _ _ _ _ _ _ _) as [[] ?]; simplify_eq/=.
Qed.

Lemma scheduled_cycles_tidy (cs : list cycle) :
  Forall (λ c, is_scheduled c = true) cs →
  always_written tidy (run_cycles cs fresh).
Proof.
  intros Hcs.
  apply (scheduled_cycles_inv tidy tidy_default tidy_merge tidy_refresh);
    [|done|apply fresh_always_written].
  intros ????????? Hst _ _ Hf. by eapply tidy_fire.
Qed.

(** X6. In a run of the scheduled checks from the empty state in which the
    state file can be looked up every time ([STATE_FILE.exists()] answers;
    an error of the file system there is outside the model), whatever
    becomes of the writes and of the mails, a check either returns or
    stops on a division by zero, and the latter only when the reference
    close that was fetched is zero: no missing key, type error, overflow
    or failed summary can occur. *)
Theorem scheduled_checks_only_divide_by_zero (cs : list cycle) (e : env) (ex : exn) :
  Forall (λ c, is_scheduled c = true) cs →
  fst (Main.check_and_trigger e (run_cycles cs fresh)) = Raise ex
  ∨ fst (Main.check_daily_close e (run_cycles cs fresh)) = Raise ex →
  ex = ZeroDivisionError
  ∧ ∃ close date, daily_close e = Some (close, date) ∧ (close =? 0)%float = true.
Proof.
  intros Hcs Hraise.
  pose proof (proj1 (scheduled_cycles_tidy cs Hcs)) as Hw.
  destruct Hraise as [H|H].
  - by eapply check_and_trigger_tidy.
  - by eapply check_daily_close_tidy.
Qed.

Lemma scheduled_checks_only_divide_by_zero_witness :
  ∃ close date,
    daily_close (quiet_env "2025-01-02" 0 95) = Some (close, date)
    ∧ (close =? 0)%float = true.
Proof.
  apply (scheduled_checks_only_divide_by_zero
           [Intraday (quiet_env "2025-01-01" 100 95)]
           (quiet_env "2025-01-02" 0 95) ZeroDivisionError).
  - repeat constructor.
  - left. vm_compute. reflexivity.
Defined.

(** ** The date of the last trigger *)

Lemma dated_default : dated Main.default_state.
Proof. done. Qed.

Lemma dated_merge (st : dict) : dated st → dated (Main.merge_defaults st).
Proof.
  unfold dated. rewrite history_of_merge.
  destruct (last (history_of st)) as [r|].
  - intros (d & Hl & Hr). exists d. by rewrite (merge_defaults_keeps _ _ _ Hl).
  - apply merge_defaults_keeps.
Qed.

Lemma dated_refresh (close : float) (date : string) (st : dict) :
  dated st → dated (refresh close date st).
Proof. unfold dated. by rewrite history_of_refresh, refresh_other. Qed.

Lemma dated_fire (e : env) (st : dict) (p c d : float) (l : trigger_type)
    (n : atom) (st' : dict) :
  Main.fire_update e st p c d l = Ok (n, st') → dated st'.
Proof.
  intros Hf. destruct (fire_update_fields _ _ _ _ _ _ _ _ Hf) as (_ & Hl & Hh).
  unfold dated, history_of. rewrite Hh, last_snoc. by exists (exec_date e).
Qed.

Lemma kept_default : kept Main.default_state.
Proof. split; [apply counted_default|apply dated_default]. Qed.

Lemma kept_merge (st : dict) : kept st → kept (Main.merge_defaults st).
Proof. intros [??]. split; [by apply counted_merge|by apply dated_merge]. Qed.

Lemma kept_refresh (close : float) (date : string) (st : dict) :
  kept st → kept (refresh close date st).
Proof. intros [??]. split; [by apply counted_refresh|by apply dated_refresh]. Qed.

Lemma manual_kept (e : env) (w : world) :
  always_written kept w → always_written kept (snd (TriggerNow.main e w)).
Proof.
  intros [Hd Ht].
  destruct (raw_state_inv kept w kept_default Hd) as [[k (h & Hlen & Hc & Hh & Hn)] _].
  destruct (manual_main_effect e w _ (SInt (Z.of_nat (S k))) h Hc)
    as (r & st3 & -> & Hc3 & Hl3 & Hh3); [simpl; do 2 f_equal; lia|done|].
  assert (kept st3) as Hst3.
  { split.
    - exists (S k). eexists. split; [|split; [done|split; [done|]]].
      + rewrite length_app; simpl; lia.
      + unfold numbers in *. by rewrite map_app, Hn, one_to_S.
    - unfold dated, history_of. rewrite Hh3, last_snoc. by exists (exec_date e). }
  split; simpl.
  - unfold on_disk, saved_disk; simpl. by destruct (disk_mode_of e st3).
  - apply Forall_app. split; [done|].
    constructor; [apply send_saved_in, mail_event_is_send|].
    constructor; [apply send_saved_in, mail_event_is_send|].
    constructor; [|done].
    unfold save_event. by destruct (disk_mode_of e st3).
Qed.

Lemma cycle_kept (c : cycle) (w : world) :
  always_written kept w → always_written kept (run_cycle c w).
Proof.
  intros Hw. destruct (is_scheduled c) eqn:Hs.
  - eapply (scheduled_step_inv kept kept_default kept_merge kept_refresh);
      [|done|by apply scheduled_cycle_step].
    intros ????????? [Hc _] _ _ Hf. split; [by eapply counted_fire|by eapply dated_fire].
  - destruct c; try done. by apply manual_kept.
Qed.

(** X7. In every run from the empty state, of scheduled checks and manual
    triggers in any order, every state that was written and the state that
    is stored have [last_trigger_date] equal to the date of the last record
    of the history, and [None] when the history is empty. *)
Theorem last_trigger_date_is_last_record (cs : list cycle) :
  dated (stored_state (run_cycles cs fresh))
  ∧ Forall (saved_in dated) (trace (run_cycles cs fresh)).
Proof.
  assert (always_written kept (run_cycles cs fresh)) as [Hd Ht].
  { generalize (fresh_always_written kept). generalize fresh.
    induction cs as [|c cs IH]; intros w Hw; [done|].
    simpl. by apply IH, cycle_kept. }
  split.
  - by apply (stored_state_inv kept kept_default kept_merge).
  - eapply Forall_impl; [done|]. intros [] H; try done. apply H.
Qed.

(** ** Orders and summaries with a working disk *)

Lemma mail_of_mail_event (e : env) (to : recipient) (m : mail) :
  mail_of (mail_event e to m) = Some (to, m).
Proof.
  unfold mail_event. destruct (negb (SENDER_PASSWORD e)); [done|].
  by destruct (smtp_ok e m).
Qed.

Lemma broker_mails_app (t1 t2 : list event) :
  broker_mails (t1 ++ t2) = broker_mails t1 ++ broker_mails t2.
Proof. apply omap_app. Qed.

Lemma completions_app (t1 t2 : list event) :
  completions (t1 ++ t2) = completions t1 + completions t2.
Proof. unfold completions. by rewrite filter_app, length_app. Qed.

Lemma broker_mails_save (e : env) (st : dict) : broker_mails [save_event e st] = [].
Proof. unfold save_event. by destruct (disk_mode_of e st). Qed.

Lemma completions_save (e : env) (st : dict) : completions [save_event e st] = 0.
Proof. unfold save_event. by destruct (disk_mode_of e st). Qed.

Lemma broker_mails_mail (e : env) (to : recipient) (m : mail) :
  broker_mails [mail_event e to m] =
    match to with BROKER_EMAIL => [m] | PERSONAL_EMAIL => [] end.
Proof.
  unfold broker_mails; simpl. rewrite mail_of_mail_event. by destruct to.
Qed.

Lemma completions_mail (e : env) (to : recipient) (m : mail) :
  completions [mail_event e to m] =
    match m with CompletionSummary _ => 1 | _ => 0 end.
Proof.
  unfold completions, is_completion. rewrite filter_cons, filter_nil.
  rewrite mail_of_mail_event. by destruct m.
Qed.

Lemma upto_S (k : nat) : upto (S k) = upto k ++ [SInt (Z.of_nat (S k))].
Proof. unfold upto. by rewrite seq_S, map_app. Qed.

Lemma ledger_after_refresh (e : env) (close : float) (date : string) (k : nat)
    (w : world) :
  disk_works e → ledger k w →
  ledger k (after_save e (refresh close date (stored_state w)) w).
Proof.
  intros Hdisk (Hle & Hk & Hw & Hb & Hc).
  assert (tidy (stored_state w)) as Hst
    by (by apply (stored_state_inv tidy tidy_default tidy_merge)).
  split; [done|]. split; [|split; [|split]].
  - rewrite stored_after_save, Hdisk. by apply counted_at_merge, counted_at_refresh.
  - apply on_disk_after_save; [done|by apply tidy_refresh].
  - simpl. by rewrite broker_mails_app, broker_mails_save, app_nil_r.
  - simpl. rewrite completions_app, completions_save. lia.
Qed.

Lemma ledger_after_fire (e : env) (st : dict) (p c d : float) (l : trigger_type)
    (k : nat) (w : world) :
  disk_works e → k < 15 → ledger k w → counted_at k st → tidy st →
  ledger (S k) (snd (Main.execute_trigger e st p c d l w)).
Proof.
  intros Hdisk Hlt (_ & _ & Hw & Hb & Hc) Hk Hst.
  destruct (counted_at_fire k e st p c d l Hk) as (st' & Hf & Hk').
  assert (tidy st') as Hst' by (by eapply tidy_fire).
  rewrite (execute_trigger_exact e st st' p c d l _
             (MAX_TRIGGERS <=? Z.of_nat (S k))%Z w Hf) by done.
  rewrite (progress_small (S k)) by lia.
  simpl. set (w3 := emit _ (emit _ _)).
  assert (on_disk tidy w3) as Hw3 by (by apply (on_disk_after_save tidy e st' w Hw)).
  assert (stored_state w3 = Main.merge_defaults st') as Hs3.
  { unfold w3. rewrite (stored_state_disk _ (after_save e st' w)) by done.
    by rewrite stored_after_save, Hdisk. }
  assert (map order_no (broker_mails (trace w3)) = map Some (upto (S k))) as Hb3.
  { rewrite upto_S, map_app. unfold w3, emit, after_save; cbn [trace].
    rewrite !broker_mails_app, broker_mails_save, !broker_mails_mail, !map_app, Hb.
    cbn [map order_no]. by rewrite !app_nil_r. }
  assert (completions (trace w3) = 0) as Hc3.
  { unfold w3, emit, after_save; simpl.
    rewrite !completions_app, completions_save, !completions_mail, Hc.
    rewrite decide_False by lia. done. }
  destruct (MAX_TRIGGERS <=? Z.of_nat (S k))%Z eqn:Hmax.
  - apply Z.leb_le in Hmax. unfold MAX_TRIGGERS in Hmax.
    assert (S k = 15) as Hk15 by lia.
    destruct (tidy_renders w3 Hw3) as (h & rows & Hh3 & Hrows & _).
    rewrite (send_completion_email_rows e w3 h Hh3), Hrows. simpl.
    split; [lia|]. split; [|split; [|split]].
    + rewrite (stored_state_disk _ w3) by done. rewrite Hs3. by apply counted_at_merge.
    + done.
    + unfold emit; cbn [trace].
      by rewrite broker_mails_app, broker_mails_mail, app_nil_r.
    + unfold emit; cbn [trace].
      rewrite completions_app, completions_mail, Hc3. by rewrite decide_True.
  - apply Z.leb_gt in Hmax. unfold MAX_TRIGGERS in Hmax. simpl.
    split; [lia|]. split; [|split; [|split]]; try done.
    + rewrite Hs3. by apply counted_at_merge.
    + rewrite Hc3. by rewrite decide_False by lia.
Qed.

Lemma ledger_step (e : env) (k : nat) (w w' : world) :
  disk_works e → scheduled_step e w w' → ledger k w →
  ledger k w' ∨ ledger (S k) w'.
Proof.
  intros Hdisk Hstep Hl. pose proof Hl as (_ & Hk & Hw & _).
  assert (tidy (stored_state w)) as Hst
    by (by apply (stored_state_inv tidy tidy_default tidy_merge)).
  destruct Hstep as [|close date Hel|p c d l Hel|close date p c d l Hel].
  - by left.
  - left. by apply ledger_after_refresh.
  - right. apply ledger_after_fire; try done. by eapply eligible_below_max.
  - right. apply ledger_after_fire.
    + done.
    + by eapply eligible_below_max.
    + by apply ledger_after_refresh.
    + by apply counted_at_refresh.
    + by apply tidy_refresh.
Qed.

Lemma ledger_fresh : ledger 0 fresh.
Proof. split; [lia|]. split; [apply counted_at_default|]. by repeat split. Qed.

(** X8. In a run of the scheduled checks from the empty state in which
    every write goes through, the mails addressed to the broker are exactly
    one buy order per trigger, numbered 1, 2, ... up to the stored counter
    and in that order; the counter stays within the maximum; and the
    completion summary is composed exactly once if the counter has reached
    15 and never before. *)
Theorem one_order_per_trigger (cs : list cycle) :
  Forall (λ c, is_scheduled c = true ∧ disk_works (cycle_env c)) cs →
  ∃ k, k ≤ 15
       ∧ counted_at k (stored_state (run_cycles cs fresh))
       ∧ map order_no (broker_mails (trace (run_cycles cs fresh))) = map Some (upto k)
       ∧ completions (trace (run_cycles cs fresh)) = (if decide (k = 15) then 1 else 0).
Proof.
  intros Hcs.
  assert (∀ w k, ledger k w → ∃ k', ledger k' (run_cycles cs w)) as Hgen.
  { induction Hcs as [|c cs [Hs Hd] _ IH]; intros w k Hl; [by exists k|].
    simpl.
    destruct (ledger_step (cycle_env c) k w (run_cycle c w) Hd
                (scheduled_cycle_step c w Hs) Hl) as [Hl'|Hl']; by eapply IH. }
  destruct (Hgen fresh 0 ledger_fresh) as (k & Hle & Hk & _ & Hb & Hc).
  by exists k.
Qed.

Lemma one_order_per_trigger_witness :
  ∃ k, k ≤ 15
       ∧ counted_at k (stored_state
                         (run_cycles [Intraday (quiet_env "2025-01-01" 100 95);
                                      Intraday (quiet_env "2025-01-02" 100 95)] fresh)).
Proof.
  destruct (one_order_per_trigger
              [Intraday (quiet_env "2025-01-01" 100 95);
               Intraday (quiet_env "2025-01-02" 100 95)])
    as (k & Hle & Hk & _).
  - repeat constructor.
  - by exists k.
Defined.

(** ** The reference-close refresh, again *)

(** X9. The intraday check stores a newly dated reference close before it
    fetches the price: when the price then cannot be fetched, the refreshed
    state is on disk all the same and nothing else was done.  Once the
    stored date is the fetched one, a check that does not fire writes
    nothing; and the close-to-close check never writes unless it fires. *)
Theorem refresh_is_written_once (e : env) (w : world) :
  (∀ close date stored,
     eligible e w → daily_close e = Some (close, date) →
     stored_state w !! "yesterday_close_date" = Some stored →
     py_eq_str stored date = false →
     disk_mode_of e (refresh close date (stored_state w)) = WriteOk →
     btc_price e = None →
     Main.check_and_trigger e w =
       (Ok (NoFire MissingPrice),
        World (Some (Json (refresh close date (stored_state w))))
          (trace w ++ [Saved (refresh close date (stored_state w))]))
     ∧ refresh close date (stored_state w) !! "yesterday_close"
         = Some (Atom (SFloat close))
     ∧ refresh close date (stored_state w) !! "yesterday_close_date"
         = Some (Atom (SStr date)))
  ∧ (∀ close date why,
       daily_close e = Some (close, date) →
       stored_state w !! "yesterday_close_date" = Some (Atom (SStr date)) →
       fst (Main.check_and_trigger e w) = Ok (NoFire why) →
       snd (Main.check_and_trigger e w) = w)
  ∧ (∀ why,
       fst (Main.check_daily_close e w) = Ok (NoFire why) →
       snd (Main.check_daily_close e w) = w).
Proof.
  split; [|split].
  - intros close date stored (count & last & Hc & Hge & Hl & Hne) Hclose Hs Hold Hok Hp.
    unfold refresh in *. split; [|by simplify_map_eq].
    start_check. rewrite Hc; simpl. rewrite Hge, Hl; simpl.
    rewrite Hne, Hclose, Hs; simpl. rewrite Hold; simpl.
    rewrite save_state_after, Hp.
    unfold after_save, saved_disk, save_event, refresh. by rewrite Hok.
  - intros close date why Hclose Hs. start_check.
    destruct (stored_state w !! "trigger_count") as [count|]; [simpl|done].
    destruct (py_ge count MAX_TRIGGERS MAX_TRIGGERS_f) as [[]|]; try done.
    destruct (stored_state w !! "last_trigger_date") as [last|]; [simpl|done].
    destruct (py_eq_str last (today_utc e)); [done|].
    rewrite Hclose, Hs; simpl. rewrite bool_decide_eq_true_2 by done. simpl.
    destruct (btc_price e) as [p|]; [|done].
    destruct (Main.drop_percent p close) as [d|]; simpl; [|done].
    destruct (d <=? INTRADAY_DIP_THRESHOLD)%float; [|done].
    by destruct (Main.execute_trigger _ _ _ _ _ _ _) as [[] ?].
  - intros why. start_check.
    destruct (stored_state w !! "trigger_count") as [count|]; [simpl|done].
    destruct (py_ge count MAX_TRIGGERS MAX_TRIGGERS_f) as [[]|]; try done.
    destruct (stored_state w !! "last_trigger_date") as [last|]; [simpl|done].
    destruct (py_eq_str last (today_utc e)); [done|].
    destruct (today_close e) as [p|]; [|done].
    destruct (daily_close e) as [[close date]|]; [|done].
    destruct (Main.drop_percent p close) as [d|]; simpl; [|done].
    destruct (d <=? CLOSE_TO_CLOSE_THRESHOLD)%float; [|done].
    by destruct (Main.execute_trigger _ _ _ _ _ _ _) as [[] ?].
Qed.

Lemma refresh_is_written_once_witness :
  let e := no_price_env "2025-01-01" 100 in
  Main.check_and_trigger e fresh =
    (Ok (NoFire MissingPrice),
     World (Some (Json (refresh 100 "2024-12-31" (stored_state fresh))))
       (trace fresh ++ [Saved (refresh 100 "2024-12-31" (stored_state fresh))])).
Proof.
  intros e.
  apply (proj1 (refresh_is_written_once e fresh) 100%float "2024-12-31" (Atom SNone));
    try reflexivity.
  exists (Atom (SInt 0)), (Atom SNone). by repeat split.
Defined.

(** ** The price functions *)

Lemma check_daily_close_no_close (e : env) (w : world) :
  today_close e = None → nothing_happened (Main.check_daily_close e w) w.
Proof.
  intros Hp. unfold nothing_happened. start_check.
  destruct (stored_state w !! "trigger_count") as [count|]; [simpl|done].
  destruct (py_ge count MAX_TRIGGERS MAX_TRIGGERS_f) as [[]|]; try done.
  destruct (stored_state w !! "last_trigger_date") as [last|]; [simpl|done].
  destruct (py_eq_str last (today_utc e)); [done|].
  by rewrite Hp.
Qed.

Lemma check_and_trigger_no_reference (e : env) (w : world) :
  daily_close e = None → nothing_happened (Main.check_and_trigger e w) w.
Proof.
  intros Hp. unfold nothing_happened. start_check.
  destruct (stored_state w !! "trigger_count") as [count|]; [simpl|done].
  destruct (py_ge count MAX_TRIGGERS MAX_TRIGGERS_f) as [[]|]; try done.
  destruct (stored_state w !! "last_trigger_date") as [last|]; [simpl|done].
  destruct (py_eq_str last (today_utc e)); [done|].
  by rewrite Hp.
Qed.

Lemma check_daily_close_no_reference (e : env) (w : world) :
  daily_close e = None → nothing_happened (Main.check_daily_close e w) w.
Proof.
  intros Hp. unfold nothing_happened. start_check.
  destruct (stored_state w !! "trigger_count") as [count|]; [simpl|done].
  destruct (py_ge count MAX_TRIGGERS MAX_TRIGGERS_f) as [[]|]; try done.
  destruct (stored_state w !! "last_trigger_date") as [last|]; [simpl|done].
  destruct (py_eq_str last (today_utc e)); [done|].
  rewrite Hp. by destruct (today_close e).
Qed.

Lemma get_today_close_spec (bi : builtins) (now : Z) (response : option (list candle))
    (c : float) :
  Main.get_today_close bi now response = Some c ↔
  ∃ candle rest t x,
    response = Some (candle :: rest) ∧ candle !! 6 = Some (KInt t)
    ∧ (t < now)%Z ∧ candle !! 4 = Some x ∧ py_float bi x = Some c.
Proof.
  unfold Main.get_today_close. split.
  - destruct response as [[|candle rest]|]; simpl; try done.
    destruct (candle !! 6) as [[t|s]|] eqn:H6; simpl; try done.
    destruct (t <? now)%Z eqn:Ht; [|done].
    destruct (candle !! 4) as [x|] eqn:H4; simpl; [|done].
    intros Hx. exists candle, rest, t, x.
    by rewrite Z.ltb_lt in Ht.
  - intros (candle & rest & t & x & -> & H6 & Ht & H4 & Hx). simpl.
    rewrite H6. simpl. rewrite (proj2 (Z.ltb_lt _ _) Ht), H4. by simpl.
Qed.

(** X10. [get_today_close] answers with a price exactly when the request
    gave a candle whose close time is strictly before the clock, and then
    with the close of that candle; while the candle it is given is still
    open, or the request failed or was empty, [check_daily_close] neither
    fires nor touches the state. *)
Theorem today_close_needs_a_closed_candle (f : feed) (e : env) (w : world) :
  (∀ c, Main.get_today_close (lib f) (now_ms f) (klines_1 f) = Some c ↔
        ∃ candle rest t x,
          klines_1 f = Some (candle :: rest) ∧ candle !! 6 = Some (KInt t)
          ∧ (t < now_ms f)%Z ∧ candle !! 4 = Some x ∧ py_float (lib f) x = Some c)
  ∧ (∀ candle rest t,
       klines_1 f = Some (candle :: rest) → candle !! 6 = Some (KInt t) →
       (now_ms f ≤ t)%Z →
       nothing_happened (Main.check_daily_close (fed f e) w) w)
  ∧ (klines_1 f = None ∨ klines_1 f = Some [] →
       nothing_happened (Main.check_daily_close (fed f e) w) w).
Proof.
  split; [intros c; apply get_today_close_spec|]. split.
  - intros candle rest t Hk H6 Ht. apply check_daily_close_no_close. simpl.
    destruct (Main.get_today_close _ _ _) as [c|] eqn:Hc; [|done].
    apply get_today_close_spec in Hc as (? & ? & t' & ? & Hk' & H6' & Ht' & _).
    rewrite Hk in Hk'. simplify_eq. lia.
  - intros Hk. apply check_daily_close_no_close. simpl.
    by destruct Hk as [-> | ->].
Qed.

Lemma today_close_needs_a_closed_candle_witness :
  Main.get_today_close sample_lib 1735689600000
    (Some [kline 1735603200000 "95.00" 1735689599999]) = Some 95%float
  ∧ nothing_happened
      (Main.check_daily_close
         (fed (Feed sample_lib 1735689900000 None
                 (Some [kline 1735603200000 "100.00" 1735689599999;
                        kline 1735689600000 "95.00" 1735775999999])
                 (Some [kline 1735689600000 "95.00" 1735775999999]))
              (quiet_env "2025-01-01" 100 95)) fresh) fresh.
Proof.
  split.
  - apply (today_close_needs_a_closed_candle
             (Feed sample_lib 1735689600000 None None
                (Some [kline 1735603200000 "95.00" 1735689599999]))
             (quiet_env "2025-01-01" 100 95) fresh).
    exists (kline 1735603200000 "95.00" 1735689599999), [], 1735689599999%Z,
      (KStr "95.00").
    repeat split; reflexivity.
  - apply (proj1 (proj2 (today_close_needs_a_closed_candle
             (Feed sample_lib 1735689900000 None
                (Some [kline 1735603200000 "100.00" 1735689599999;
                       kline 1735689600000 "95.00" 1735775999999])
                (Some [kline 1735689600000 "95.00" 1735775999999]))
             (quiet_env "2025-01-01" 100 95) fresh))
             (kline 1735689600000 "95.00" 1735775999999) [] 1735775999999%Z).
    + reflexivity.
    + reflexivity.
    + simpl. lia.
Defined.

Lemma lookup_from_the_end {A} (l : list A) (i : nat) :
  i + 1 ≤ length l → l !! (length l - (i + 1)) = reverse l !! i.
Proof.
  intros Hi. rewrite reverse_lookup by lia. f_equal. lia.
Qed.

Lemma get_binance_daily_close_spec (bi : builtins) (days_ago : nat)
    (data : list candle) (c : float) (d : string) :
  Main.get_binance_daily_close bi days_ago (Some data) = Some (c, d) ↔
  ∃ candle x ms,
    reverse data !! days_ago = Some candle
    ∧ candle !! 4 = Some x ∧ py_float bi x = Some c
    ∧ candle !! 0 = Some (KInt ms) ∧ utc_date bi ms = Some d.
Proof.
  unfold Main.get_binance_daily_close. simpl.
  destruct (decide (days_ago + 1 ≤ length data)) as [Hlen|Hlen].
  - rewrite (lookup_from_the_end data days_ago Hlen).
    destruct (reverse data !! days_ago) as [candle|]; simpl;
      [|split; [done|by intros (? & ? & ? & ? & _)]].
    split.
    + destruct (candle !! 4) as [x|] eqn:H4; simpl; [|done].
      destruct (py_float bi x) as [c'|] eqn:Hx; simpl; [|done].
      destruct (candle !! 0) as [[ms|s]|] eqn:H0; simpl; try done.
      destruct (utc_date bi ms) as [d'|] eqn:Hd; simpl; [|done].
      intros [= <- <-]. by exists candle, x, ms.
    + intros (? & x & ms & [= <-] & -> & Hx & -> & Hd). simpl.
      rewrite Hx. simpl. by rewrite Hd.
  - split; [done|]. intros (candle & ? & ? & Hr & _).
    apply lookup_lt_Some in Hr. rewrite length_reverse in Hr. lia.
Qed.

(** X11. [get_binance_daily_close] reads the candle [days_ago] places
    from the end of the answer, date and close from that one candle, and
    gives nothing when the answer is shorter or the request failed; with
    the two candles it asks for, the reference close does not depend on
    the newer, still moving candle.  Without a reference close neither
    check fires or touches the state. *)
Theorem daily_close_counts_from_the_end (bi : builtins) (days_ago : nat) :
  (∀ data c d,
     Main.get_binance_daily_close bi days_ago (Some data) = Some (c, d) ↔
     ∃ candle x ms,
       reverse data !! days_ago = Some candle
       ∧ candle !! 4 = Some x ∧ py_float bi x = Some c
       ∧ candle !! 0 = Some (KInt ms) ∧ utc_date bi ms = Some d)
  ∧ (∀ data, length data ≤ days_ago →
       Main.get_binance_daily_close bi days_ago (Some data) = None)
  ∧ Main.get_binance_daily_close bi days_ago None = None
  ∧ (∀ older newer newer',
       Main.get_binance_daily_close bi 1 (Some [older; newer])
       = Main.get_binance_daily_close bi 1 (Some [older; newer']))
  ∧ (∀ f e w,
       lib f = bi →
       Main.get_binance_daily_close bi 1 (klines_2 f) = None →
       nothing_happened (Main.check_and_trigger (fed f e) w) w
       ∧ nothing_happened (Main.check_daily_close (fed f e) w) w).
Proof.
  split; [intros data c d; apply get_binance_daily_close_spec|].
  split; [|split; [done|split; [done|]]].
  - intros data Hlen. unfold Main.get_binance_daily_close. simpl.
    destruct (decide (days_ago + 1 ≤ length data)); [lia|done].
  - intros f e w <- Hnone. split.
    + by apply check_and_trigger_no_reference.
    + by apply check_daily_close_no_reference.
Qed.

Lemma daily_close_counts_from_the_end_witness :
  Main.get_binance_daily_close sample_lib 1
    (Some [kline 1735603200000 "100.00" 1735689599999;
           kline 1735689600000 "95.00" 1735775999999])
  = Some (100%float, "2024-12-31")
  ∧ Main.get_binance_daily_close sample_lib 1
      (Some [kline 1735689600000 "95.00" 1735775999999]) = None.
Proof.
  split.
  - apply (daily_close_counts_from_the_end sample_lib 1).
    exists (kline 1735603200000 "100.00" 1735689599999), (KStr "100.00"),
      1735603200000%Z.
    repeat split; reflexivity.
  - apply (proj1 (proj2 (daily_close_counts_from_the_end sample_lib 1))).
    simpl. lia.
Defined.

(** ** The orders *)

Lemma is_third_trigger_divides (n : Z) :
  Main.is_third_trigger n = true ↔ (3 | n)%Z.
Proof.
  unfold Main.is_third_trigger. rewrite Z.eqb_eq.
  by rewrite Z.mod_divide.
Qed.

(** X12. The crypto order of a trigger holds the five core assets with
    their amounts, followed by BANANA and BONK at 100 each exactly when
    the trigger number is a multiple of three.  The personal mail lists
    the same crypto assets as the broker order, and the manual script
    builds the same tables and totals as the monitor.  Of the triggers 1
    to 15 the third triggers are 3, 6, 9, 12 and 15.  The total of the
    order depends on how [sum] adds: from left to right (up to CPython
    3.11) it is 2599.99, or 2799.99 on a third trigger; with the
    compensated summation (from 3.12 on) it is 2599.9900000000002, or
    2799.9900000000002; the eToro list totals 600 either way. *)
Theorem spec_assets_every_third_trigger (n : Z) :
  (Main.is_third_trigger n = true ↔ (3 | n)%Z)
  ∧ Main.assets n =
      Main.CORE_CRYPTO_ALLOCATIONS
      ++ (if Main.is_third_trigger n then Main.SPEC_CRYPTO_ALLOCATIONS else [])
  ∧ Main.crypto_assets n = Main.assets n
  ∧ TriggerNow.assets n = Main.assets n
  ∧ TriggerNow.crypto_assets n = Main.assets n
  ∧ (∀ how, TriggerNow.total_amount how n = Main.total_amount how n)
  ∧ (∀ how, TriggerNow.total_etoro how = Main.total_etoro how)
  ∧ filter (λ i, Main.is_third_trigger i = true) (seqZ 1 15) = [3; 6; 9; 12; 15]%Z
  ∧ Main.total_amount LeftToRight n =
      (if Main.is_third_trigger n then 2799.99 else 2599.99)%float
  ∧ Main.total_amount Compensated n =
      (if Main.is_third_trigger n then 2799.9900000000002
       else 2599.9900000000002)%float
  ∧ (∀ how, Main.total_etoro how = 600%float).
Proof.
  split; [apply is_third_trigger_divides|].
  unfold Main.total_amount, Main.assets.
  split; [by destruct (Main.is_third_trigger n)|].
  do 5 (split; [done|]).
  split; [by vm_compute|].
  split; [by destruct (Main.is_third_trigger n); vm_compute|].
  split; [by destruct (Main.is_third_trigger n); vm_compute|].
  intros []; by vm_compute.
Qed.

(** ** The monitoring loop *)

Lemma run_cycles_app (cs cs' : list cycle) (w : world) :
  run_cycles (cs ++ cs') w = run_cycles cs' (run_cycles cs w).
Proof. apply foldl_app. Qed.

Lemma run_job_effect (j : Main.job) (w : world) :
  Main.run_job j w =
    (match (match j with
            | Main.CheckAndTrigger e => fst (Main.check_and_trigger e w)
            | Main.CheckDailyClose e => fst (Main.check_daily_close e w)
            end) with
     | Ok _ => Ok tt
     | Raise ex => Raise ex
     end, run_cycle (job_cycle j) w).
Proof.
  destruct j as [e|e]; unfold Main.run_job, bind, ret; simpl.
  - by destruct (Main.check_and_trigger e w) as [[] ?].
  - by destruct (Main.check_daily_close e w) as [[] ?].
Qed.

Lemma run_pending_runs (due : list Main.job) (w : world) :
  ∃ cs, cs `prefix_of` map job_cycle due
        ∧ snd (Main.run_pending due w) = run_cycles cs w
        ∧ match fst (Main.run_pending due w) with
          | Ok _ => cs = map job_cycle due
          | Raise ex => ∃ cs' c, cs = cs' ++ [c] ∧ raises c (run_cycles cs' w) ex
          end.
Proof.
  revert w. induction due as [|j due IH]; intros w.
  - by exists [].
  - cbn [Main.run_pending]. unfold bind. rewrite run_job_effect.
    destruct j as [e|e]; cbn [job_cycle map].
    + destruct (fst (Main.check_and_trigger e w)) as [o|ex] eqn:Hr.
      * destruct (IH (run_cycle (Intraday e) w)) as (cs & Hp & Hs & Hf).
        exists (Intraday e :: cs). split; [by apply prefix_cons|]. split; [done|].
        destruct (fst (Main.run_pending due _)) as [|ex]; [by rewrite Hf|].
        destruct Hf as (cs' & c & -> & Hc). by exists (Intraday e :: cs'), c.
      * exists [Intraday e]. split; [apply prefix_cons, prefix_nil|].
        split; [done|]. by exists [], (Intraday e).
    + destruct (fst (Main.check_daily_close e w)) as [o|ex] eqn:Hr.
      * destruct (IH (run_cycle (DailyClose e) w)) as (cs & Hp & Hs & Hf).
        exists (DailyClose e :: cs). split; [by apply prefix_cons|]. split; [done|].
        destruct (fst (Main.run_pending due _)) as [|ex]; [by rewrite Hf|].
        destruct Hf as (cs' & c & -> & Hc). by exists (DailyClose e :: cs'), c.
      * exists [DailyClose e]. split; [apply prefix_cons, prefix_nil|].
        split; [done|]. by exists [], (DailyClose e).
Qed.

Lemma main_loop_unfold (due : list Main.job) (ticks : list (list Main.job))
    (w : world) :
  Main.main_loop (due :: ticks) w =
    match Main.run_pending due w with
    | (Raise ex, w') => (Raise ex, w')
    | (Ok _, w') =>
        match all_done w' with
        | Raise ex => (Raise ex, w')
        | Ok true => (Ok Main.AllComplete, w')
        | Ok false => Main.main_loop ticks w'
        end
    end.
Proof.
  cbn [Main.main_loop]. unfold bind at 1.
  destruct (Main.run_pending due w) as [[[]|ex] w']; [|done].
  unfold bind, lift, ret, all_done. rewrite load_state_stored.
  destruct (getitem (stored_state w') "trigger_count") as [count|]; simpl; [|done].
  by destruct (py_ge count MAX_TRIGGERS MAX_TRIGGERS_f) as [[]|].
Qed.

Lemma main_unfold (e : env) (ticks : list (list Main.job)) (w : world) :
  Main.main e ticks w =
    match all_done w with
    | Raise ex => (Raise ex, w)
    | Ok true => (Ok Main.AlreadyComplete, w)
    | Ok false =>
        match Main.check_and_trigger e w with
        | (Raise ex, w') => (Raise ex, w')
        | (Ok _, w') => Main.main_loop ticks w'
        end
    end.
Proof.
  unfold Main.main, bind at 1 2 3, lift, ret, all_done. rewrite load_state_stored.
  destruct (getitem (stored_state w) "trigger_count") as [count|]; simpl; [|done].
  by destruct (py_ge count MAX_TRIGGERS MAX_TRIGGERS_f) as [[]|].
Qed.

Lemma main_loop_runs (ticks : list (list Main.job)) (w : world) :
  ∃ cs, cs `prefix_of` map job_cycle (concat ticks)
        ∧ snd (Main.main_loop ticks w) = run_cycles cs w
        ∧ match fst (Main.main_loop ticks w) with
          | Ok Main.Interrupted => cs = map job_cycle (concat ticks)
          | Ok Main.AllComplete => all_done (run_cycles cs w) = Ok true
          | Ok Main.AlreadyComplete => False
          | Raise ex =>
              all_done (run_cycles cs w) = Raise ex
              ∨ ∃ cs' c, cs = cs' ++ [c] ∧ raises c (run_cycles cs' w) ex
          end.
Proof.
  revert w. induction ticks as [|due ticks IH]; intros w.
  - by exists [].
  - rewrite main_loop_unfold. cbn [concat]. rewrite map_app.
    destruct (run_pending_runs due w) as (cs1 & Hp1 & Hs1 & Hf1).
    destruct (Main.run_pending due w) as [[[]|ex] w1]; simpl in Hs1, Hf1.
    + subst cs1 w1.
      destruct (all_done (run_cycles (map job_cycle due) w)) as [[]|ex] eqn:Hd.
      * exists (map job_cycle due). split; [by apply prefix_app_r|]. by split.
      * destruct (IH (run_cycles (map job_cycle due) w)) as (cs2 & Hp2 & Hs2 & Hf2).
        exists (map job_cycle due ++ cs2).
        split; [by apply prefix_app|].
        split; [by rewrite run_cycles_app|].
        destruct (fst (Main.main_loop ticks _)) as [[]|ex].
        -- done.
        -- by rewrite run_cycles_app.
        -- by rewrite Hf2.
        -- rewrite run_cycles_app. destruct Hf2 as [Hf2|(cs' & c & -> & Hc)];
             [by left|right].
           exists (map job_cycle due ++ cs'), c.
           by rewrite app_assoc, run_cycles_app.
      * exists (map job_cycle due). split; [by apply prefix_app_r|].
        split; [done|by left].
    + exists cs1. split; [by apply prefix_app_r|]. split; [done|by right].
Qed.

Lemma main_runs (e : env) (ticks : list (list Main.job)) (w : world) :
  ∃ cs, cs `prefix_of` schedule_of e ticks
        ∧ snd (Main.main e ticks w) = run_cycles cs w
        ∧ ended (fst (Main.main e ticks w)) cs w.
Proof.
  rewrite main_unfold. unfold schedule_of.
  destruct (all_done w) as [[]|ex] eqn:Hd.
  - exists []. split; [apply prefix_nil|]. by split.
  - destruct (Main.check_and_trigger e w) as [[o|ex] w1] eqn:Hc.
    + destruct (main_loop_runs ticks w1) as (cs & Hp & Hs & Hf).
      assert ((Main.check_and_trigger e w).2 = w1) as Hw1 by (by rewrite Hc).
      exists (Intraday e :: cs). split; [by apply prefix_cons|].
      split; [simpl; by rewrite Hw1|].
      destruct (fst (Main.main_loop ticks w1)) as [[]|ex]; simpl; rewrite ?Hw1.
      * done.
      * done.
      * done.
      * destruct Hf as [Hf|(cs' & c & -> & Hr)]; [by left|right].
        exists (Intraday e :: cs'), c. split; [done|]. simpl. by rewrite Hw1.
    + exists [Intraday e]. split; [apply prefix_cons, prefix_nil|].
      split; [simpl; by rewrite Hc|].
      right. exists [], (Intraday e). split; [done|]. simpl. by rewrite Hc.
  - exists []. split; [apply prefix_nil|]. split; [done|by left].
Qed.

Lemma schedule_is_scheduled (e : env) (ticks : list (list Main.job)) :
  Forall (λ c, is_scheduled c = true) (schedule_of e ticks).
Proof.
  unfold schedule_of. constructor; [done|].
  apply Forall_map, Forall_forall. by intros [].
Qed.

Lemma Forall_prefix {A} (P : A → Prop) (l1 l2 : list A) :
  l1 `prefix_of` l2 → Forall P l2 → Forall P l1.
Proof. intros [k ->] H. by apply Forall_app in H as [? _]. Qed.

(** X13. A run of [main()] that no interrupt cuts short (it ends as
    complete, as already complete, or on an exception of a check) does
    what a prefix of its schedule does: its final world is that of the
    initial intraday check followed by the due jobs in order, up to the
    point where it ended, and nothing else is written or sent.  It stops
    as complete only on a stored counter that has reached the maximum,
    runs nothing at all when it starts on such a counter, and an exception
    that ends it was raised by the last check it ran or by its own test of
    the counter. *)
Theorem monitor_runs_a_prefix_of_its_schedule (e : env)
    (ticks : list (list Main.job)) (w : world) :
  fst (Main.main e ticks w) ≠ Ok Main.Interrupted →
  ∃ cs, cs `prefix_of` schedule_of e ticks
        ∧ Forall (λ c, is_scheduled c = true) cs
        ∧ snd (Main.main e ticks w) = run_cycles cs w
        ∧ match fst (Main.main e ticks w) with
          | Ok Main.AlreadyComplete => cs = [] ∧ all_done w = Ok true
          | Ok _ => cs ≠ [] ∧ all_done (run_cycles cs w) = Ok true
          | Raise ex =>
              all_done (run_cycles cs w) = Raise ex
              ∨ ∃ cs' c, cs = cs' ++ [c] ∧ raises c (run_cycles cs' w) ex
          end.
Proof.
  intros Hend.
  destruct (main_runs e ticks w) as (cs & Hp & Hs & He).
  exists cs. split; [done|]. split; [|split; [done|]].
  - eapply Forall_prefix; [done|apply schedule_is_scheduled].
  - by destruct (fst (Main.main e ticks w)) as [[]|ex].
Qed.

Lemma monitor_runs_a_prefix_of_its_schedule_witness :
  ∃ cs,
    cs `prefix_of` schedule_of (quiet_env "2025-01-02" 100 95)
                     (tick_envs "2025-01-02" 100 95 3)
    ∧ Forall (λ c, is_scheduled c = true) cs
    ∧ snd (Main.main (quiet_env "2025-01-02" 100 95)
             (tick_envs "2025-01-02" 100 95 3) (world_of (state_with 14 SNone)))
      = run_cycles cs (world_of (state_with 14 SNone))
    ∧ cs ≠ []
    ∧ all_done (run_cycles cs (world_of (state_with 14 SNone))) = Ok true.
Proof.
  destruct (monitor_runs_a_prefix_of_its_schedule (quiet_env "2025-01-02" 100 95)
              (tick_envs "2025-01-02" 100 95 3) (world_of (state_with 14 SNone)))
    as (cs & Hp & Hs & Hrun & Hend); [vm_compute; discriminate|].
  exists cs. split; [exact Hp|]. split; [exact Hs|]. split; [exact Hrun|].
  exact Hend.
Defined.

Lemma main_loop_final (ticks more : list (list Main.job)) (w : world) :
  fst (Main.main_loop ticks w) ≠ Ok Main.Interrupted →
  Main.main_loop (ticks ++ more) w = Main.main_loop ticks w.
Proof.
  revert w. induction ticks as [|due ticks IH]; intros w; [done|].
  rewrite <- app_comm_cons, !main_loop_unfold.
  destruct (Main.run_pending due w) as [[[]|ex] w1]; [|done].
  destruct (all_done w1) as [[]|ex]; try done. apply IH.
Qed.

Lemma main_final (e : env) (ticks more : list (list Main.job)) (w : world) :
  fst (Main.main e ticks w) ≠ Ok Main.Interrupted →
  Main.main e (ticks ++ more) w = Main.main e ticks w.
Proof.
  rewrite !main_unfold.
  destruct (all_done w) as [[]|ex]; try done.
  destruct (Main.check_and_trigger e w) as [[o|ex] w1]; [|done].
  apply main_loop_final.
Qed.

(** X14. The monitor stops for good.  Started on a stored counter at or
    above the maximum it returns at once, without a check, a write or a
    mail; and once a run has ended as complete or on an exception, no job
    that falls due later is run: a longer schedule gives the same result
    and the same world. *)
Theorem monitor_stops_for_good (e : env) (ticks more : list (list Main.job))
    (w : world) :
  (∀ n, stored_state w !! "trigger_count" = Some (Atom (SInt n)) →
        (MAX_TRIGGERS ≤ n)%Z →
        Main.main e ticks w = (Ok Main.AlreadyComplete, w))
  ∧ (fst (Main.main e ticks w) ≠ Ok Main.Interrupted →
     Main.main e (ticks ++ more) w = Main.main e ticks w).
Proof.
  split; [|apply main_final].
  intros n Hc Hn. rewrite main_unfold. unfold all_done, getitem. rewrite Hc. simpl.
  by rewrite (proj2 (Z.leb_le _ _) Hn).
Qed.

Lemma monitor_stops_for_good_witness :
  Main.main (quiet_env "2025-01-02" 100 95) (tick_envs "2025-01-02" 100 95 3)
    (world_of (state_with 15 SNone))
  = (Ok Main.AlreadyComplete, world_of (state_with 15 SNone)).
Proof.
  apply (proj1 (monitor_stops_for_good (quiet_env "2025-01-02" 100 95)
                  (tick_envs "2025-01-02" 100 95 3) []
                  (world_of (state_with 15 SNone))) 15%Z).
  - reflexivity.
  - unfold MAX_TRIGGERS. lia.
Defined.






(** ** The manual script, exactly *)

Lemma manual_main_exact (e : env) (w : world) (v : value) (n : atom)
    (h : list record) :
  raw_state w !! "trigger_count" = Some v →
  py_add1 v = Ok n →
  raw_state w !! "trigger_history" = Some (Rows h) →
  TriggerNow.main e w =
    (match disk_mode_of e (manual_update e (raw_state w) n h) with
     | WriteOk => Ok tt
     | OpenFails | DumpFails => Raise OSError
     end,
     World (saved_disk e (manual_update e (raw_state w) n h) (disk w))
       (trace w ++
          [mail_event e BROKER_EMAIL
             (ManualBrokerOrder n (TriggerNow.get_btc_price e));
           mail_event e PERSONAL_EMAIL
             (ManualPersonalAlert n (TriggerNow.get_btc_price e));
           save_event e (manual_update e (raw_state w) n h)])).
Proof.
  intros Hc Hadd Hh.
  unfold TriggerNow.main, bind, lift. rewrite raw_state_loaded.
  unfold getitem at 1. rewrite Hc; simpl. rewrite Hadd.
  set (price := TriggerNow.get_btc_price e).
  destruct (manual_send_email e BROKER_EMAIL (ManualBrokerOrder n price) w) as [b1 ->].
  set (w1 := emit _ w).
  destruct (manual_send_email e PERSONAL_EMAIL (ManualPersonalAlert n price) w1) as [b2 ->].
  set (w2 := emit _ w1).
  unfold TriggerNow.append_history, getitem.
  rewrite !lookup_insert_ne by done. rewrite Hh; simpl.
  fold price. change (<["trigger_history" := _]> _)
    with (manual_update e (raw_state w) n h).
  unfold TriggerNow.save_state, saved_disk, save_event, w2, w1, emit; simpl.
  destruct (disk_mode_of e (manual_update e (raw_state w) n h));
    by rewrite <- !app_assoc.
Qed.

(** X16. When the ticker cannot be fetched the manual script does not
    give up, as the scheduled check does: it goes on with the price 97000,
    which is what both its mails state and what the record it appends
    holds.  The check of the monitor in the same situation sends nothing
    and records nothing. *)
Theorem manual_script_falls_back_to_97000 (e : env) (w : world) (v : value)
    (n : atom) (h : list record) :
  btc_price e = None →
  raw_state w !! "trigger_count" = Some v →
  py_add1 v = Ok n →
  raw_state w !! "trigger_history" = Some (Rows h) →
  drop (length (trace w)) (trace (snd (TriggerNow.main e w))) =
    [mail_event e BROKER_EMAIL (ManualBrokerOrder n 97000);
     mail_event e PERSONAL_EMAIL (ManualPersonalAlert n 97000);
     save_event e (manual_update e (raw_state w) n h)]
  ∧ last (history_of (manual_update e (raw_state w) n h)) =
      Some (TriggerNow.manual_record n (exec_date e) (exec_time e) 97000)
  ∧ broker_mails (trace (snd (Main.check_and_trigger e w))) = broker_mails (trace w)
  ∧ ∀ l, fst (Main.check_and_trigger e w) ≠ Ok (Fire l).
Proof.
  intros Hp Hc Hadd Hh.
  rewrite (manual_main_exact e w v n h Hc Hadd Hh). simpl.
  assert (TriggerNow.get_btc_price e = 97000%float) as Hprice
    by (unfold TriggerNow.get_btc_price; by rewrite Hp).
  split; [by rewrite drop_app_length, Hprice|].
  split.
  { unfold history_of, manual_update. rewrite lookup_insert_eq.
    by rewrite last_snoc, Hprice. }
  start_check.
  destruct (stored_state w !! "trigger_count") as [count|]; [simpl|done].
  destruct (py_ge count MAX_TRIGGERS MAX_TRIGGERS_f) as [[]|]; try done.
  destruct (stored_state w !! "last_trigger_date") as [l|]; [simpl|done].
  destruct (py_eq_str l (today_utc e)); [done|].
  destruct (daily_close e) as [[close date]|]; [|done].
  destruct (stored_state w !! "yesterday_close_date") as [stored|]; [simpl|done].
  destruct (negb (py_eq_str stored date)); rewrite ?save_state_after, Hp; [|done].
  split; [|done].
  unfold after_save; simpl. by rewrite broker_mails_app, broker_mails_save, app_nil_r.
Qed.

Lemma manual_script_falls_back_to_97000_witness :
  drop (length (trace fresh))
    (trace (snd (TriggerNow.main (no_price_env "2025-01-01" 100) fresh))) =
    [mail_event (no_price_env "2025-01-01" 100) BROKER_EMAIL
       (ManualBrokerOrder (SInt 1) 97000);
     mail_event (no_price_env "2025-01-01" 100) PERSONAL_EMAIL
       (ManualPersonalAlert (SInt 1) 97000);
     save_event (no_price_env "2025-01-01" 100)
       (manual_update (no_price_env "2025-01-01" 100) (raw_state fresh) (SInt 1) [])]
  ∧ last (history_of
            (manual_update (no_price_env "2025-01-01" 100) (raw_state fresh) (SInt 1) []))
    = Some (TriggerNow.manual_record (SInt 1)
              (exec_date (no_price_env "2025-01-01" 100))
              (exec_time (no_price_env "2025-01-01" 100)) 97000)
  ∧ broker_mails
      (trace (snd (Main.check_and_trigger (no_price_env "2025-01-01" 100) fresh)))
    = broker_mails (trace fresh)
  ∧ ∀ l, fst (Main.check_and_trigger (no_price_env "2025-01-01" 100) fresh)
         ≠ Ok (Fire l).
Proof.
  apply (manual_script_falls_back_to_97000 (no_price_env "2025-01-01" 100) fresh
           (Atom (SInt 0)) (SInt 1) []); reflexivity.
Defined.

Lemma raw_state_disk (w w' : world) : disk w = disk w' → raw_state w = raw_state w'.
Proof.
  intros H. unfold raw_state, TriggerNow.load_state. rewrite H.
  by destruct (disk w') as [[]|].
Qed.

(** X17. A failed write ends the manual script with an error, but only
    after both mails have been handed to the notifier: the order has gone
    out and nothing records it.  When the file could not be opened it is
    left as it was, so the next run of the script sends the broker an order
    with the same trigger number again; when the write was cut short the
    file no longer parses and the next run starts from the default state. *)
Theorem manual_script_dies_after_the_mails (e : env) (w : world) (v : value)
    (n : atom) (h : list record) :
  raw_state w !! "trigger_count" = Some v →
  py_add1 v = Ok n →
  raw_state w !! "trigger_history" = Some (Rows h) →
  disk_mode_of e (manual_update e (raw_state w) n h) ≠ WriteOk →
  fst (TriggerNow.main e w) = Raise OSError
  ∧ drop (length (trace w)) (trace (snd (TriggerNow.main e w))) =
      [mail_event e BROKER_EMAIL (ManualBrokerOrder n (TriggerNow.get_btc_price e));
       mail_event e PERSONAL_EMAIL (ManualPersonalAlert n (TriggerNow.get_btc_price e));
       SaveFailed]
  ∧ (disk_mode_of e (manual_update e (raw_state w) n h) = OpenFails →
     disk (snd (TriggerNow.main e w)) = disk w
     ∧ ∀ e', broker_mails
               (drop (length (trace (snd (TriggerNow.main e w))))
                  (trace (snd (TriggerNow.main e' (snd (TriggerNow.main e w))))))
             = [ManualBrokerOrder n (TriggerNow.get_btc_price e')])
  ∧ (disk_mode_of e (manual_update e (raw_state w) n h) = DumpFails →
     raw_state (snd (TriggerNow.main e w)) = TriggerNow.default_state).
Proof.
  intros Hc Hadd Hh Hbad.
  rewrite (manual_main_exact e w v n h Hc Hadd Hh). simpl.
  unfold saved_disk, save_event.
  destruct (disk_mode_of e (manual_update e (raw_state w) n h)) eqn:Hm; [done| |].
  - split; [done|]. split; [by rewrite drop_app_length|].
    split; [|done]. intros _. split; [done|]. intros e'.
    set (w1 := World (disk w) _).
    assert (raw_state w1 = raw_state w) as Hraw by (by apply raw_state_disk).
    rewrite (manual_main_exact e' w1 v n h); rewrite ?Hraw; try done.
    simpl. rewrite drop_app_length.
    change [mail_event e' BROKER_EMAIL ?m; ?b; ?c]
      with ([mail_event e' BROKER_EMAIL m] ++ [b] ++ [c]).
    by rewrite !broker_mails_app, !broker_mails_mail, broker_mails_save.
  - split; [done|]. split; [by rewrite drop_app_length|].
    split; [done|]. by intros _.
Qed.

Lemma manual_script_dies_after_the_mails_witness :
  fst (TriggerNow.main (blind_env "2025-01-01") fresh) = Raise OSError
  ∧ drop (length (trace fresh))
      (trace (snd (TriggerNow.main (blind_env "2025-01-01") fresh))) =
      [mail_event (blind_env "2025-01-01") BROKER_EMAIL
         (ManualBrokerOrder (SInt 1) (TriggerNow.get_btc_price (blind_env "2025-01-01")));
       mail_event (blind_env "2025-01-01") PERSONAL_EMAIL
         (ManualPersonalAlert (SInt 1)
            (TriggerNow.get_btc_price (blind_env "2025-01-01")));
       SaveFailed]
  ∧ (disk_mode_of (blind_env "2025-01-01")
       (manual_update (blind_env "2025-01-01") (raw_state fresh) (SInt 1) [])
     = OpenFails →
     disk (snd (TriggerNow.main (blind_env "2025-01-01") fresh)) = disk fresh
     ∧ ∀ e', broker_mails
               (drop (length (trace (snd (TriggerNow.main (blind_env "2025-01-01")
                                            fresh))))
                  (trace (snd (TriggerNow.main e'
                                 (snd (TriggerNow.main (blind_env "2025-01-01")
                                         fresh))))))
             = [ManualBrokerOrder (SInt 1) (TriggerNow.get_btc_price e')])
  ∧ (disk_mode_of (blind_env "2025-01-01")
       (manual_update (blind_env "2025-01-01") (raw_state fresh) (SInt 1) [])
     = DumpFails →
     raw_state (snd (TriggerNow.main (blind_env "2025-01-01") fresh))
     = TriggerNow.default_state).
Proof.
  apply (manual_script_dies_after_the_mails (blind_env "2025-01-01") fresh
           (Atom (SInt 0)) (SInt 1) []); try reflexivity.
  simpl. discriminate.
Defined.
